(** * Stockbroker: trade validation, aggregation and persistence

    A shallow embedding of [src/stockbroker.py].  The classes of the
    program become modules of definitions over explicit state:

    - [TradeBook]          a record with the four attributes, [__eq__],
                           [to_csv_line] and [from_csv_line];
    - [StockCodeService]   the registry, a finite set of strings loaded
                           from a file;
    - [TradeValidator]     the four predicates and [validate_trade];
    - [TradeBookService]   a list of references to [TradeBook] objects,
                           the objects themselves and the orders file;
    - [CommandProcessor]   [process_command].

    Python values are modelled as follows.  A [str] is a [string] whose
    characters stand for the code points 0..255.  An [int] is a [Z].  A
    [float] is an IEEE 754 binary64 value, a [spec_float] of the Standard
    Library with precision 53 and maximal exponent 1024.  The built-in
    conversions the program calls ([str.strip], [str.split], [float],
    [int], [round], the [.2f] format) are defined in the first part of
    the file, after the behaviour of CPython.

    CPython 3.11 limits the number of digits converted between [int]
    and [str].  The classes are first defined as they run while no
    conversion meets the limit; the module [Limit] then has the limit
    and the calls that can fail by it.

    Left out: code points above 255; failures of the file system when
    the orders file is written. *)

From Stdlib Require Import ZArith Ascii String List Bool Lia.
From Stdlib Require Import Floats.SpecFloat Decimal DecimalString DecimalN.
From stdpp Require Import base gmap sets list strings.

Local Open Scope string_scope.
Local Open Scope list_scope.
Local Open Scope Z_scope.

(** ** Characters and strings *)

Module Py.

(** Code point of a character. *)
Definition ord (c : ascii) : N := N_of_ascii c.

(** [str.isspace] on one character: the Unicode white space of the range
    0..255 is TAB..CR, FS..US, SPACE, NEL and NBSP. *)
Definition isspace (c : ascii) : bool :=
  let n := ord c in
  ((9 <=? n) && (n <=? 13) || (28 <=? n) && (n <=? 32)
   || (n =? 133) || (n =? 160))%N.

(** The white space skipped by [float] and [int]: the C locale's
    [isspace] for code points below 128, Unicode white space above. *)
Definition isspace_num (c : ascii) : bool :=
  let n := ord c in
  ((9 <=? n) && (n <=? 13) || (n =? 32) || (n =? 133) || (n =? 160))%N.

(** Unicode property Uppercase on 0..255: A-Z, U+00C0-U+00D6 and
    U+00D8-U+00DE. *)
Definition isupper_char (c : ascii) : bool :=
  let n := ord c in
  ((65 <=? n) && (n <=? 90) || (192 <=? n) && (n <=? 214)
   || (216 <=? n) && (n <=? 222))%N.

(** Unicode property Lowercase on 0..255: a-z, the ordinal indicators
    U+00AA and U+00BA, the micro sign U+00B5, U+00DF-U+00F6 and
    U+00F8-U+00FF.  No character of this range is titlecase. *)
Definition islower_char (c : ascii) : bool :=
  let n := ord c in
  ((97 <=? n) && (n <=? 122) || (n =? 170) || (n =? 181) || (n =? 186)
   || (223 <=? n) && (n <=? 246) || (248 <=? n) && (n <=? 255))%N.

(** Letters (general categories Lu, Ll, Lt, Lm, Lo) on 0..255. *)
Definition isalpha_char (c : ascii) : bool :=
  isupper_char c || islower_char c.

Definition is_ascii_upper (c : ascii) : bool :=
  let n := ord c in ((65 <=? n) && (n <=? 90))%N.

Definition is_ascii (c : ascii) : bool := (ord c <? 128)%N.

Fixpoint forallb_str (p : ascii -> bool) (s : string) : bool :=
  match s with
  | EmptyString => true
  | String c s' => p c && forallb_str p s'
  end.

Fixpoint existsb_str (p : ascii -> bool) (s : string) : bool :=
  match s with
  | EmptyString => false
  | String c s' => p c || existsb_str p s'
  end.

(** [len(s)]. *)
Definition len (s : string) : Z := Z.of_nat (String.length s).

(** [s.isalpha()]: at least one character and all of them letters. *)
Definition isalpha (s : string) : bool :=
  negb (String.eqb s "") && forallb_str isalpha_char s.

(** [s.isupper()]: no lowercase (or titlecase) character and at least one
    uppercase character; uncased characters are allowed. *)
Definition isupper (s : string) : bool :=
  forallb_str (fun c => negb (islower_char c)) s && existsb_str isupper_char s.

(** [s.lstrip()], [s.rstrip()], [s.strip()] with a character class. *)
Fixpoint lstrip_with (sp : ascii -> bool) (s : string) : string :=
  match s with
  | EmptyString => EmptyString
  | String c s' => if sp c then lstrip_with sp s' else s
  end.

Fixpoint rstrip_with (sp : ascii -> bool) (s : string) : string :=
  match s with
  | EmptyString => EmptyString
  | String c s' =>
      match rstrip_with sp s' with
      | EmptyString => if sp c then EmptyString else String c EmptyString
      | r => String c r
      end
  end.

Definition strip_with (sp : ascii -> bool) (s : string) : string :=
  rstrip_with sp (lstrip_with sp s).

Definition strip : string -> string := strip_with isspace.

(** [s.split(sep)] for a one-character separator: never empty, the
    fields may be. *)
Fixpoint split_on (sep : ascii) (s : string) : list string :=
  match s with
  | EmptyString => [EmptyString]
  | String c s' =>
      if Ascii.eqb c sep then EmptyString :: split_on sep s'
      else match split_on sep s' with
           | f :: fs => String c f :: fs
           | [] => [String c EmptyString]
           end
  end.

(** [s.split()]: the maximal runs of characters that are not white
    space. *)
Fixpoint split (s : string) : list string :=
  match s with
  | EmptyString => []
  | String c s' =>
      if isspace c then split s'
      else match s' with
           | EmptyString => [String c EmptyString]
           | String c' _ =>
               if isspace c' then String c EmptyString :: split s'
               else match split s' with
                    | w :: ws => String c w :: ws
                    | [] => [String c EmptyString]
                    end
           end
  end.

(** The lines a text file yields when iterated over.  With universal
    newlines a line ends at CR, LF or CR LF; the terminator is left out
    here, and CR LF gives an extra empty line: every caller strips the
    line and skips it when it is empty. *)
Definition is_newline (c : ascii) : bool :=
  ((ord c =? 10) || (ord c =? 13))%N.

Fixpoint lines (s : string) : list string :=
  match s with
  | EmptyString => [EmptyString]
  | String c s' =>
      if is_newline c then EmptyString :: lines s'
      else match lines s' with
           | l :: ls => String c l :: ls
           | [] => [String c EmptyString]
           end
  end.

End Py.

(** ** Numbers: [int], [float] and their text forms *)

Module Num.

Definition float := spec_float.

Definition prec : Z := 53.
Definition emax : Z := 1024.

(** The binary64 value nearest to [a / b], ties to even, with sign [s];
    the quotient is rounded once, by the reference division of the
    Standard Library applied to the two integers. *)
Definition float_of_ratio (s : bool) (a b : positive) : float :=
  SFdiv prec emax (S754_finite s a 0) (S754_finite false b 0).

(** The binary64 value nearest to [n * 10 ^ k]: what the correctly
    rounded [strtod] of CPython returns for a decimal numeral with digits
    [n] and decimal exponent [k]. *)
Definition float_of_dec (s : bool) (n : N) (k : Z) : float :=
  match n with
  | N0 => S754_zero s
  | Npos p =>
      if 0 <=? k then float_of_ratio s (p * Z.to_pos (10 ^ k)) 1
      else float_of_ratio s p (Z.to_pos (10 ^ (- k)))
  end.

(** Comparison operators of Python on floats. *)
Definition float_eq (x y : float) : bool := SFeqb x y.
Definition float_ge (x y : float) : bool := SFleb y x.

(** Nearest integer to [n / d], ties to even, for [0 <= n] and [0 < d]. *)
Definition div_half_even (n d : Z) : Z :=
  let q := n / d in
  match 2 * (n mod d) ?= d with
  | Lt => q
  | Gt => q + 1
  | Eq => if Z.even q then q else q + 1
  end.

(** The exact value [m * 2 ^ e] times 100, rounded to the nearest
    integer, ties to even: the digits [dtoa] produces in mode 3 with two
    places. *)
Definition hundredths (m : positive) (e : Z) : N :=
  Z.to_N (if 0 <=? e then 100 * Zpos m * 2 ^ e
          else div_half_even (100 * Zpos m) (2 ^ (- e))).

(** [round(x, 2)] on a float: infinities and NaN round to themselves, a
    finite value is printed with two places and read back. *)
Definition round2 (x : float) : float :=
  match x with
  | S754_finite s m e => float_of_dec s (hundredths m e) (-2)
  | _ => x
  end.

(** Decimal digits of a natural number, at least one. *)
Definition digits (n : N) : string := NilEmpty.string_of_uint (N.to_uint n).

(** [str(v)] for an [int], while [v] has no more digits than the limit
    of [Limit.str_int]. *)
Definition str_int (v : Z) : string :=
  match v with
  | Z0 => "0"
  | Zpos p => digits (Npos p)
  | Zneg p => String "-" (digits (Npos p))
  end.

Definition digit_char (k : N) : ascii := ascii_of_N (48 + k).

(** Two digits, with a leading zero below ten. *)
Definition two_digits (n : N) : string :=
  String (digit_char (n / 10)) (String (digit_char (n mod 10)) EmptyString).

Definition fixed2 (s : bool) (h : N) : string :=
  (if s then "-" else "") +:+ digits (h / 100) +:+ "." +:+ two_digits (h mod 100).

(** [f"{x:.2f}"]. *)
Definition format_2f (x : float) : string :=
  match x with
  | S754_nan => "nan"
  | S754_infinity s => if s then "-inf" else "inf"
  | S754_zero s => fixed2 s 0
  | S754_finite s m e => fixed2 s (hundredths m e)
  end.

(** *** Reading numerals *)

Definition digit_value (c : ascii) : option N :=
  let n := Py.ord c in
  if ((48 <=? n) && (n <=? 57))%N then Some (n - 48)%N else None.

Definition is_digit (c : ascii) : bool :=
  match digit_value c with Some _ => true | None => false end.

(** The longest prefix of decimal digits: the number read after the
    digits accumulated in [acc], how many digits were read, and what
    follows them. *)
Fixpoint scan_digits (acc : N) (s : string) : N * nat * string :=
  match s with
  | EmptyString => (acc, O, EmptyString)
  | String c s' =>
      match digit_value c with
      | Some d => let '(n, k, r) := scan_digits (10 * acc + d) s' in (n, S k, r)
      | None => (acc, O, s)
      end
  end.

Definition parse_sign (s : string) : bool * string :=
  match s with
  | String "-" r => (true, r)
  | String "+" r => (false, r)
  | _ => (false, s)
  end.

(** Digits of an [int] literal: single underscores are allowed between
    digits; two in a row or one at the end are an error. *)
Fixpoint scan_int_digits (acc : N) (s : string) : option (N * nat * string) :=
  match s with
  | EmptyString => Some (acc, O, EmptyString)
  | String c s' =>
      match digit_value c with
      | None => Some (acc, O, s)
      | Some d =>
          let acc' := (10 * acc + d)%N in
          match s' with
          | String "_" s'' =>
              match s'' with
              | String c2 _ =>
                  if is_digit c2
                  then match scan_int_digits acc' s'' with
                       | Some (n, k, r) => Some (n, S k, r)
                       | None => None
                       end
                  else None
              | EmptyString => None
              end
          | _ =>
              match scan_int_digits acc' s' with
              | Some (n, k, r) => Some (n, S k, r)
              | None => None
              end
          end
      end
  end.

(** [int(s)]: [None] stands for [ValueError].  White space around the
    numeral and a sign before it are accepted.  The numeral has no more
    digits than the limit of [Limit.py_int]. *)
Definition py_int (s : string) : option Z :=
  let (neg, r) := parse_sign (Py.lstrip_with Py.isspace_num s) in
  match scan_int_digits 0 r with
  | None | Some (_, O, _) => None
  | Some (n, _, rest) =>
      match Py.lstrip_with Py.isspace_num rest with
      | EmptyString => Some (if neg then - Z.of_N n else Z.of_N n)
      | _ => None
      end
  end.

(** Underscores of a [float] literal: each one must stand between two
    digits.  [prev] is the character before [s]. *)
Fixpoint remove_underscores (prev : ascii) (s : string) : option string :=
  match s with
  | EmptyString => if Ascii.eqb prev "_" then None else Some EmptyString
  | String c s' =>
      if Ascii.eqb c "_"
      then if is_digit prev then remove_underscores c s' else None
      else if Ascii.eqb prev "_" && negb (is_digit c) then None
           else option_map (String c) (remove_underscores c s')
  end.

Definition is_exp_char (c : ascii) : bool :=
  Ascii.eqb c "e" || Ascii.eqb c "E".

(** Decimal exponent part at the head of [s]: its value and the rest.
    Without a digit after the [e] nothing is consumed. *)
Definition scan_exponent (s : string) : Z * string :=
  match s with
  | String c r =>
      if is_exp_char c then
        let (eneg, r1) := parse_sign r in
        match scan_digits 0 r1 with
        | (_, O, _) => (0, s)
        | (n, _, r2) => ((if eneg then - Z.of_N n else Z.of_N n), r2)
        end
      else (0, s)
  | EmptyString => (0, s)
  end.

(** [strtod]: sign, digits, optional point and digits, optional
    exponent.  The result is the value and the unread rest; [None] when
    there is no digit. *)
Definition strtod (s : string) : option (float * string) :=
  let (neg, r0) := parse_sign s in
  let '(n1, k1, r1) := scan_digits 0 r0 in
  let '(n2, k2, r2) := match r1 with
                       | String "." r => scan_digits n1 r
                       | _ => (n1, O, r1)
                       end in
  if (k1 + k2 =? 0)%nat then None
  else
    let (e, r3) := scan_exponent r2 in
    Some (float_of_dec neg n2 (e - Z.of_nat k2), r3).

Definition lower_char (c : ascii) : ascii :=
  if Py.is_ascii_upper c then ascii_of_N (Py.ord c + 32) else c.

Fixpoint lower (s : string) : string :=
  match s with
  | EmptyString => EmptyString
  | String c s' => String (lower_char c) (lower s')
  end.

(** The spellings of infinity and NaN, in any letter case. *)
Definition parse_inf_or_nan (s : string) : option float :=
  let (neg, r) := parse_sign s in
  let l := lower r in
  if String.eqb l "inf" || String.eqb l "infinity" then Some (S754_infinity neg)
  else if String.eqb l "nan" then Some S754_nan
  else None.

(** [float(s)]: [None] stands for [ValueError]. *)
Definition py_float (s : string) : option float :=
  match remove_underscores "000" s with
  | None => None
  | Some s1 =>
      let t := Py.strip_with Py.isspace_num s1 in
      match strtod t with
      | Some (x, EmptyString) => Some x
      | Some _ => None
      | None => parse_inf_or_nan t
      end
  end.

End Num.

Import Num.

(** ** Exceptions and files *)

Inductive exn := ValueError | FileNotFoundError | PermissionError.

Inductive result (A : Type) :=
  | Ok (a : A)
  | Raise (e : exn).
Arguments Ok {A} a.
Arguments Raise {A} e.

(** A path of the file system: nothing there, a file that may not be
    read, or a text file with its content. *)
Inductive file :=
  | Absent
  | Denied
  | Text (content : string).

(** [open(filename, "r")] followed by reading the whole file. *)
Definition open_read (f : file) : result string :=
  match f with
  | Absent => Raise FileNotFoundError
  | Denied => Raise PermissionError
  | Text content => Ok content
  end.

Definition newline : string := String (ascii_of_N 10) EmptyString.

(** ** class TradeBook *)

Record TradeBook := mkTradeBook {
  action : string;
  stock_code : string;
  price : float;
  volume : Z
}.

(** [TradeBook.__eq__]: the volume is not compared. *)
Definition TradeBook_eq (self other : TradeBook) : bool :=
  String.eqb (action self) (action other)
  && String.eqb (stock_code self) (stock_code other)
  && float_eq (price self) (price other).

Definition to_csv_line (self : TradeBook) : string :=
  action self +:+ "," +:+ stock_code self +:+ "," +:+
  format_2f (price self) +:+ "," +:+ str_int (volume self).

(** The unpacking of the four fields, [float] and [int] all raise
    [ValueError]. *)
Definition from_csv_line (line : string) : result TradeBook :=
  match Py.split_on "," (Py.strip line) with
  | [a; c; p; v] =>
      match py_float p with
      | None => Raise ValueError
      | Some p' =>
          match py_int v with
          | None => Raise ValueError
          | Some v' => Ok (mkTradeBook a c p' v')
          end
      end
  | _ => Raise ValueError
  end.

(** ** class StockCodeService *)

Record StockCodeService := mkStockCodeService {
  sc_filename : string;
  stock_codes : gset string
}.

(** The loop of [load_stock_codes] over the lines of the file. *)
Fixpoint add_stock_codes (ls : list string) (codes : gset string) : gset string :=
  match ls with
  | [] => codes
  | line :: ls' =>
      let stock_code := Py.strip line in
      if String.eqb stock_code "" then add_stock_codes ls' codes
      else add_stock_codes ls' ({[stock_code]} ∪ codes)
  end.

(** [load_stock_codes]: the service after the call and the lines
    printed; only [FileNotFoundError] is caught. *)
Definition load_stock_codes (self : StockCodeService) (src : file)
  : result StockCodeService * list string :=
  match open_read src with
  | Ok content =>
      (Ok (mkStockCodeService (sc_filename self)
             (add_stock_codes (Py.lines content) (stock_codes self))), [])
  | Raise FileNotFoundError =>
      (Ok (mkStockCodeService (sc_filename self) ∅),
       ["Warning: Stock code file '" +:+ sc_filename self +:+ "' not found."])
  | Raise e => (Raise e, [])
  end.

(** [StockCodeService.__init__]. *)
Definition new_StockCodeService (filename : string) (src : file)
  : result StockCodeService * list string :=
  load_stock_codes (mkStockCodeService filename ∅) src.

Definition is_valid_stock_code (self : StockCodeService) (stock_code : string) : bool :=
  bool_decide (stock_code ∈ stock_codes self).

(** ** class TradeValidator *)

Definition validate_action (action : string) : bool :=
  String.eqb action "buy" || String.eqb action "sell".

Definition validate_stock_code (svc : StockCodeService) (stock_code : string) : bool :=
  if String.eqb stock_code "" || negb (Py.len stock_code =? 4) then false
  else if negb (Py.isupper stock_code) || negb (Py.isalpha stock_code) then false
  else is_valid_stock_code svc stock_code.

Definition half : float := float_of_dec false 50 (-2).

Definition validate_price (price : float) : bool :=
  float_ge price half && float_eq (round2 price) price.

Definition validate_volume (volume : Z) : bool :=
  (1 <=? volume) && (volume <=? 1000000).

Definition msg_invalid_action : string :=
  "Invalid action. Must be 'buy' or 'sell'.".
Definition msg_invalid_stock_code : string :=
  "Invalid stock code. Must be 4 uppercase letters and exist in stockcode.csv.".
Definition msg_invalid_price : string :=
  "Invalid price. Must be a number with 2 decimal places and >= 0.50.".
Definition msg_invalid_volume : string :=
  "Invalid volume. Must be between 1 and 1,000,000.".

Definition validate_trade (svc : StockCodeService)
    (action stock_code : string) (price : float) (volume : Z) : bool * string :=
  if negb (validate_action action) then (false, msg_invalid_action)
  else if negb (validate_stock_code svc stock_code) then (false, msg_invalid_stock_code)
  else if negb (validate_price price) then (false, msg_invalid_price)
  else if negb (validate_volume volume) then (false, msg_invalid_volume)
  else (true, "").

(** ** class TradeBookService *)

(** [trade_books] is a Python list of references: [objects] holds the
    [TradeBook] objects by address, [trade_books] the addresses in list
    order, and [orders] is the file at [self.filename]. *)
Record TradeBookService := mkTradeBookService {
  objects : list TradeBook;
  trade_books : list nat;
  orders : file
}.

(** The objects the list refers to, in list order. *)
Definition records (self : TradeBookService) : list TradeBook :=
  omap (fun r => objects self !! r) (trade_books self).

(** [self.trade_books.append(b)] for a newly constructed [b]. *)
Definition append_new (self : TradeBookService) (b : TradeBook) : TradeBookService :=
  mkTradeBookService (objects self ++ [b])
                     (trade_books self ++ [length (objects self)])
                     (orders self).

(** How a method that may raise ends: normally, or with an exception in
    the state reached when it was raised. *)
Inductive outcome :=
  | Done (self : TradeBookService)
  | Failed (e : exn) (self : TradeBookService).

(** The loop of [load_trade_books] over the lines of the file. *)
Fixpoint load_lines (ls : list string) (self : TradeBookService) : outcome :=
  match ls with
  | [] => Done self
  | l :: ls' =>
      let line := Py.strip l in
      if String.eqb line "" then load_lines ls' self
      else match from_csv_line line with
           | Ok b => load_lines ls' (append_new self b)
           | Raise e => Failed e self
           end
  end.

Definition load_trade_books (self : TradeBookService) : outcome :=
  match open_read (orders self) with
  | Ok content => load_lines (Py.lines content) self
  | Raise FileNotFoundError =>
      Done (mkTradeBookService (objects self) [] (orders self))
  | Raise e => Failed e self
  end.

(** [TradeBookService.__init__]. *)
Definition new_TradeBookService (f : file) : outcome :=
  load_trade_books (mkTradeBookService [] [] f).

Definition serialize (bs : list TradeBook) : string :=
  foldr (fun b acc => to_csv_line b +:+ newline +:+ acc) "" bs.

(** [save_trade_books]: the file is overwritten with one line per
    record; the write is taken to succeed.  Creating the parent
    directory leaves no trace here. *)
Definition save_trade_books (self : TradeBookService) : TradeBookService :=
  mkTradeBookService (objects self) (trade_books self)
                     (Text (serialize (records self))).

(** The scan of [find_trade_book] over the references of the list. *)
Fixpoint find_ref (objs : list TradeBook) (search_book : TradeBook)
    (refs : list nat) : option nat :=
  match refs with
  | [] => None
  | r :: refs' =>
      match objs !! r with
      | Some trade_book =>
          if TradeBook_eq trade_book search_book then Some r
          else find_ref objs search_book refs'
      | None => find_ref objs search_book refs'
      end
  end.

(** [find_trade_book] returns the reference of the first match. *)
Definition find_trade_book (self : TradeBookService)
    (action stock_code : string) (price : float) : option nat :=
  let search_book := mkTradeBook action stock_code price 0 in
  find_ref (objects self) search_book (trade_books self).

Definition add_volume (v : Z) (b : TradeBook) : TradeBook :=
  mkTradeBook (action b) (stock_code b) (price b) (volume b + v).

Definition msg_updated : string := "Trade book updated.".
Definition msg_added : string := "Trade book added.".

(** [if existing_book:] tests for [None]: a [TradeBook] defines neither
    [__bool__] nor [__len__], so every object is true.  The volume is
    added through the reference, in the object the list refers to. *)
Definition process_trade (self : TradeBookService)
    (action stock_code : string) (price : float) (volume : Z)
  : string * TradeBookService :=
  match find_trade_book self action stock_code price with
  | Some existing_book =>
      let self1 := mkTradeBookService
                     (alter (add_volume volume) existing_book (objects self))
                     (trade_books self) (orders self) in
      (msg_updated, save_trade_books self1)
  | None =>
      let new_book := mkTradeBook action stock_code price volume in
      (msg_added, save_trade_books (append_new self new_book))
  end.

(** ** class CommandProcessor *)

Definition msg_invalid_format : string :=
  "Invalid command. Format: [buy|sell] [STOCKCODE] [PRICE] [VOLUME]".
Definition msg_invalid_number : string :=
  "Invalid command. Price must be a decimal number and volume must be an integer.".

Definition process_command (validator : StockCodeService)
    (store : TradeBookService) (command : string) : string * TradeBookService :=
  match Py.split (Py.strip command) with
  | [action; stock_code; price_str; volume_str] =>
      match py_float price_str with
      | None => (msg_invalid_number, store)
      | Some price =>
          match py_int volume_str with
          | None => (msg_invalid_number, store)
          | Some volume =>
              let (is_valid, error_message) :=
                validate_trade validator action stock_code price volume in
              if negb is_valid then (error_message, store)
              else process_trade store action stock_code price volume
          end
      end
  | _ => (msg_invalid_format, store)
  end.

(** ** Notions used in the statements *)

(** Every cell of [trade_books] refers to an allocated object and no two
    cells refer to the same one. *)
Definition wf (self : TradeBookService) : Prop :=
  NoDup (trade_books self) /\
  Forall (fun r => (r < length (objects self))%nat) (trade_books self).

(** The identity a lookup for [(action, stock_code, price)] compares
    with. *)
Definition search_book (action stock_code : string) (price : float) : TradeBook :=
  mkTradeBook action stock_code price 0.

(** [process_trade] seen on the list of records: the first record equal
    to the search book gets the volume added, in place. *)
Fixpoint merge_volume (sb : TradeBook) (v : Z) (bs : list TradeBook)
  : option (list TradeBook) :=
  match bs with
  | [] => None
  | b :: bs' =>
      if TradeBook_eq b sb then Some (add_volume v b :: bs')
      else match merge_volume sb v bs' with
           | Some bs'' => Some (b :: bs'')
           | None => None
           end
  end.

Definition process_records (action stock_code : string) (price : float)
    (volume : Z) (bs : list TradeBook) : string * list TradeBook :=
  match merge_volume (search_book action stock_code price) volume bs with
  | Some bs' => (msg_updated, bs')
  | None => (msg_added, bs ++ [mkTradeBook action stock_code price volume])
  end.

(** At most one record per identity: no two cells of the list hold
    records that are equal under [TradeBook.__eq__]. *)
Definition unique_identity (bs : list TradeBook) : Prop :=
  forall i j bi bj,
    bs !! i = Some bi -> bs !! j = Some bj ->
    TradeBook_eq bi bj = true -> i = j.

(** The stores reached by loads that bring no record equal to another
    record of the file or of the list, and by calls of [process_trade].
    A service starts with an empty list and its first load. *)
Inductive reached : TradeBookService -> Prop :=
  | reached_init f : reached (mkTradeBookService [] [] f)
  | reached_load self self' :
      reached self -> load_trade_books self = Done self' ->
      unique_identity (records self') -> reached self'
  | reached_trade self a c p v :
      reached self -> reached (snd (process_trade self a c p v)).

(** The stores reached from a new service on a missing orders file by
    commands. *)
Inductive commanded (validator : StockCodeService) : TradeBookService -> Prop :=
  | commanded_new : commanded validator (mkTradeBookService [] [] Absent)
  | commanded_step self command :
      commanded validator self ->
      commanded validator (snd (process_command validator self command)).

(** The three ways [process_command] rejects a command, each with the
    message it returns. *)
Inductive rejected (validator : StockCodeService) (command : string) : string -> Prop :=
  | rejected_format :
      length (Py.split (Py.strip command)) <> 4%nat ->
      rejected validator command msg_invalid_format
  | rejected_number a c ps vs :
      Py.split (Py.strip command) = [a; c; ps; vs] ->
      py_float ps = None \/ py_int vs = None ->
      rejected validator command msg_invalid_number
  | rejected_validation a c ps vs p v m :
      Py.split (Py.strip command) = [a; c; ps; vs] ->
      py_float ps = Some p -> py_int vs = Some v ->
      validate_trade validator a c p v = (false, m) ->
      rejected validator command m.

(** A record as the validator admits it: the volume is left free, it is
    a sum of admitted volumes. *)
Definition valid_record (svc : StockCodeService) (b : TradeBook) : Prop :=
  validate_action (action b) = true /\
  validate_stock_code svc (stock_code b) = true /\
  validate_price (price b) = true.

(** The lines [load_trade_books] reads: stripped, the empty ones left
    out. *)
Definition data_lines (content : string) : list string :=
  filter (fun l => l <> "") (map Py.strip (Py.lines content)).

(** A line of four comma-separated fields with a price [float] reads and
    a volume [int] reads. *)
Definition parse_fields (line : string) : option TradeBook :=
  match Py.split_on "," line with
  | [a; c; p; v] =>
      match py_float p, py_int v with
      | Some p', Some v' => Some (mkTradeBook a c p' v')
      | _, _ => None
      end
  | _ => None
  end.

(** A line of the orders file that [from_csv_line] does not accept. *)
Inductive malformed (line : string) : Prop :=
  | malformed_count :
      length (Py.split_on "," line) <> 4%nat -> malformed line
  | malformed_number a c p v :
      Py.split_on "," line = [a; c; p; v] ->
      py_float p = None \/ py_int v = None -> malformed line.

(** ** Notions used in the proofs on numerals *)

(** The number a digit sequence denotes after the digits accumulated in
    [acc]. *)
Fixpoint uint_val (acc : N) (d : uint) : N :=
  match d with
  | Nil => acc
  | D0 d' => uint_val (10 * acc + 0) d'
  | D1 d' => uint_val (10 * acc + 1) d'
  | D2 d' => uint_val (10 * acc + 2) d'
  | D3 d' => uint_val (10 * acc + 3) d'
  | D4 d' => uint_val (10 * acc + 4) d'
  | D5 d' => uint_val (10 * acc + 5) d'
  | D6 d' => uint_val (10 * acc + 6) d'
  | D7 d' => uint_val (10 * acc + 7) d'
  | D8 d' => uint_val (10 * acc + 8) d'
  | D9 d' => uint_val (10 * acc + 9) d'
  end%N.

Definition starts_non_digit (s : string) : bool :=
  match s with
  | EmptyString => true
  | String c _ => negb (is_digit c)
  end.

(** Characters that may occur inside a field of a CSV line without
    changing how the line is split and stripped. *)
Definition field_char (c : ascii) : bool :=
  negb (Py.isspace c) && negb (Ascii.eqb c ",").

(** Characters of the text of a number. *)
Definition num_char (c : ascii) : bool :=
  is_digit c || Ascii.eqb c "." || Ascii.eqb c "-".

(** ** Sample values *)

Definition sample_registry : StockCodeService :=
  mkStockCodeService "data/stockcode.csv" ({["AAPL"]} ∪ {["MSFT"]}).

(** The float of the literal [150.00]. *)
Definition price_150 : float := float_of_dec false 15000 (-2).

(** A store holding one record, as [buy AAPL 150.00 100] leaves it. *)
Definition sample_store : TradeBookService :=
  mkTradeBookService [mkTradeBook "buy" "AAPL" price_150 100] [O]
                     (Text ("buy,AAPL,150.00,100" +:+ newline)).


(** A command whose price does not read as a number. *)
Definition bad_price_command : string := "buy AAPL abc 100".

(** Four uppercase letters outside ASCII: U+00C0, U+00C9, U+00CE and
    U+00D5. *)
Definition accented_code : string :=
  String (ascii_of_N 192) (String (ascii_of_N 201)
    (String (ascii_of_N 206) (String (ascii_of_N 213) EmptyString))).


(** The float of the literal [1.001]. *)
Definition price_1001 : float := float_of_dec false 1001 (-3).

(** [n / 100] does not round to [price_1001]. *)
Definition misses_1001 (n : N) : bool :=
  match float_of_dec false n (-2) with
  | S754_finite false m e => negb ((m =? 4508103226997866)%positive && (e =? -52))
  | _ => true
  end.

(** ** Further notions: accounting and the shape of the store *)

(** The sum of the volumes of a list of records. *)
Definition total_volume (bs : list TradeBook) : Z :=
  foldr (fun b acc => volume b + acc) 0 bs.

(** The cells of the list refer to the objects in allocation order:
    cell [i] holds the reference [i]. *)
Definition canonical (self : TradeBookService) : Prop :=
  trade_books self = seq 0 (length (objects self)).

(** The texts [process_command] may return. *)
Definition command_messages : list string :=
  [msg_invalid_format; msg_invalid_number; msg_invalid_action;
   msg_invalid_stock_code; msg_invalid_price; msg_invalid_volume;
   msg_added; msg_updated].

(** ** Further notions: what a CSV line keeps of a record *)

(** The record with its price rounded to two places. *)
Definition round_price (b : TradeBook) : TradeBook :=
  mkTradeBook (action b) (stock_code b) (round2 (price b)) (volume b).

Definition no_comma (s : string) : bool :=
  Py.forallb_str (fun c => negb (Ascii.eqb c ",")) s.

Definition no_newline (s : string) : bool :=
  Py.forallb_str (fun c => negb (Py.is_newline c)) s.

(** [s] is empty or starts with a character that is not white space. *)
Definition no_leading_space (s : string) : bool :=
  match s with
  | EmptyString => true
  | String c _ => negb (Py.isspace c)
  end.

(** A record whose line splits back into its four fields: no comma in
    the action and the stock code, no white space at the head of the
    action. *)
Definition line_safe (b : TradeBook) : Prop :=
  no_comma (action b) = true /\ no_comma (stock_code b) = true /\
  no_leading_space (action b) = true.

(** A record whose line, moreover, stays one line of the file. *)
Definition file_safe (b : TradeBook) : Prop :=
  line_safe b /\ no_newline (action b) = true /\ no_newline (stock_code b) = true.

(** A store with one record that the validator would not admit. *)
Definition unvalidated_store : TradeBookService :=
  mkTradeBookService [mkTradeBook "hold" "x y" (float_of_dec true 1001 (-3)) (-4)] [O] Absent.

(** ** Further notions: the size of a price *)

(** The whole number of hundredths [f"{x:.2f}"] prints for [x], sign
    apart; 0 where it prints no digits. *)
Definition cents (x : float) : N :=
  match x with
  | S754_finite _ m e => hundredths m e
  | _ => 0%N
  end.

(** A record whose price prints below ten to the thirteenth. *)
Definition moderate (b : TradeBook) : Prop := (cents (price b) < 10 ^ 15)%N.

(** ** Further notions: the tokens of a command *)

(** White space only, possibly empty. *)
Definition blank (s : string) : bool := Py.forallb_str Py.isspace s.

(** White space that separates two tokens. *)
Definition separator (s : string) : Prop := blank s = true /\ s <> "".

(** A token: not empty, no white space in it. *)
Definition word (s : string) : Prop :=
  s <> "" /\ Py.forallb_str (fun c => negb (Py.isspace c)) s = true.

(** ** The two modes and [main] *)

(** What [print] wrote: one text per call, without the line break that
    ends it.  The prompt of [input] is not part of it. *)
Definition output := list string.

(** [str.lower] on the characters 0..255: the uppercase letters are
    A-Z, U+00C0-U+00D6 and U+00D8-U+00DE, each 32 below its lowercase
    letter. *)
Definition py_lower_char (c : ascii) : ascii :=
  if Py.isupper_char c then ascii_of_N (Py.ord c + 32) else c.

Fixpoint py_lower (s : string) : string :=
  match s with
  | EmptyString => EmptyString
  | String c s' => String (py_lower_char c) (py_lower s')
  end.

(** The loop of [batch_mode] over the lines of the commands file: every
    line that is not blank is processed, then echoed, then answered. *)
Fixpoint run_lines (validator : StockCodeService) (ls : list string)
    (store : TradeBookService) : output * TradeBookService :=
  match ls with
  | [] => ([], store)
  | l :: ls' =>
      let line := Py.strip l in
      if String.eqb line "" then run_lines validator ls' store
      else
        let (result, store1) := process_command validator store line in
        let (out, store2) := run_lines validator ls' store1 in
        (line :: result :: out, store2)
  end.

(** [batch_mode] on the file [src] found at [filename], which is neither
    the orders file nor the stock code file.  [str_exn e] is the text
    [str(e)] of an exception other than [FileNotFoundError] raised by
    [open]. *)
Definition batch_mode (str_exn : exn -> string) (validator : StockCodeService)
    (store : TradeBookService) (filename : string) (src : file)
  : output * TradeBookService :=
  match open_read src with
  | Ok content => run_lines validator (Py.lines content) store
  | Raise FileNotFoundError =>
      (["Error: File '" +:+ filename +:+ "' not found."], store)
  | Raise e => (["Error: " +:+ str_exn e], store)
  end.

(** What a call of [input] meets: a line typed, the interrupt key, or
    the end of the input, at which [input] raises [EOFError]. *)
Inductive input_event :=
  | Line (command : string)
  | Interrupt
  | EndOfFile.

(** The loop of [interactive_mode] either was left or waits for more
    input. *)
Inductive status := Exited | Reading.

Definition msg_exiting : string := newline +:+ "Exiting...".
Definition msg_eof : string := "Error: EOF when reading a line".

(** [interactive_mode] on the events the calls of [input] meet, in
    order.  [EOFError] is an [Exception] and is reported; the interrupt
    is not one and has its own handler. *)
Fixpoint interactive_mode (validator : StockCodeService) (events : list input_event)
    (store : TradeBookService) : output * TradeBookService * status :=
  match events with
  | [] => ([], store, Reading)
  | Line command :: events' =>
      if String.eqb (py_lower command) "exit" then ([], store, Exited)
      else if negb (String.eqb (Py.strip command) "") then
        let (result, store1) := process_command validator store command in
        let '(out, store2, st) := interactive_mode validator events' store1 in
        (result :: out, store2, st)
      else interactive_mode validator events' store
  | Interrupt :: _ => ([msg_exiting], store, Exited)
  | EndOfFile :: events' =>
      let '(out, store1, st) := interactive_mode validator events' store in
      (msg_eof :: out, store1, st)
  end.

(** [os.environ.get(name, default)]. *)
Definition environ_get (environ : string -> option string) (name default : string)
  : string :=
  match environ name with
  | Some value => value
  | None => default
  end.

(** [main]: [argv] is [sys.argv]; [stockcode_src], [orders_src] and
    [commands_src] are the files at the three paths, taken to be
    different files.  An exception of a constructor is not caught: it
    ends the program after what was printed. *)
Definition main (str_exn : exn -> string) (environ : string -> option string)
    (argv : list string) (stockcode_src orders_src commands_src : file)
    (events : list input_event)
  : result (TradeBookService * status) * output :=
  let stockcode_file := environ_get environ "STOCKCODE_FILE" "data/stockcode.csv" in
  match new_StockCodeService stockcode_file stockcode_src with
  | (Raise e, out0) => (Raise e, out0)
  | (Ok stock_code_service, out0) =>
      match new_TradeBookService orders_src with
      | Failed e _ => (Raise e, out0)
      | Done trade_book_service =>
          match argv with
          | _ :: filename :: _ =>
              let (out, store) :=
                batch_mode str_exn stock_code_service trade_book_service
                           filename commands_src in
              (Ok (store, Exited), out0 ++ out)
          | _ =>
              let '(out, store, st) :=
                interactive_mode stock_code_service events trade_book_service in
              (Ok (store, st), out0 ++ out)
          end
      end
  end.

(** ** Further notions: what a run keeps *)

(** Every record of [bs] is still there in [bs'], in the same cell and
    with the same action, stock code and price, and has lost no
    volume. *)
Definition kept (bs bs' : list TradeBook) : Prop :=
  forall i b, bs !! i = Some b ->
    exists b', bs' !! i = Some b' /\
      action b' = action b /\ stock_code b' = stock_code b /\
      price b' = price b /\ volume b <= volume b'.

(** The events are lines typed, none of which leaves the loop. *)
Definition typed (ls : list string) : list input_event := map Line ls.

Definition leaves (e : input_event) : bool :=
  match e with
  | Line command => String.eqb (py_lower command) "exit"
  | Interrupt => true
  | EndOfFile => false
  end.

(** The answers among the texts of a batch run: every second one. *)
Fixpoint answers (out : output) : output :=
  match out with
  | _ :: result :: out' => result :: answers out'
  | _ => []
  end.

(** The lines echoed by a batch run. *)
Fixpoint echoes (out : output) : output :=
  match out with
  | line :: _ :: out' => line :: echoes out'
  | _ => []
  end.

(** The events up to the first one that leaves the loop, that one
    included. *)
Fixpoint until_leave (events : list input_event) : list input_event :=
  match events with
  | [] => []
  | e :: events' => if leaves e then [e] else e :: until_leave events'
  end.

(** A commands file of two orders and a blank line. *)
Definition sample_commands : file :=
  Text ("buy AAPL 150.00 50" +:+ newline +:+ newline +:+ "sell MSFT 1.00 2").

(** ** The limit on conversions between [int] and [str]

    Since version 3.11 CPython refuses to convert between [int] and
    [str] when more than [sys.get_int_max_str_digits()] digits are
    involved, 4300 unless configured otherwise, and raises [ValueError].
    The definitions above are the program as it runs while no conversion
    meets the limit; the module below is the program with the limit: a
    save can now fail halfway, after the list was changed, and the
    exception leaves [process_trade] and [process_command]. *)

Module Limit.

Definition int_max_str_digits : nat := 4300.

(** The number of decimal digits of [v], the sign apart. *)
Definition int_digits (v : Z) : nat := String.length (digits (Z.abs_N v)).

(** [v] can be written. *)
Definition fits (v : Z) : bool := (int_digits v <=? int_max_str_digits)%nat.

(** [str(v)] and [f"{v}"] for an [int]. *)
Definition str_int (v : Z) : result string :=
  if fits v then Ok (Num.str_int v) else Raise ValueError.

(** [int(s)]: the digits of the numeral are counted, leading zeros
    included, underscores and the sign not; [None] stands for
    [ValueError], whatever its message. *)
Definition py_int (s : string) : option Z :=
  let (neg, r) := parse_sign (Py.lstrip_with Py.isspace_num s) in
  match scan_int_digits 0 r with
  | None | Some (_, O, _) => None
  | Some (n, k, rest) =>
      if (int_max_str_digits <? k)%nat then None
      else
        match Py.lstrip_with Py.isspace_num rest with
        | EmptyString => Some (if neg then - Z.of_N n else Z.of_N n)
        | _ => None
        end
  end.

(** [TradeBook.to_csv_line]: of the four fields only the volume can fail
    to be formatted. *)
Definition to_csv_line (self : TradeBook) : result string :=
  match str_int (volume self) with
  | Ok volume_text =>
      Ok (action self +:+ "," +:+ stock_code self +:+ "," +:+
          format_2f (price self) +:+ "," +:+ volume_text)
  | Raise e => Raise e
  end.

Definition from_csv_line (line : string) : result TradeBook :=
  match Py.split_on "," (Py.strip line) with
  | [a; c; p; v] =>
      match py_float p with
      | None => Raise ValueError
      | Some p' =>
          match py_int v with
          | None => Raise ValueError
          | Some v' => Ok (mkTradeBook a c p' v')
          end
      end
  | _ => Raise ValueError
  end.

Fixpoint load_lines (ls : list string) (self : TradeBookService) : outcome :=
  match ls with
  | [] => Done self
  | l :: ls' =>
      let line := Py.strip l in
      if String.eqb line "" then load_lines ls' self
      else match from_csv_line line with
           | Ok b => load_lines ls' (append_new self b)
           | Raise e => Failed e self
           end
  end.

Definition load_trade_books (self : TradeBookService) : outcome :=
  match open_read (orders self) with
  | Ok content => load_lines (Py.lines content) self
  | Raise FileNotFoundError =>
      Done (mkTradeBookService (objects self) [] (orders self))
  | Raise e => Failed e self
  end.

Definition new_TradeBookService (f : file) : outcome :=
  load_trade_books (mkTradeBookService [] [] f).

(** The loop of [save_trade_books]: the text written, and the exception
    that ended the loop, if any.  The file was opened for writing and is
    closed on the way out, so it holds the lines written before. *)
Fixpoint write_lines (bs : list TradeBook) : string * option exn :=
  match bs with
  | [] => ("", None)
  | trade_book :: bs' =>
      match to_csv_line trade_book with
      | Ok line =>
          let (text, e) := write_lines bs' in (line +:+ newline +:+ text, e)
      | Raise e => ("", Some e)
      end
  end.

Definition save_trade_books (self : TradeBookService) : outcome :=
  let (text, e) := write_lines (records self) in
  let self' := mkTradeBookService (objects self) (trade_books self) (Text text) in
  match e with
  | None => Done self'
  | Some e => Failed e self'
  end.

(** [process_trade]: the answer or the exception, and the service as
    the call leaves it.  The list is changed before the save. *)
Definition process_trade (self : TradeBookService)
    (action stock_code : string) (price : float) (volume : Z)
  : result string * TradeBookService :=
  match find_trade_book self action stock_code price with
  | Some existing_book =>
      let self1 := mkTradeBookService
                     (alter (add_volume volume) existing_book (objects self))
                     (trade_books self) (orders self) in
      match save_trade_books self1 with
      | Done self2 => (Ok msg_updated, self2)
      | Failed e self2 => (Raise e, self2)
      end
  | None =>
      let new_book := mkTradeBook action stock_code price volume in
      match save_trade_books (append_new self new_book) with
      | Done self2 => (Ok msg_added, self2)
      | Failed e self2 => (Raise e, self2)
      end
  end.

(** [process_command]: [ValueError] is caught around [float] and [int]
    only. *)
Definition process_command (validator : StockCodeService)
    (store : TradeBookService) (command : string)
  : result string * TradeBookService :=
  match Py.split (Py.strip command) with
  | [action; stock_code; price_str; volume_str] =>
      match py_float price_str with
      | None => (Ok msg_invalid_number, store)
      | Some price =>
          match py_int volume_str with
          | None => (Ok msg_invalid_number, store)
          | Some volume =>
              let (is_valid, error_message) :=
                validate_trade validator action stock_code price volume in
              if negb is_valid then (Ok error_message, store)
              else process_trade store action stock_code price volume
          end
      end
  | _ => (Ok msg_invalid_format, store)
  end.

(** The loop of [batch_mode]: an exception of [process_command] ends
    it, before the line is echoed. *)
Fixpoint run_lines (validator : StockCodeService) (ls : list string)
    (store : TradeBookService) : output * TradeBookService * option exn :=
  match ls with
  | [] => ([], store, None)
  | l :: ls' =>
      let line := Py.strip l in
      if String.eqb line "" then run_lines validator ls' store
      else
        match process_command validator store line with
        | (Ok result, store1) =>
            let '(out, store2, e) := run_lines validator ls' store1 in
            (line :: result :: out, store2, e)
        | (Raise e, store1) => ([], store1, Some e)
        end
  end.

(** [batch_mode]: [str_exn e] is the text [str(e)] of an exception
    other than a [FileNotFoundError] of [open]. *)
Definition batch_mode (str_exn : exn -> string) (validator : StockCodeService)
    (store : TradeBookService) (filename : string) (src : file)
  : output * TradeBookService :=
  match open_read src with
  | Ok content =>
      let '(out, store', e) := run_lines validator (Py.lines content) store in
      match e with
      | None => (out, store')
      | Some e => (out ++ ["Error: " +:+ str_exn e], store')
      end
  | Raise FileNotFoundError =>
      (["Error: File '" +:+ filename +:+ "' not found."], store)
  | Raise e => (["Error: " +:+ str_exn e], store)
  end.

(** [interactive_mode]: an exception of [process_command] is reported
    and the loop goes on. *)
Fixpoint interactive_mode (str_exn : exn -> string) (validator : StockCodeService)
    (events : list input_event) (store : TradeBookService)
  : output * TradeBookService * status :=
  match events with
  | [] => ([], store, Reading)
  | Line command :: events' =>
      if String.eqb (py_lower command) "exit" then ([], store, Exited)
      else if negb (String.eqb (Py.strip command) "") then
        let (r, store1) := process_command validator store command in
        let '(out, store2, st) := interactive_mode str_exn validator events' store1 in
        (match r with
         | Ok result => result
         | Raise e => "Error: " +:+ str_exn e
         end :: out, store2, st)
      else interactive_mode str_exn validator events' store
  | Interrupt :: _ => ([msg_exiting], store, Exited)
  | EndOfFile :: events' =>
      let '(out, store1, st) := interactive_mode str_exn validator events' store in
      (msg_eof :: out, store1, st)
  end.

End Limit.

(** ** Notions used in the statements on the limit and on loaded stores *)

(** The line the specification asks for: the four fields separated by
    commas, the price in fixed notation with two decimals. *)
Definition spec_line (b : TradeBook) : string :=
  action b +:+ "," +:+ stock_code b +:+ "," +:+ format_2f (price b) +:+ ","
    +:+ Num.str_int (volume b).

(** One line per record, in the order of the list, each ended by a line
    break. *)
Fixpoint spec_file (bs : list TradeBook) : string :=
  match bs with
  | [] => ""
  | b :: bs' => spec_line b +:+ newline +:+ spec_file bs'
  end.

(** The volume of the record can be written. *)
Definition writable (b : TradeBook) : Prop := Limit.fits (volume b) = true.

(** The stores of a service constructed on an orders file of records
    the validator admits, after calls of [process_command] and
    [process_trade] that returned; [process_trade] is called with what
    the validator admits. *)
Inductive served (validator : StockCodeService) : TradeBookService -> Prop :=
  | served_new f self :
      Limit.new_TradeBookService f = Done self ->
      Forall (valid_record validator) (records self) ->
      served validator self
  | served_command self command m self' :
      served validator self ->
      Limit.process_command validator self command = (Ok m, self') ->
      served validator self'
  | served_trade self a c p v m self' :
      served validator self ->
      validate_trade validator a c p v = (true, "") ->
      Limit.process_trade self a c p v = (Ok m, self') ->
      served validator self'.

(** A store of two records. *)
Definition two_records : TradeBookService :=
  mkTradeBookService
    [mkTradeBook "buy" "AAPL" price_150 100;
     mkTradeBook "sell" "MSFT" (float_of_dec false 5000 (-2)) 10]
    [O; 1%nat]
    (Text ("buy,AAPL,150.00,100" +:+ newline +:+ "sell,MSFT,50.00,10" +:+ newline)).

(** The float [2 ^ 46 + 2 ^ -6], in decimal 70368744177664.015625. *)
Definition six_decimals : float := S754_finite false 4503599627370497 (-6).

(** * Properties *)

(** ** Floats *)

Lemma float_eq_finite_inv (y : float) s m e :
  float_eq y (S754_finite s m e) = true -> y = S754_finite s m e.
Proof.
  unfold float_eq, SFeqb.
  destruct y as [sy|sy| |sy my ey]; simpl; try discriminate.
  - destruct s; discriminate.
  - destruct sy; discriminate.
  - destruct sy, s; try discriminate.
    + destruct (Z.compare_spec ey e) as [->|?|?]; try discriminate.
      change (Pos.compare_cont Eq my m) with (Pos.compare my m).
      destruct (Pos.compare_spec my m) as [->|?|?]; simpl; congruence.
    + destruct (Z.compare_spec ey e) as [->|?|?]; try discriminate.
      change (Pos.compare_cont Eq my m) with (Pos.compare my m).
      destruct (Pos.compare_spec my m) as [->|?|?]; simpl; congruence.
Qed.

Lemma float_eq_refl (x : float) : x <> S754_nan -> float_eq x x = true.
Proof.
  unfold float_eq, SFeqb.
  destruct x as [s|s| |s m e]; simpl; try congruence.
  - now destruct s.
  - intros _. destruct s; change (Pos.compare_cont Eq m m) with (Pos.compare m m);
    rewrite Z.compare_refl, Pos.compare_refl; reflexivity.
Qed.

(** A float that is at least 0.50 is [+inf] or finite and positive. *)
Lemma float_ge_half_inv (x : float) :
  float_ge x half = true ->
  x = S754_infinity false \/ exists m e, x = S754_finite false m e.
Proof.
  unfold float_ge, SFleb. change half with (S754_finite false 4503599627370496 (-53)).
  destruct x as [s|s| |s m e]; simpl; try discriminate.
  - destruct s; [discriminate | now left].
  - destruct s; [discriminate | right; eauto].
Qed.

(** What [validate_price] accepts is a fixed point of [round2], not merely
    equal to its rounding under [==]. *)
Lemma validate_price_inv (p : float) :
  validate_price p = true ->
  round2 p = p /\ float_eq p p = true /\
  (p = S754_infinity false \/ exists m e, p = S754_finite false m e).
Proof.
  unfold validate_price. intros [Hge Heq]%andb_prop.
  destruct (float_ge_half_inv _ Hge) as [->|(m & e & ->)].
  - repeat split; auto.
  - split; [now apply float_eq_finite_inv|].
    split; [apply float_eq_refl; discriminate | right; eauto].
Qed.

(** ** Strings *)

Lemma append_cons c (s t : string) : String c s +:+ t = String c (s +:+ t).
Proof. reflexivity. Qed.

Lemma forallb_str_app p (s t : string) :
  Py.forallb_str p (s +:+ t) = Py.forallb_str p s && Py.forallb_str p t.
Proof.
  induction s as [|c s IH]; simpl; [reflexivity|].
  now rewrite IH, andb_assoc.
Qed.

Lemma forallb_str_impl (p q : ascii -> bool) (s : string) :
  (forall c, p c = true -> q c = true) ->
  Py.forallb_str p s = true -> Py.forallb_str q s = true.
Proof.
  intros Hpq. induction s as [|c s IH]; simpl; [reflexivity|].
  intros [Hc Hs]%andb_prop. now rewrite (Hpq c Hc), IH.
Qed.

Lemma lstrip_with_cases sp (s : string) :
  Py.lstrip_with sp s = "" \/
  exists c r, Py.lstrip_with sp s = String c r /\ sp c = false.
Proof.
  induction s as [|c s IH]; simpl; [now left|].
  destruct (sp c) eqn:Hc; [exact IH|]. right. eauto.
Qed.

Lemma rstrip_with_head sp c (r : string) :
  sp c = false -> Py.rstrip_with sp (String c r) = String c (Py.rstrip_with sp r).
Proof. intros Hc. simpl. rewrite Hc. now destruct (Py.rstrip_with sp r). Qed.

Lemma rstrip_with_idem sp (s : string) :
  Py.rstrip_with sp (Py.rstrip_with sp s) = Py.rstrip_with sp s.
Proof.
  induction s as [|c s IH]; [reflexivity|]. simpl.
  destruct (Py.rstrip_with sp s) as [|c' r] eqn:Hr.
  - destruct (sp c) eqn:Hc; [reflexivity|]. simpl. now rewrite Hc.
  - change (Py.rstrip_with sp (String c (String c' r)))
      with (match Py.rstrip_with sp (String c' r) with
            | EmptyString => if sp c then EmptyString else String c EmptyString
            | String _ _ as r0 => String c r0
            end).
    now rewrite IH.
Qed.

(** [strip] applied twice is [strip]. *)
Lemma strip_with_idem sp (s : string) :
  Py.strip_with sp (Py.strip_with sp s) = Py.strip_with sp s.
Proof.
  unfold Py.strip_with.
  destruct (lstrip_with_cases sp s) as [->|(c & r & -> & Hc)]; [reflexivity|].
  rewrite (rstrip_with_head _ _ _ Hc). simpl Py.lstrip_with. rewrite Hc.
  rewrite <- (rstrip_with_head _ _ _ Hc). apply rstrip_with_idem.
Qed.

Lemma lstrip_with_id sp (s : string) :
  Py.forallb_str (fun c => negb (sp c)) s = true -> Py.lstrip_with sp s = s.
Proof.
  destruct s as [|c s]; simpl; [reflexivity|].
  intros [Hc _]%andb_prop. apply negb_true_iff in Hc. now rewrite Hc.
Qed.

Lemma rstrip_with_id sp (s : string) :
  Py.forallb_str (fun c => negb (sp c)) s = true -> Py.rstrip_with sp s = s.
Proof.
  induction s as [|c s IH]; simpl; [reflexivity|].
  intros [Hc Hs]%andb_prop. apply negb_true_iff in Hc.
  rewrite (IH Hs), Hc. now destruct s.
Qed.

(** A string without white space is its own [strip]. *)
Lemma strip_with_id sp (s : string) :
  Py.forallb_str (fun c => negb (sp c)) s = true -> Py.strip_with sp s = s.
Proof.
  intros H. unfold Py.strip_with. rewrite (lstrip_with_id _ _ H).
  now apply rstrip_with_id.
Qed.

Lemma split_on_no_sep sep (s : string) :
  Py.forallb_str (fun c => negb (Ascii.eqb c sep)) s = true ->
  Py.split_on sep s = [s].
Proof.
  induction s as [|c s IH]; simpl; [reflexivity|].
  intros [Hc Hs]%andb_prop. apply negb_true_iff in Hc. now rewrite Hc, (IH Hs).
Qed.

Lemma split_on_app sep (s t : string) :
  Py.forallb_str (fun c => negb (Ascii.eqb c sep)) s = true ->
  Py.split_on sep (s +:+ String sep t) = s :: Py.split_on sep t.
Proof.
  induction s as [|c s IH]; simpl.
  - intros _. now rewrite Ascii.eqb_refl.
  - intros [Hc Hs]%andb_prop. apply negb_true_iff in Hc. now rewrite Hc, (IH Hs).
Qed.

Lemma lines_app (l rest : string) :
  Py.forallb_str (fun c => negb (Py.is_newline c)) l = true ->
  Py.lines (l +:+ newline +:+ rest) = l :: Py.lines rest.
Proof.
  induction l as [|c l IH]; simpl.
  - intros _. reflexivity.
  - intros [Hc Hl]%andb_prop. apply negb_true_iff in Hc. now rewrite Hc, (IH Hl).
Qed.

(** ** Numerals: printing and reading back *)

Lemma num_char_facts c :
  num_char c = true ->
  field_char c = true /\ Py.isspace_num c = false /\ Ascii.eqb c "_" = false.
Proof.
  destruct c as [[|] [|] [|] [|] [|] [|] [|] [|]]; vm_compute;
    intros H; try discriminate H; auto.
Qed.

Lemma is_digit_num_char c : is_digit c = true -> num_char c = true.
Proof. unfold num_char. now intros ->. Qed.

Lemma parse_sign_digit c (r : string) :
  is_digit c = true -> parse_sign (String c r) = (false, String c r).
Proof.
  destruct c as [[|] [|] [|] [|] [|] [|] [|] [|]]; vm_compute;
    intros H; try discriminate H; reflexivity.
Qed.

Lemma digit_value_digit_char k :
  (k < 10)%N -> digit_value (digit_char k) = Some k.
Proof.
  intros H.
  assert (Hk : (k = 0 \/ k = 1 \/ k = 2 \/ k = 3 \/ k = 4 \/ k = 5 \/ k = 6
               \/ k = 7 \/ k = 8 \/ k = 9)%N) by lia.
  repeat (destruct Hk as [->|Hk]; [reflexivity|]). now subst.
Qed.

Lemma scan_digits_non_digit acc (s : string) :
  starts_non_digit s = true -> scan_digits acc s = (acc, O, s).
Proof.
  destruct s as [|c s]; [reflexivity|]. simpl. unfold is_digit.
  now destruct (digit_value c).
Qed.

(** Reading the digits of [d] gives the number they denote. *)
Lemma scan_digits_uint d : forall acc (rest : string),
  starts_non_digit rest = true ->
  scan_digits acc (NilEmpty.string_of_uint d +:+ rest) = (uint_val acc d, nb_digits d, rest).
Proof.
  induction d as [|d IH|d IH|d IH|d IH|d IH|d IH|d IH|d IH|d IH|d IH];
    intros acc rest Hrest;
    [now apply scan_digits_non_digit | ..];
    cbn [NilEmpty.string_of_uint uint_val nb_digits];
    rewrite append_cons; cbn [scan_digits];
    match goal with
    | |- context [digit_value ?c] =>
        let v := eval vm_compute in (digit_value c) in
        change (digit_value c) with v
    end;
    cbv iota; now rewrite IH.
Qed.

Lemma uint_val_pos d : forall acc,
  uint_val (Npos acc) d = Npos (Pos.of_uint_acc d acc).
Proof.
  induction d as [|d IH|d IH|d IH|d IH|d IH|d IH|d IH|d IH|d IH|d IH];
    intros acc; [reflexivity | ..];
    cbn [uint_val Pos.of_uint_acc]; rewrite <- IH; f_equal; lia.
Qed.

Lemma uint_val_of_uint d : uint_val 0 d = N.of_uint d.
Proof.
  unfold N.of_uint.
  induction d as [|d IH|d IH|d IH|d IH|d IH|d IH|d IH|d IH|d IH|d IH];
    [reflexivity | exact IH | ..];
    cbn [uint_val Pos.of_uint]; rewrite <- uint_val_pos; reflexivity.
Qed.

Lemma uint_val_to_uint n : uint_val 0 (N.to_uint n) = n.
Proof. rewrite uint_val_of_uint. apply DecimalN.Unsigned.of_to. Qed.

Lemma string_of_uint_digits d :
  Py.forallb_str is_digit (NilEmpty.string_of_uint d) = true.
Proof. induction d; simpl; auto. Qed.

Lemma to_uint_nonnil n : N.to_uint n <> Nil.
Proof.
  destruct n as [|p]; [discriminate|]. apply DecimalPos.Unsigned.to_uint_nonnil.
Qed.

Lemma digits_chars n : Py.forallb_str is_digit (digits n) = true.
Proof. apply string_of_uint_digits. Qed.

Lemma digits_head n : exists c r, digits n = String c r /\ is_digit c = true.
Proof.
  pose proof (digits_chars n) as H. unfold digits in *.
  pose proof (to_uint_nonnil n) as Hn.
  destruct (N.to_uint n); try contradiction; simpl in *; eauto.
Qed.

Lemma nb_digits_to_uint n : nb_digits (N.to_uint n) <> O.
Proof. pose proof (to_uint_nonnil n). now destruct (N.to_uint n). Qed.

Lemma scan_digits_digits n (rest : string) :
  starts_non_digit rest = true ->
  scan_digits 0 (digits n +:+ rest) = (n, nb_digits (N.to_uint n), rest).
Proof.
  intros H. unfold digits. now rewrite scan_digits_uint, uint_val_to_uint.
Qed.

Lemma scan_digits_two_digits acc r :
  (r < 100)%N ->
  scan_digits acc (two_digits r) = ((100 * acc + r)%N, 2%nat, "").
Proof.
  intros Hr. unfold two_digits. cbn [scan_digits].
  rewrite !digit_value_digit_char by (try apply N.mod_lt; try apply N.Div0.div_lt_upper_bound; lia).
  f_equal. f_equal. pose proof (N.div_mod r 10). lia.
Qed.

Lemma two_digits_chars r : (r < 100)%N -> Py.forallb_str is_digit (two_digits r) = true.
Proof.
  intros Hr. unfold two_digits, is_digit. simpl.
  now rewrite !digit_value_digit_char
    by (try apply N.mod_lt; try apply N.Div0.div_lt_upper_bound; lia).
Qed.

Lemma remove_underscores_id (s : string) : forall prev,
  Ascii.eqb prev "_" = false ->
  Py.forallb_str (fun c => negb (Ascii.eqb c "_")) s = true ->
  remove_underscores prev s = Some s.
Proof.
  induction s as [|c s IH]; intros prev Hprev; simpl.
  - now rewrite Hprev.
  - intros [Hc Hs]%andb_prop. apply negb_true_iff in Hc.
    rewrite Hc, Hprev. simpl. now rewrite (IH c Hc Hs).
Qed.

(** The fixed-point text of [h] hundredths. *)
Lemma fixed2_false h :
  fixed2 false h = digits (h / 100) +:+ String "." (two_digits (h mod 100)).
Proof. reflexivity. Qed.

Lemma fixed2_chars h : Py.forallb_str num_char (fixed2 false h) = true.
Proof.
  rewrite fixed2_false, forallb_str_app. apply andb_true_intro. split.
  - eapply forallb_str_impl; [apply is_digit_num_char | apply digits_chars].
  - cbn [Py.forallb_str]. apply andb_true_intro. split; [reflexivity|].
    eapply forallb_str_impl; [apply is_digit_num_char|].
    apply two_digits_chars, N.mod_lt. discriminate.
Qed.

Lemma num_chars_plain (s : string) :
  Py.forallb_str num_char s = true ->
  Py.forallb_str field_char s = true /\
  Py.forallb_str (fun c => negb (Py.isspace_num c)) s = true /\
  Py.forallb_str (fun c => negb (Ascii.eqb c "_")) s = true.
Proof.
  intros H. repeat split; (eapply forallb_str_impl; [|exact H]);
    intros c Hc; destruct (num_char_facts c Hc) as (H1 & H2 & H3);
    rewrite ?H1, ?H2, ?H3; reflexivity.
Qed.

(** [float] reads the text of [h] hundredths as the float nearest to
    [h / 100]. *)
Lemma py_float_fixed2 h :
  py_float (fixed2 false h) = Some (float_of_dec false h (-2)).
Proof.
  destruct (num_chars_plain _ (fixed2_chars h)) as (_ & Hsp & Hus).
  unfold py_float. rewrite (remove_underscores_id _ "000"%char eq_refl Hus).
  rewrite (strip_with_id _ _ Hsp).
  rewrite fixed2_false. unfold strtod.
  destruct (digits_head (h / 100)) as (c & r & Hd & Hc).
  rewrite Hd, append_cons, (parse_sign_digit _ _ Hc), <- append_cons, <- Hd. rewrite scan_digits_digits by reflexivity.
  rewrite scan_digits_two_digits by (apply N.mod_lt; discriminate).
  pose proof (nb_digits_to_uint (h / 100)) as Hnb.
  destruct (nb_digits (N.to_uint (h / 100))) as [|k]; [contradiction|].
  cbn [Nat.add Nat.eqb scan_exponent].
  replace (100 * (h / 100) + h mod 100)%N with h
    by (pose proof (N.div_mod h 100); lia).
  reflexivity.
Qed.

(** ** The list of references and the list of records *)

Section Refs.
Context {A : Type}.
Implicit Types (objs : list A) (refs : list nat).

Lemma omap_lookup_cons objs r refs (x : A) :
  objs !! r = Some x ->
  omap (fun r' => objs !! r') (r :: refs) = x :: omap (fun r' => objs !! r') refs.
Proof. intros H. csimpl. now rewrite H. Qed.

Lemma omap_lookup_ext objs objs' refs :
  (forall r, r ∈ refs -> objs' !! r = objs !! r) ->
  omap (fun r => objs' !! r) refs = omap (fun r => objs !! r) refs.
Proof.
  induction refs as [|r refs IH]; intros H; [reflexivity|].
  csimpl. rewrite (H r) by set_solver. rewrite IH; [reflexivity|].
  intros r' Hr'. apply H. set_solver.
Qed.

Lemma omap_lookup_app_new objs refs (x : A) :
  Forall (fun r => (r < length objs)%nat) refs ->
  omap (fun r => (objs ++ [x]) !! r) (refs ++ [length objs])
  = omap (fun r => objs !! r) refs ++ [x].
Proof.
  intros Hb. rewrite omap_app. f_equal.
  - apply omap_lookup_ext. intros r Hr.
    rewrite Forall_forall in Hb. apply lookup_app_l, Hb, Hr.
  - csimpl. now rewrite list_lookup_middle.
Qed.
End Refs.

Lemma records_append_new self b :
  wf self -> records (append_new self b) = records self ++ [b].
Proof. intros [_ Hb]. now apply omap_lookup_app_new. Qed.

Lemma wf_append_new self b : wf self -> wf (append_new self b).
Proof.
  intros [Hnd Hb]. split; simpl.
  - apply NoDup_app. split; [assumption|]. split; [|apply NoDup_singleton].
    intros r Hr ->%list_elem_of_singleton.
    rewrite Forall_forall in Hb. specialize (Hb _ Hr). lia.
  - rewrite Forall_app, length_app. split.
    + eapply Forall_impl; [exact Hb|]. simpl. intros; lia.
    + constructor; [simpl; lia | constructor].
Qed.

Lemma records_save self : records (save_trade_books self) = records self.
Proof. reflexivity. Qed.

Lemma wf_save self : wf self -> wf (save_trade_books self).
Proof. intros H. exact H. Qed.

(** The scan over the references finds what the scan over the records
    finds, and the update through the reference is the update in place
    of the list of records. *)
Lemma find_ref_merge objs sb v refs :
  NoDup refs -> Forall (fun r => (r < length objs)%nat) refs ->
  match find_ref objs sb refs with
  | Some r =>
      r ∈ refs /\
      merge_volume sb v (omap (fun r' => objs !! r') refs)
      = Some (omap (fun r' => alter (add_volume v) r objs !! r') refs)
  | None => merge_volume sb v (omap (fun r' => objs !! r') refs) = None
  end.
Proof.
  induction refs as [|r0 refs IH]; intros Hnd Hb; [reflexivity|].
  apply NoDup_cons in Hnd as [Hr0 Hnd]. apply Forall_cons in Hb as [Hlt Hb].
  destruct (lookup_lt_is_Some_2 objs r0 Hlt) as [b0 Hb0].
  rewrite (omap_lookup_cons _ _ _ _ Hb0). simpl. rewrite Hb0.
  destruct (TradeBook_eq b0 sb) eqn:Heq.
  - split; [set_solver|]. f_equal.
    rewrite list_lookup_alter_eq, Hb0. simpl. f_equal.
    symmetry. apply omap_lookup_ext. intros r Hr.
    apply list_lookup_alter_ne. intros ->. contradiction.
  - specialize (IH Hnd Hb). destruct (find_ref objs sb refs) as [r|].
    + destruct IH as [Hr ->]. split; [set_solver|]. f_equal.
      rewrite list_lookup_alter_ne by (intros ->; contradiction).
      now rewrite Hb0.
    + now rewrite IH.
Qed.

(** [process_trade] on the store is [process_records] on its records. *)
Lemma process_trade_records self a c p v :
  wf self ->
  (fst (process_trade self a c p v), records (snd (process_trade self a c p v)))
  = process_records a c p v (records self).
Proof.
  intros [Hnd Hb]. unfold process_trade, process_records, find_trade_book.
  fold (search_book a c p).
  pose proof (find_ref_merge (objects self) (search_book a c p) v _ Hnd Hb) as H.
  destruct (find_ref (objects self) (search_book a c p) (trade_books self)) as [r|].
  - destruct H as [_ H]. unfold records at 2. rewrite H. reflexivity.
  - unfold records at 2. rewrite H. simpl. rewrite records_save.
    now rewrite records_append_new.
Qed.

Lemma wf_process_trade self a c p v :
  wf self -> wf (snd (process_trade self a c p v)).
Proof.
  intros Hwf. unfold process_trade.
  destruct (find_trade_book self a c p); simpl.
  - destruct Hwf as [Hnd Hb]. split; simpl; [assumption|].
    now rewrite length_alter.
  - now apply wf_append_new.
Qed.

(** ** Equality of trade books *)

Lemma float_eq_sym (x y : float) : float_eq x y = float_eq y x.
Proof.
  unfold float_eq, SFeqb.
  destruct x as [sx|sx| |sx mx ex], y as [sy|sy| |sy my ey]; simpl;
    try reflexivity; try (destruct sx; reflexivity); try (destruct sy; reflexivity);
    try (destruct sx, sy; reflexivity).
  change (Pos.compare_cont Eq mx my) with (Pos.compare mx my).
  change (Pos.compare_cont Eq my mx) with (Pos.compare my mx).
  rewrite (Z.compare_antisym ex ey), (Pos.compare_antisym mx my).
  destruct sx, sy; try reflexivity;
    destruct (ex ?= ey); simpl; try reflexivity;
    destruct (mx ?= my)%positive; reflexivity.
Qed.

Lemma TradeBook_eq_sym (b1 b2 : TradeBook) : TradeBook_eq b1 b2 = TradeBook_eq b2 b1.
Proof.
  unfold TradeBook_eq.
  now rewrite (String.eqb_sym (action b1)), (String.eqb_sym (stock_code b1)),
    (float_eq_sym (price b1)).
Qed.

Lemma TradeBook_eq_add_volume_l v b1 b2 :
  TradeBook_eq (add_volume v b1) b2 = TradeBook_eq b1 b2.
Proof. reflexivity. Qed.

Lemma TradeBook_eq_add_volume_r v b1 b2 :
  TradeBook_eq b1 (add_volume v b2) = TradeBook_eq b1 b2.
Proof. reflexivity. Qed.

Lemma TradeBook_eq_search b a c p v :
  TradeBook_eq b (mkTradeBook a c p v) = TradeBook_eq b (search_book a c p).
Proof. reflexivity. Qed.


(** ** [process_records] *)

Lemma merge_volume_None sb v bs :
  merge_volume sb v bs = None <-> Forall (fun b => TradeBook_eq b sb = false) bs.
Proof.
  induction bs as [|b bs IH]; simpl.
  - split; [constructor | reflexivity].
  - destruct (TradeBook_eq b sb) eqn:Heq.
    + split; [discriminate|]. intros [H _]%Forall_cons. congruence.
    + destruct (merge_volume sb v bs).
      * split; [discriminate|]. intros [_ H]%Forall_cons.
        now apply IH in H.
      * split; [|reflexivity]. intros _. constructor; [assumption|]. now apply IH.
Qed.

Lemma merge_volume_Some sb v bs bs' :
  merge_volume sb v bs = Some bs' ->
  exists i b,
    bs !! i = Some b /\ TradeBook_eq b sb = true /\
    (forall j bj, (j < i)%nat -> bs !! j = Some bj -> TradeBook_eq bj sb = false) /\
    bs' = <[i := add_volume v b]> bs.
Proof.
  revert bs'. induction bs as [|b bs IH]; simpl; intros bs'; [discriminate|].
  destruct (TradeBook_eq b sb) eqn:Heq.
  - intros [= <-]. exists O, b. repeat split; auto. intros j bj Hj. lia.
  - destruct (merge_volume sb v bs) as [bs''|]; [|discriminate].
    intros [= <-]. destruct (IH _ eq_refl) as (i & b' & Hi & Hb' & Hfirst & ->).
    exists (S i), b'. repeat split; auto.
    intros [|j] bj Hj; simpl.
    + intros [= <-]. assumption.
    + apply Hfirst. lia.
Qed.


Lemma unique_identity_insert bs i b v :
  bs !! i = Some b -> unique_identity bs ->
  unique_identity (<[i := add_volume v b]> bs).
Proof.
  intros Hi Hu j k bj bk Hj Hk Heq.
  assert (Hlook : forall n x, <[i := add_volume v b]> bs !! n = Some x ->
            exists y, bs !! n = Some y /\ forall z, TradeBook_eq x z = TradeBook_eq y z).
  { intros n x Hn. destruct (decide (i = n)) as [->|Hne].
    - rewrite list_lookup_insert_eq in Hn by (eapply lookup_lt_Some; eauto).
      injection Hn as <-. exists b. auto.
    - rewrite list_lookup_insert_ne in Hn by assumption. eauto. }
  destruct (Hlook _ _ Hj) as (bj' & Hj' & Ej), (Hlook _ _ Hk) as (bk' & Hk' & Ek).
  apply (Hu j k bj' bk' Hj' Hk').
  rewrite <- Ej, TradeBook_eq_sym, <- Ek, TradeBook_eq_sym. assumption.
Qed.

Lemma unique_identity_app_new bs b :
  Forall (fun b' => TradeBook_eq b' b = false) bs ->
  unique_identity bs -> unique_identity (bs ++ [b]).
Proof.
  intros Hnone Hu i j bi bj Hi Hj Heq.
  rewrite Forall_forall in Hnone.
  assert (Hcase : forall n x, (bs ++ [b]) !! n = Some x ->
            bs !! n = Some x \/ (n = length bs /\ x = b)).
  { intros n x Hn. apply lookup_app_Some in Hn as [Hn|[Hge Hn]]; [now left|right].
    apply list_lookup_singleton_Some in Hn as [Hn <-]. split; [lia|reflexivity]. }
  destruct (Hcase _ _ Hi) as [Hi'|[-> ->]], (Hcase _ _ Hj) as [Hj'|[-> ->]].
  - eapply Hu; eauto.
  - rewrite Hnone in Heq; [discriminate|]. eapply list_elem_of_lookup_2; eauto.
  - rewrite TradeBook_eq_sym, Hnone in Heq; [discriminate|].
    eapply list_elem_of_lookup_2; eauto.
  - reflexivity.
Qed.

Lemma unique_identity_process_records a c p v bs :
  unique_identity bs -> unique_identity (snd (process_records a c p v bs)).
Proof.
  intros Hu. unfold process_records.
  destruct (merge_volume (search_book a c p) v bs) as [bs'|] eqn:Hm; simpl.
  - apply merge_volume_Some in Hm as (i & b & Hi & _ & _ & ->).
    now apply unique_identity_insert.
  - apply merge_volume_None in Hm. apply unique_identity_app_new; [|assumption].
    eapply Forall_impl; [exact Hm|]. intros b. now rewrite TradeBook_eq_search.
Qed.

(** ** Claims on [process_trade] *)


(** C10.  [process_trade] changes the volume of the first record equal
    to the search book and nothing else: the list of records is the old
    one with that cell replaced by the same action, stock code and price
    and the volume increased by [v].  When no record is equal to the
    search book, the list of records is the old one followed by the new
    record. *)
Theorem process_trade_frame self a c p v :
  wf self ->
  let self' := snd (process_trade self a c p v) in
  (exists i b,
      records self !! i = Some b /\
      TradeBook_eq b (search_book a c p) = true /\
      (forall j bj, (j < i)%nat -> records self !! j = Some bj ->
                    TradeBook_eq bj (search_book a c p) = false) /\
      records self'
      = <[i := mkTradeBook (action b) (stock_code b) (price b) (volume b + v)]>
          (records self))
  \/ (Forall (fun b => TradeBook_eq b (search_book a c p) = false) (records self) /\
      records self' = records self ++ [mkTradeBook a c p v]).
Proof.
  intros Hwf self'. subst self'.
  pose proof (process_trade_records self a c p v Hwf) as H.
  unfold process_records in H.
  destruct (merge_volume (search_book a c p) v (records self)) as [bs'|] eqn:Hm;
    injection H as _ ->.
  - left. apply merge_volume_Some in Hm as (i & b & Hi & Hb & Hfirst & ->).
    exists i, b. auto.
  - right. split; [now apply merge_volume_None in Hm | reflexivity].
Qed.

Lemma process_trade_frame_witness :
  wf sample_store /\
  ((exists i b,
      records sample_store !! i = Some b /\
      TradeBook_eq b (search_book "buy" "AAPL" price_150) = true /\
      (forall j bj, (j < i)%nat -> records sample_store !! j = Some bj ->
                    TradeBook_eq bj (search_book "buy" "AAPL" price_150) = false) /\
      records (snd (process_trade sample_store "buy" "AAPL" price_150 50))
      = <[i := mkTradeBook (action b) (stock_code b) (price b) (volume b + 50)]>
          (records sample_store))
   \/ (Forall (fun b => TradeBook_eq b (search_book "buy" "AAPL" price_150) = false)
              (records sample_store) /\
       records (snd (process_trade sample_store "buy" "AAPL" price_150 50))
       = records sample_store ++ [mkTradeBook "buy" "AAPL" price_150 50])).
Proof.
  assert (Hwf : wf sample_store)
    by (split; simpl; [apply NoDup_singleton | repeat constructor]).
  split; [exact Hwf|].
  apply (process_trade_frame sample_store "buy" "AAPL" price_150 50 Hwf).
Defined.



(** ** Claims on [process_command] *)

(** A command that is not rejected reaches [process_trade]. *)
Lemma process_command_accepted validator store command a c ps vs p v :
  Py.split (Py.strip command) = [a; c; ps; vs] ->
  py_float ps = Some p -> py_int vs = Some v ->
  validate_trade validator a c p v = (true, "") ->
  process_command validator store command = process_trade store a c p v.
Proof.
  intros Hs Hp Hv Hval. unfold process_command. now rewrite Hs, Hp, Hv, Hval.
Qed.

Lemma validate_trade_true validator a c p v m :
  validate_trade validator a c p v = (true, m) ->
  m = "" /\ validate_action a = true /\ validate_stock_code validator c = true /\
  validate_price p = true /\ validate_volume v = true.
Proof.
  unfold validate_trade.
  destruct (validate_action a); simpl; [|discriminate].
  destruct (validate_stock_code validator c); simpl; [|discriminate].
  destruct (validate_price p); simpl; [|discriminate].
  destruct (validate_volume v); simpl; [|discriminate].
  intros [= <-]. auto.
Qed.

Lemma rejected_unchanged validator store command m :
  rejected validator command m ->
  snd (process_command validator store command) = store.
Proof.
  intros H. unfold process_command.
  destruct H as [Hlen|a c ps vs Hs Hnum|a c ps vs p v m Hs Hp Hv Hval].
  - destruct (Py.split (Py.strip command)) as [|a [|c [|ps [|vs [|x l]]]]];
      try reflexivity. now contradiction Hlen.
  - rewrite Hs. destruct (py_float ps); [|reflexivity].
    destruct (py_int vs); [|reflexivity]. destruct Hnum; discriminate.
  - now rewrite Hs, Hp, Hv, Hval.
Qed.

(** Every command is rejected with the message returned or reaches
    [process_trade] with validated arguments. *)
Lemma process_command_cases validator store command :
  rejected validator command (fst (process_command validator store command))
  \/ exists a c ps vs p v,
       Py.split (Py.strip command) = [a; c; ps; vs] /\
       py_float ps = Some p /\ py_int vs = Some v /\
       validate_trade validator a c p v = (true, "") /\
       process_command validator store command = process_trade store a c p v.
Proof.
  unfold process_command.
  destruct (Py.split (Py.strip command)) as [|a [|c [|ps [|vs [|x l]]]]] eqn:Hs;
    try (left; apply rejected_format; rewrite Hs; simpl; lia).
  destruct (py_float ps) as [p|] eqn:Hp;
    [|left; eapply rejected_number; eauto].
  destruct (py_int vs) as [v|] eqn:Hv;
    [|left; eapply rejected_number; eauto].
  destruct (validate_trade validator a c p v) as [[|] m] eqn:Hval; simpl.
  - right. destruct (validate_trade_true _ _ _ _ _ _ Hval) as [-> _].
    exists a, c, ps, vs, p, v. auto.
  - left. eapply rejected_validation; eauto.
Qed.

(** C6.  A command rejected for its token count, for a price or volume
    that does not read as a number, or by the validator, returns the
    message of that rejection and the store as it was: the list of
    references, the objects and the orders file are all unchanged. *)
Theorem process_command_rejected_unchanged validator store command m :
  rejected validator command m ->
  process_command validator store command = (m, store).
Proof.
  intros H. unfold process_command. destruct H as [Hlen|a c ps vs Hs Hnum|a c ps vs p v m Hs Hp Hv Hval].
  - destruct (Py.split (Py.strip command)) as [|a [|c [|ps [|vs [|x l]]]]];
      try reflexivity. now contradiction Hlen.
  - rewrite Hs. destruct (py_float ps); [|reflexivity].
    destruct Hnum as [Hnum|Hnum]; [discriminate|]. now rewrite Hnum.
  - now rewrite Hs, Hp, Hv, Hval.
Qed.

Lemma process_command_rejected_unchanged_witness :
  rejected sample_registry bad_price_command msg_invalid_number /\
  process_command sample_registry sample_store bad_price_command
  = (msg_invalid_number, sample_store).
Proof.
  assert (H : rejected sample_registry bad_price_command msg_invalid_number).
  { apply (rejected_number sample_registry bad_price_command "buy" "AAPL" "abc" "100").
    - vm_compute. reflexivity.
    - left. vm_compute. reflexivity. }
  split; [exact H|].
  exact (process_command_rejected_unchanged sample_registry sample_store
           bad_price_command msg_invalid_number H).
Defined.

(** ** Claims on the registry *)

(** C7, as the code has it.  When the stock code file does not exist,
    [load_stock_codes] returns normally with the empty set, prints one
    warning line, and every later [is_valid_stock_code] and
    [validate_stock_code] answers false. *)
Theorem load_stock_codes_missing self code :
  exists svc,
    load_stock_codes self Absent
    = (Ok svc, ["Warning: Stock code file '" +:+ sc_filename self +:+ "' not found."]) /\
    stock_codes svc = ∅ /\
    is_valid_stock_code svc code = false /\
    validate_stock_code svc code = false.
Proof.
  eexists. split; [reflexivity|]. split; [reflexivity|].
  assert (H : is_valid_stock_code (mkStockCodeService (sc_filename self) ∅) code = false).
  { unfold is_valid_stock_code. simpl. apply bool_decide_eq_false. set_solver. }
  split; [exact H|]. unfold validate_stock_code. rewrite H.
  destruct (_ || _); [reflexivity|]. now destruct (_ || _).
Qed.

(** C7 as stated fails for a file that exists and may not be read:
    [open] raises [PermissionError], which [load_stock_codes] does not
    catch, so no registry is returned. *)
Lemma load_stock_codes_unreadable_raises :
  load_stock_codes (mkStockCodeService "data/stockcode.csv" ∅) Denied
  = (Raise PermissionError, []) /\
  ~ exists svc out,
      load_stock_codes (mkStockCodeService "data/stockcode.csv" ∅) Denied = (Ok svc, out).
Proof.
  split; [reflexivity|]. intros (svc & out & H). discriminate H.
Qed.

(** ** Claims on [load_trade_books] *)

Lemma parse_fields_None line : parse_fields line = None <-> malformed line.
Proof.
  unfold parse_fields. split.
  - destruct (Py.split_on "," line) as [|a [|c [|p [|v [|x l]]]]] eqn:Hs;
      try (intros _; apply malformed_count; rewrite Hs; simpl; lia).
    destruct (py_float p) eqn:Hp; [|intros _; eapply malformed_number; eauto].
    destruct (py_int v) eqn:Hv; [discriminate|].
    intros _. eapply malformed_number; eauto.
  - intros [Hlen|a c p v Hs Hnum].
    + destruct (Py.split_on "," line) as [|a [|c [|p [|v [|x l]]]]];
        try reflexivity. now contradiction Hlen.
    + rewrite Hs. destruct Hnum as [->| ->]; [reflexivity|].
      now destruct (py_float p).
Qed.

(** On a stripped line [from_csv_line] is [parse_fields]. *)
Lemma from_csv_line_strip l :
  from_csv_line (Py.strip l)
  = match parse_fields (Py.strip l) with
    | Some b => Ok b
    | None => Raise ValueError
    end.
Proof.
  unfold from_csv_line, parse_fields, Py.strip. rewrite strip_with_idem.
  destruct (Py.split_on "," (Py.strip_with Py.isspace l)) as [|a [|c [|p [|v [|x r]]]]];
    try reflexivity.
  destruct (py_float p); [|reflexivity]. now destruct (py_int v).
Qed.

Lemma load_lines_spec ls self :
  wf self ->
  match mapM parse_fields (filter (fun l => l <> "") (map Py.strip ls)) with
  | Some bs =>
      exists self', load_lines ls self = Done self' /\ wf self' /\
                    records self' = records self ++ bs /\ orders self' = orders self
  | None => exists self', load_lines ls self = Failed ValueError self'
  end.
Proof.
  revert self. induction ls as [|l ls IH]; intros self Hwf.
  - simpl. exists self. now rewrite app_nil_r.
  - simpl load_lines. rewrite fmap_cons.
    destruct (String.eqb_spec (Py.strip l) "") as [He|Hne].
    + rewrite filter_cons_False by (intros H; now apply H). now apply IH.
    + rewrite filter_cons_True by assumption. rewrite from_csv_line_strip.
      csimpl. destruct (parse_fields (Py.strip l)) as [b|]; csimpl; [|eauto].
      specialize (IH (append_new self b) (wf_append_new _ b Hwf)).
      destruct (mapM parse_fields _) as [bs|]; csimpl; [|exact IH].
      destruct IH as (self' & Hl & Hwf' & Hr & Ho). exists self'.
      split; [exact Hl|]. split; [exact Hwf'|]. split; [|exact Ho].
      rewrite Hr, records_append_new by assumption. now rewrite <- app_assoc.
Qed.

(** A load, complete or interrupted by an exception, leaves the cells of
    the list distinct allocated objects: with [wf_process_trade], every
    store the program builds is well formed. *)
Lemma load_lines_wf ls : forall self,
  wf self ->
  match load_lines ls self with
  | Done self' | Failed _ self' => wf self'
  end.
Proof.
  induction ls as [|l ls IH]; intros self Hwf; [exact Hwf|].
  simpl. destruct (String.eqb (Py.strip l) ""); [now apply IH|].
  destruct (from_csv_line (Py.strip l)) as [b|e]; [|exact Hwf].
  apply IH. now apply wf_append_new.
Qed.

Lemma load_trade_books_wf self :
  wf self ->
  match load_trade_books self with
  | Done self' | Failed _ self' => wf self'
  end.
Proof.
  intros Hwf. unfold load_trade_books.
  destruct (orders self) as [| |content]; simpl.
  - split; simpl; [constructor | constructor].
  - exact Hwf.
  - now apply load_lines_wf.
Qed.

(** ** Claim on the stores that loads and trades reach *)

Lemma reached_wf self : reached self -> wf self.
Proof.
  induction 1 as [f|self self' _ IH Hl _|self a c p v _ IH].
  - split; simpl; constructor.
  - pose proof (load_trade_books_wf self IH) as H. now rewrite Hl in H.
  - now apply wf_process_trade.
Qed.


Lemma two_records_unique : unique_identity (records two_records).
Proof.
  intros i j bi bj Hi Hj Heq.
  destruct i as [|[|i]], j as [|[|j]]; try reflexivity;
    try discriminate Hi; try discriminate Hj;
    injection Hi as <-; injection Hj as <-; discriminate Heq.
Qed.

Lemma two_records_reached : reached two_records.
Proof.
  apply (reached_load (mkTradeBookService [] [] (orders two_records)));
    [apply reached_init | reflexivity | apply two_records_unique].
Qed.



(** C8.  A new service on an existing orders file reads its lines,
    strips them and leaves out the empty ones ([data_lines]); each of
    the others must split at the commas into four fields of which the
    third reads as a [float] and the fourth as an [int]
    ([parse_fields]).  When all do, the list holds their records in file
    order; when one does not, the load raises [ValueError] and no
    service is constructed.  On a missing file the service starts with
    an empty list and nothing is raised. *)
Theorem load_trade_books_format content :
  match mapM parse_fields (data_lines content) with
  | Some bs =>
      exists self, new_TradeBookService (Text content) = Done self /\
                   records self = bs
  | None =>
      (exists l, l ∈ data_lines content /\ malformed l) /\
      exists self, new_TradeBookService (Text content) = Failed ValueError self
  end
  /\ new_TradeBookService Absent = Done (mkTradeBookService [] [] Absent).
Proof.
  split; [|reflexivity].
  assert (Hwf : wf (mkTradeBookService [] [] (Text content)))
    by (split; simpl; constructor).
  pose proof (load_lines_spec (Py.lines content) _ Hwf) as H.
  fold (data_lines content) in H. unfold new_TradeBookService, load_trade_books.
  simpl open_read. cbv iota.
  destruct (mapM parse_fields (data_lines content)) as [bs|] eqn:Hm.
  - destruct H as (self' & Hl & _ & Hr & _). exists self'. split; [exact Hl|].
    now rewrite Hr.
  - split; [|exact H]. apply mapM_None in Hm.
    apply Exists_exists in Hm as (l & Hin & Hl).
    exists l. split; [exact Hin|]. now apply parse_fields_None.
Qed.

(** ** Claims on the validator *)

Lemma ascii_letter_classes ch :
  Py.is_ascii ch = true ->
  Py.isalpha_char ch && negb (Py.islower_char ch) = Py.is_ascii_upper ch /\
  (Py.is_ascii_upper ch = true -> Py.isupper_char ch = true).
Proof.
  destruct ch as [[|] [|] [|] [|] [|] [|] [|] [|]]; vm_compute;
    intros H; try discriminate H; split; auto.
Qed.

Lemma ascii_upper_alpha (s : string) :
  Py.forallb_str Py.is_ascii s = true ->
  Py.forallb_str (fun c => negb (Py.islower_char c)) s && Py.forallb_str Py.isalpha_char s
  = Py.forallb_str Py.is_ascii_upper s.
Proof.
  induction s as [|ch s IH]; simpl; [reflexivity|].
  intros [Hch Hs]%andb_prop. rewrite <- (IH Hs).
  destruct (ascii_letter_classes ch Hch) as [<- _].
  destruct (Py.isalpha_char ch), (Py.islower_char ch); simpl; try reflexivity;
    now rewrite ?andb_false_r.
Qed.

Lemma ascii_upper_exists (s : string) :
  Py.forallb_str Py.is_ascii s = true -> s <> "" ->
  Py.forallb_str Py.is_ascii_upper s = true ->
  Py.existsb_str Py.isupper_char s = true.
Proof.
  destruct s as [|ch s]; [congruence|]. simpl.
  intros [Hch _]%andb_prop _ [Hu _]%andb_prop.
  destruct (ascii_letter_classes ch Hch) as [_ H]. now rewrite (H Hu).
Qed.

(** On ASCII strings [isupper] and [isalpha] together say: not empty
    and every character in A-Z. *)
Lemma isupper_isalpha_ascii (s : string) :
  Py.forallb_str Py.is_ascii s = true ->
  Py.isupper s && Py.isalpha s
  = negb (String.eqb s "") && Py.forallb_str Py.is_ascii_upper s.
Proof.
  intros Ha. unfold Py.isupper, Py.isalpha.
  pose proof (ascii_upper_alpha s Ha) as H1.
  pose proof (ascii_upper_exists s Ha) as H2.
  destruct (String.eqb_spec s "") as [->|Hne]; simpl.
  - reflexivity.
  - destruct (Py.forallb_str Py.is_ascii_upper s).
    + rewrite (H2 Hne eq_refl). apply andb_prop in H1 as [-> ->]. reflexivity.
    + destruct (Py.forallb_str (fun c => negb (Py.islower_char c)) s); simpl in *;
        [now rewrite H1, andb_false_r | reflexivity].
Qed.

Lemma validate_stock_code_true svc c :
  validate_stock_code svc c = true <->
  String.length c = 4%nat /\ Py.isupper c = true /\ Py.isalpha c = true /\
  c ∈ stock_codes svc.
Proof.
  unfold validate_stock_code, is_valid_stock_code, Py.len.
  destruct (String.eqb_spec c "") as [->|Hne]; simpl.
  - split; [discriminate|]. intros [H _]. discriminate H.
  - destruct (Z.eqb_spec (Z.of_nat (String.length c)) 4) as [H4|H4]; simpl.
    + destruct (Py.isupper c), (Py.isalpha c); simpl;
        try (split; [discriminate | intros (_ & ? & ? & _); discriminate]).
      rewrite bool_decide_eq_true. split; [intros ?|intros (_ & _ & _ & ?)]; auto.
      repeat split; auto. lia.
    + split; [discriminate|]. intros [H _]. lia.
Qed.

Lemma validate_trade_bad_stock_code svc a c p v :
  validate_action a = true -> validate_stock_code svc c = false ->
  validate_trade svc a c p v = (false, msg_invalid_stock_code).
Proof. intros Ha Hc. unfold validate_trade. now rewrite Ha, Hc. Qed.

(** C4, as the code has it.  For a string [c] of ASCII characters
    [validate_stock_code] answers true exactly when [c] has four
    characters, each of them in A-Z, and is a member of the registry; a
    stock code that fails, for its format or for its absence from the
    registry, makes [validate_trade] return one and the same message. *)
Theorem validate_stock_code_ascii svc c :
  Py.forallb_str Py.is_ascii c = true ->
  (validate_stock_code svc c = true <->
   String.length c = 4%nat /\ Py.forallb_str Py.is_ascii_upper c = true /\
   c ∈ stock_codes svc)
  /\ (validate_stock_code svc c = false ->
      forall a p v, validate_action a = true ->
        validate_trade svc a c p v = (false, msg_invalid_stock_code)).
Proof.
  intros Ha. split.
  - rewrite validate_stock_code_true.
    pose proof (isupper_isalpha_ascii c Ha) as H.
    split.
    + intros (Hl & Hu & Hal & Hin). rewrite Hu, Hal in H. symmetry in H.
      apply andb_prop in H as [_ H]. auto.
    + intros (Hl & Hu & Hin). rewrite Hu in H.
      destruct (String.eqb_spec c "") as [->|_]; [discriminate Hl|].
      apply andb_prop in H as [H1 H2]. auto.
  - intros Hc a p v Hact. now apply validate_trade_bad_stock_code.
Qed.

Lemma validate_stock_code_ascii_witness :
  Py.forallb_str Py.is_ascii "AAPL" = true /\
  (validate_stock_code sample_registry "AAPL" = true <->
   String.length "AAPL" = 4%nat /\ Py.forallb_str Py.is_ascii_upper "AAPL" = true /\
   "AAPL" ∈ stock_codes sample_registry)
  /\ (validate_stock_code sample_registry "AAPL" = false ->
      forall a p v, validate_action a = true ->
        validate_trade sample_registry a "AAPL" p v = (false, msg_invalid_stock_code)).
Proof.
  split; [reflexivity|].
  apply (validate_stock_code_ascii sample_registry "AAPL"). reflexivity.
Defined.

(** C4 as stated fails: a registered code of four uppercase letters
    that are not ASCII passes [validate_stock_code]. *)
Lemma validate_stock_code_accepts_non_ascii :
  ~ (forall svc c,
       validate_stock_code svc c = true <->
       String.length c = 4%nat /\ Py.forallb_str Py.is_ascii_upper c = true /\
       c ∈ stock_codes svc).
Proof.
  intros H.
  destruct (H (mkStockCodeService "data/stockcode.csv" {[accented_code]}) accented_code)
    as [H1 _].
  assert (Hv : validate_stock_code
                 (mkStockCodeService "data/stockcode.csv" {[accented_code]})
                 accented_code = true).
  { apply validate_stock_code_true. repeat split; try reflexivity.
    all: simpl; set_solver. }
  destruct (H1 Hv) as (_ & Hup & _). vm_compute in Hup. discriminate Hup.
Qed.

(** What [validate_price] accepts is the float of a numeral with two
    digits after the point. *)
Lemma validate_price_two_places (x : float) :
  validate_price x = true -> exists n, x = float_of_dec false n (-2).
Proof.
  intros H. destruct (validate_price_inv x H) as (Hr & _ & [->|(m & e & ->)]).
  - exists (10 ^ 400)%N. vm_compute. reflexivity.
  - exists (hundredths m e). symmetry. exact Hr.
Qed.

(** ** The float of [1.001] has more than two decimal places *)

Lemma shr_exp_le mrs e n mrs' e' : shr mrs e n = (mrs', e') -> e <= e'.
Proof. unfold shr. destruct n; intros [= _ <-]; lia. Qed.

(** Rounding never lowers the exponent it is given. *)
Lemma binary_round_aux_exp sx mx ex lx s m e :
  binary_round_aux prec emax sx mx ex lx = S754_finite s m e -> ex <= e.
Proof.
  unfold binary_round_aux, shr_fexp.
  destruct (shr (shr_record_of_loc mx lx) ex _) as [mrs' e'] eqn:H1.
  destruct (shr (shr_record_of_loc _ loc_Exact) e' _) as [mrs'' e''] eqn:H2.
  apply shr_exp_le in H1, H2.
  destruct (shr_m mrs''); try discriminate.
  destruct (e'' <=? emax - prec); intros [= _ _ <-]. lia.
Qed.

Lemma digits2_pos_size p : digits2_pos p = Pos.size p.
Proof. induction p; simpl; congruence. Qed.

Lemma digits2_pos_large p : (256 <= p)%positive -> 9 <= Zpos (digits2_pos p).
Proof.
  intros Hp. rewrite digits2_pos_size.
  pose proof (Pos.size_gt p) as Hgt.
  destruct (Z_lt_le_dec (Zpos (Pos.size p)) 9) as [Hlt|]; [exfalso|assumption].
  assert (Hz : Zpos p < 2 ^ Zpos (Pos.size p))
    by (rewrite <- Pos2Z.inj_pow; apply Pos2Z.pos_lt_pos, Hgt).
  assert (Hpow : 2 ^ Zpos (Pos.size p) <= 2 ^ 8)
    by (apply Z.pow_le_mono_r; lia).
  change (2 ^ 8) with 256 in Hpow. lia.
Qed.

(** From 2.56 on, [n / 100] rounds to a float with an exponent above
    that of the floats between 1 and 2. *)
Lemma float_of_dec_large_exp p s m e :
  (256 <= p)%positive ->
  float_of_dec false (Npos p) (-2) = S754_finite s m e -> -51 <= e.
Proof.
  intros Hp. unfold float_of_dec, float_of_ratio. cbn [Z.leb Z.compare].
  unfold SFdiv, SFdiv_core_binary. cbn [Zdigits2].
  pose proof (digits2_pos_large p Hp) as Hd.
  match goal with
  | |- context [Z.div_eucl ?a ?b] => destruct (Z.div_eucl a b) as [q r]
  end.
  intros H. apply binary_round_aux_exp in H.
  change (Zpos (digits2_pos (Z.to_pos (10 ^ (- (-2)))))) with 7 in H.
  unfold fexp, SpecFloat.emin, prec, emax in H. lia.
Qed.

Lemma misses_1001_small :
  forallb (fun k => misses_1001 (N.of_nat k)) (seq 0 256) = true.
Proof. vm_compute. reflexivity. Qed.

(** No numeral with two digits after the point denotes the float of
    [1.001]. *)
Lemma price_1001_not_two_places n : price_1001 <> float_of_dec false n (-2).
Proof.
  change price_1001 with (S754_finite false 4508103226997866 (-52)).
  intros H. symmetry in H.
  destruct (N.lt_ge_cases n 256) as [Hlt|Hge].
  - pose proof misses_1001_small as Hall.
    rewrite forallb_forall in Hall.
    specialize (Hall (N.to_nat n)). rewrite N2Nat.id in Hall.
    unfold misses_1001 in Hall. rewrite H in Hall.
    rewrite Pos.eqb_refl, Z.eqb_refl in Hall.
    discriminate Hall. apply in_seq. lia.
  - destruct n as [|p]; [lia|].
    apply float_of_dec_large_exp in H; lia.
Qed.

(** ** CSV lines: writing and reading back *)

Lemma scan_int_digits_step c d (s : string) acc :
  digit_value c = Some d ->
  match s with String c2 _ => Ascii.eqb c2 "_" = false | EmptyString => True end ->
  scan_int_digits acc (String c s)
  = match scan_int_digits (10 * acc + d) s with
    | Some (n, k, r) => Some (n, S k, r)
    | None => None
    end.
Proof.
  intros Hc Hs. cbn [scan_int_digits]. rewrite Hc.
  destruct s as [|c2 s2]; [reflexivity|].
  destruct c2 as [[|] [|] [|] [|] [|] [|] [|] [|]]; try reflexivity.
  discriminate Hs.
Qed.

Lemma string_of_uint_head d :
  match NilEmpty.string_of_uint d with
  | String c2 _ => Ascii.eqb c2 "_" = false
  | EmptyString => True
  end.
Proof. destruct d; simpl; auto. Qed.

Lemma scan_int_digits_uint d : forall acc,
  scan_int_digits acc (NilEmpty.string_of_uint d) = Some (uint_val acc d, nb_digits d, "").
Proof.
  induction d as [|d IH|d IH|d IH|d IH|d IH|d IH|d IH|d IH|d IH|d IH];
    intros acc; [reflexivity | ..];
    cbn [NilEmpty.string_of_uint uint_val nb_digits];
    (erewrite scan_int_digits_step;
     [rewrite IH; reflexivity | reflexivity | apply string_of_uint_head]).
Qed.

Lemma digits_num_chars n : Py.forallb_str num_char (digits n) = true.
Proof. eapply forallb_str_impl; [apply is_digit_num_char | apply digits_chars]. Qed.

Lemma py_int_digits n : py_int (digits n) = Some (Z.of_N n).
Proof.
  unfold py_int.
  destruct (num_chars_plain _ (digits_num_chars n)) as (_ & Hsp & _).
  rewrite (lstrip_with_id _ _ Hsp).
  destruct (digits_head n) as (c & r & Hd & Hc).
  rewrite Hd, (parse_sign_digit _ _ Hc), <- Hd. unfold digits.
  rewrite scan_int_digits_uint, uint_val_to_uint.
  pose proof (nb_digits_to_uint n) as Hnb.
  destruct (nb_digits (N.to_uint n)); [contradiction | reflexivity].
Qed.

(** [int(str(v))] is [v]. *)
Lemma py_int_str_int v : py_int (str_int v) = Some v.
Proof.
  destruct v as [|p|p]; [reflexivity | apply (py_int_digits (Npos p)) |].
  unfold str_int, py_int.
  change (Py.lstrip_with Py.isspace_num (String "-" (digits (Npos p))))
    with (String "-" (digits (Npos p))).
  change (parse_sign (String "-" (digits (Npos p)))) with (true, digits (Npos p)).
  unfold digits. rewrite scan_int_digits_uint, uint_val_to_uint.
  pose proof (nb_digits_to_uint (Npos p)) as Hnb.
  destruct (nb_digits (N.to_uint (Npos p))); [contradiction | reflexivity].
Qed.

Lemma str_int_chars v : Py.forallb_str num_char (str_int v) = true.
Proof.
  destruct v as [|p|p]; [reflexivity | apply digits_num_chars |].
  unfold str_int. cbn [Py.forallb_str]. now rewrite digits_num_chars.
Qed.

Lemma field_char_facts c :
  field_char c = true ->
  negb (Py.isspace c) = true /\ negb (Ascii.eqb c ",") = true /\
  negb (Py.is_newline c) = true.
Proof.
  destruct c as [[|] [|] [|] [|] [|] [|] [|] [|]]; vm_compute;
    intros H; try discriminate H; auto.
Qed.

Lemma isalpha_field_char c : Py.isalpha_char c = true -> field_char c = true.
Proof.
  destruct c as [[|] [|] [|] [|] [|] [|] [|] [|]]; vm_compute;
    intros H; try discriminate H; auto.
Qed.

Lemma field_chars_no_space (s : string) :
  Py.forallb_str field_char s = true ->
  Py.forallb_str (fun c => negb (Py.isspace c)) s = true.
Proof. apply forallb_str_impl. intros c Hc. now apply field_char_facts. Qed.

Lemma field_chars_no_comma (s : string) :
  Py.forallb_str field_char s = true ->
  Py.forallb_str (fun c => negb (Ascii.eqb c ",")) s = true.
Proof. apply forallb_str_impl. intros c Hc. now apply field_char_facts. Qed.

Lemma no_space_no_newline (s : string) :
  Py.forallb_str (fun c => negb (Py.isspace c)) s = true ->
  Py.forallb_str (fun c => negb (Py.is_newline c)) s = true.
Proof.
  apply forallb_str_impl. intros c.
  destruct c as [[|] [|] [|] [|] [|] [|] [|] [|]]; vm_compute; auto.
Qed.

(** A line joined from four fields without white space and commas has
    no white space, and splits into the four fields. *)
Lemma csv_line_no_space (a c p v : string) :
  Py.forallb_str field_char a = true -> Py.forallb_str field_char c = true ->
  Py.forallb_str field_char p = true -> Py.forallb_str field_char v = true ->
  Py.forallb_str (fun ch => negb (Py.isspace ch))
                 (a +:+ "," +:+ c +:+ "," +:+ p +:+ "," +:+ v) = true.
Proof.
  intros Ha Hc Hp Hv.
  rewrite !forallb_str_app, (field_chars_no_space _ Ha), (field_chars_no_space _ Hc),
    (field_chars_no_space _ Hp), (field_chars_no_space _ Hv). reflexivity.
Qed.

Lemma csv_line_split (a c p v : string) :
  Py.forallb_str field_char a = true -> Py.forallb_str field_char c = true ->
  Py.forallb_str field_char p = true -> Py.forallb_str field_char v = true ->
  Py.split_on "," (a +:+ "," +:+ c +:+ "," +:+ p +:+ "," +:+ v) = [a; c; p; v].
Proof.
  intros Ha Hc Hp Hv.
  change ("," +:+ c +:+ "," +:+ p +:+ "," +:+ v)
    with (String "," (c +:+ String "," (p +:+ String "," v))).
  rewrite !split_on_app by now apply field_chars_no_comma.
  now rewrite split_on_no_sep by now apply field_chars_no_comma.
Qed.

Lemma validate_action_inv a : validate_action a = true -> a = "buy" \/ a = "sell".
Proof.
  unfold validate_action. intros [H|H]%orb_prop; apply String.eqb_eq in H; auto.
Qed.

Lemma format_2f_valid p :
  validate_price p = true ->
  Py.forallb_str field_char (format_2f p) = true /\ py_float (format_2f p) = Some p.
Proof.
  intros H. destruct (validate_price_inv p H) as (Hr & _ & [->|(m & e & ->)]).
  - split; vm_compute; reflexivity.
  - cbn [format_2f]. split.
    + now apply num_chars_plain, fixed2_chars.
    + rewrite py_float_fixed2. f_equal. exact Hr.
Qed.

(** The line of a valid record: no white space in it, not empty, and
    [parse_fields] reads the record back. *)
Lemma to_csv_line_valid svc b :
  valid_record svc b ->
  Py.forallb_str (fun ch => negb (Py.isspace ch)) (to_csv_line b) = true /\
  to_csv_line b <> "" /\
  parse_fields (to_csv_line b) = Some b.
Proof.
  intros (Ha & Hc & Hp). destruct b as [a c p v]. simpl in Ha, Hc, Hp.
  unfold to_csv_line. cbn [action stock_code price volume].
  assert (Hfa : Py.forallb_str field_char a = true)
    by (destruct (validate_action_inv a Ha) as [-> | ->]; reflexivity).
  assert (Hfc : Py.forallb_str field_char c = true).
  { apply validate_stock_code_true in Hc as (_ & _ & Hal & _).
    unfold Py.isalpha in Hal. apply andb_prop in Hal as [_ Hal].
    eapply forallb_str_impl; [apply isalpha_field_char | exact Hal]. }
  destruct (format_2f_valid p Hp) as [Hfp Hpp].
  assert (Hfv : Py.forallb_str field_char (str_int v) = true)
    by (apply num_chars_plain, str_int_chars).
  split; [now apply csv_line_no_space|]. split.
  - destruct (validate_action_inv a Ha) as [-> | ->]; discriminate.
  - unfold parse_fields. rewrite csv_line_split by assumption.
    now rewrite Hpp, py_int_str_int.
Qed.

Lemma from_csv_line_to_csv_line svc b :
  valid_record svc b -> from_csv_line (to_csv_line b) = Ok b.
Proof.
  intros Hb. destruct (to_csv_line_valid svc b Hb) as (Hsp & _ & Hpf).
  rewrite <- (strip_with_id Py.isspace _ Hsp) at 1. fold (Py.strip (to_csv_line b)).
  rewrite from_csv_line_strip. unfold Py.strip. rewrite (strip_with_id _ _ Hsp).
  now rewrite Hpf.
Qed.

(** The data lines of a saved file are the lines of the records. *)
Lemma data_lines_serialize svc bs :
  Forall (valid_record svc) bs -> data_lines (serialize bs) = map to_csv_line bs.
Proof.
  induction 1 as [|b bs Hb _ IH]; [reflexivity|].
  destruct (to_csv_line_valid svc b Hb) as (Hsp & Hne & _).
  unfold data_lines in *. cbn [serialize foldr].
  rewrite lines_app by now apply no_space_no_newline.
  rewrite fmap_cons. fold (Py.strip (to_csv_line b)).
  unfold Py.strip at 1. rewrite (strip_with_id _ _ Hsp).
  rewrite filter_cons_True by assumption. cbn [map]. f_equal. exact IH.
Qed.

Lemma mapM_cons_Some {A B} (f : A -> option B) x l y ys :
  f x = Some y -> mapM f l = Some ys -> mapM f (x :: l) = Some (y :: ys).
Proof.
  intros Hx Hl. apply mapM_Some_2. constructor; [exact Hx|].
  now apply mapM_Some_1.
Qed.

Lemma mapM_parse_fields_lines svc bs :
  Forall (valid_record svc) bs -> mapM parse_fields (map to_csv_line bs) = Some bs.
Proof.
  induction 1 as [|b bs Hb _ IH]; [reflexivity|].
  destruct (to_csv_line_valid svc b Hb) as (_ & _ & Hpf).
  cbn [map]. now apply mapM_cons_Some.
Qed.

(** A new service on a file that holds the serialization of valid
    records holds these records. *)
Lemma reload_serialized svc bs :
  Forall (valid_record svc) bs ->
  exists self', new_TradeBookService (Text (serialize bs)) = Done self' /\
                records self' = bs.
Proof.
  intros Hbs.
  assert (Hwf : wf (mkTradeBookService [] [] (Text (serialize bs))))
    by (split; simpl; constructor).
  pose proof (load_lines_spec (Py.lines (serialize bs)) _ Hwf) as H.
  fold (data_lines (serialize bs)) in H.
  rewrite (data_lines_serialize svc bs Hbs), (mapM_parse_fields_lines svc bs Hbs) in H.
  destruct H as (self' & Hl & _ & Hr & _). exists self'. split; [exact Hl|].
  now rewrite Hr.
Qed.

(** ** Stores fed by commands *)

Lemma process_trade_orders self a c p v :
  orders (snd (process_trade self a c p v))
  = Text (serialize (records (snd (process_trade self a c p v)))).
Proof. unfold process_trade. now destruct (find_trade_book self a c p). Qed.

Lemma valid_record_add_volume svc v b :
  valid_record svc b -> valid_record svc (add_volume v b).
Proof. intros H. exact H. Qed.

Lemma valid_process_records svc a c p v bs :
  validate_action a = true -> validate_stock_code svc c = true ->
  validate_price p = true ->
  Forall (valid_record svc) bs ->
  Forall (valid_record svc) (snd (process_records a c p v bs)).
Proof.
  intros Ha Hc Hp Hbs. unfold process_records.
  destruct (merge_volume (search_book a c p) v bs) as [bs'|] eqn:Hm; simpl.
  - apply merge_volume_Some in Hm as (i & b & Hi & _ & _ & ->).
    apply Forall_insert; [assumption|].
    apply valid_record_add_volume. eapply Forall_lookup_1; eauto.
  - apply Forall_app. split; [assumption|]. constructor; [|constructor].
    repeat split; assumption.
Qed.

(** What every store fed by commands satisfies: the cells of the list
    are distinct objects, every record passed the validator, and the
    orders file is missing with an empty list or holds the serialization
    of the list. *)
Lemma commanded_inv validator self :
  commanded validator self ->
  wf self /\ Forall (valid_record validator) (records self) /\
  (orders self = Absent /\ records self = []
   \/ orders self = Text (serialize (records self))).
Proof.
  induction 1 as [|self command Hc (Hwf & Hval & Hfile)].
  - split; [split; simpl; constructor|]. split; [constructor|]. now left.
  - destruct (process_command_cases validator self command)
      as [Hrej|(a & c & ps & vs & p & v & _ & _ & _ & Hvt & ->)].
    + rewrite (rejected_unchanged _ _ _ _ Hrej). auto.
    + destruct (validate_trade_true _ _ _ _ _ _ Hvt) as (_ & Ha & Hsc & Hp & _).
      split; [now apply wf_process_trade|]. split; [|right; apply process_trade_orders].
      pose proof (process_trade_records self a c p v Hwf) as H.
      replace (records (snd (process_trade self a c p v)))
        with (snd (process_records a c p v (records self))) by (now rewrite <- H).
      now apply valid_process_records.
Qed.

(** * Further properties *)

(** ** [TradeBook.__eq__] as a relation *)

Lemma float_eq_self (x : float) : float_eq x x = true <-> x <> S754_nan.
Proof.
  split; [|apply float_eq_refl]. intros H ->. discriminate H.
Qed.

Lemma float_eq_trans (x y z : float) :
  float_eq x y = true -> float_eq y z = true -> float_eq x z = true.
Proof.
  destruct y as [sy|sy| |sy my ey].
  - destruct x as [sx|sx| |sx mx ex], z as [sz|sz| |sz mz ez];
      unfold float_eq, SFeqb; simpl; try discriminate; try reflexivity;
      try (destruct sx; discriminate); try (destruct sz; discriminate).
  - destruct x as [sx|sx| |sx mx ex], z as [sz|sz| |sz mz ez];
      unfold float_eq, SFeqb; simpl; try discriminate;
      try (destruct sx, sy; discriminate); try (destruct sy, sz; discriminate);
      try (destruct sx; discriminate); try (destruct sz; discriminate);
      try (destruct sy; discriminate).
    destruct sx, sy, sz; simpl; congruence.
  - intros H. unfold float_eq, SFeqb in H. destruct x; discriminate H.
  - intros Hxy Hyz. apply float_eq_finite_inv in Hxy as ->. exact Hyz.
Qed.

(** X1.  [TradeBook.__eq__] is symmetric and transitive and does not
    look at the volume; a book equals itself exactly when its price is
    not NaN. *)
Theorem TradeBook_eq_partial_equivalence b1 b2 b3 :
  TradeBook_eq b1 b2 = TradeBook_eq b2 b1 /\
  (TradeBook_eq b1 b2 = true -> TradeBook_eq b2 b3 = true ->
   TradeBook_eq b1 b3 = true) /\
  (TradeBook_eq b1 b1 = true <-> price b1 <> S754_nan) /\
  (forall v1 v2,
      TradeBook_eq (mkTradeBook (action b1) (stock_code b1) (price b1) v1)
                   (mkTradeBook (action b2) (stock_code b2) (price b2) v2)
      = TradeBook_eq b1 b2).
Proof.
  split; [|split; [|split]].
  - unfold TradeBook_eq.
    now rewrite (String.eqb_sym (action b1)), (String.eqb_sym (stock_code b1)),
      (float_eq_sym (price b1)).
  - unfold TradeBook_eq.
    intros [[Ha Hc]%andb_prop Hp]%andb_prop [[Ha' Hc']%andb_prop Hp']%andb_prop.
    apply String.eqb_eq in Ha, Hc, Ha', Hc'.
    rewrite Ha, Hc, <- Ha', <- Hc', !String.eqb_refl. simpl.
    now apply float_eq_trans with (price b2).
  - unfold TradeBook_eq. rewrite !String.eqb_refl. simpl. apply float_eq_self.
  - reflexivity.
Qed.

(** ** Accounting of [process_trade] *)

Lemma merge_volume_length sb v bs bs' :
  merge_volume sb v bs = Some bs' -> length bs' = length bs.
Proof.
  intros H. apply merge_volume_Some in H as (i & b & _ & _ & _ & ->).
  apply length_insert.
Qed.

Lemma merge_volume_total sb v bs bs' :
  merge_volume sb v bs = Some bs' -> total_volume bs' = total_volume bs + v.
Proof.
  revert bs'. induction bs as [|b bs IH]; simpl; intros bs'; [discriminate|].
  destruct (TradeBook_eq b sb).
  - intros [= <-]. simpl. lia.
  - destruct (merge_volume sb v bs) as [bs''|]; [|discriminate].
    intros [= <-]. simpl. rewrite (IH _ eq_refl). lia.
Qed.

Lemma total_volume_app bs1 bs2 :
  total_volume (bs1 ++ bs2) = total_volume bs1 + total_volume bs2.
Proof. induction bs1 as [|b bs1 IH]; simpl; [reflexivity|]. rewrite IH. lia. Qed.

Lemma merge_volume_Some_Exists sb v bs bs' :
  merge_volume sb v bs = Some bs' ->
  Exists (fun b => TradeBook_eq b sb = true) bs.
Proof.
  intros H. apply merge_volume_Some in H as (i & b & Hi & Hb & _).
  apply Exists_exists. exists b. split; [|exact Hb].
  eapply list_elem_of_lookup_2; eauto.
Qed.

(** X3.  [process_trade] adds exactly [v] to the sum of the volumes in
    the store, whether it updates a record or appends one. *)
Theorem process_trade_total_volume self a c p v :
  wf self ->
  total_volume (records (snd (process_trade self a c p v)))
  = total_volume (records self) + v.
Proof.
  intros Hwf.
  pose proof (process_trade_records self a c p v Hwf) as H.
  unfold process_records in H.
  destruct (merge_volume (search_book a c p) v (records self)) as [bs'|] eqn:Hm;
    injection H as _ ->.
  - eapply merge_volume_total; eauto.
  - rewrite total_volume_app. simpl. lia.
Qed.

Lemma process_trade_total_volume_witness :
  wf sample_store /\
  total_volume (records (snd (process_trade sample_store "buy" "AAPL" price_150 50)))
  = total_volume (records sample_store) + 50.
Proof.
  assert (Hwf : wf sample_store)
    by (split; simpl; [apply NoDup_singleton | repeat constructor]).
  split; [exact Hwf|].
  exact (process_trade_total_volume sample_store "buy" "AAPL" price_150 50 Hwf).
Defined.

(** ** Stores in allocation order *)

Lemma omap_lookup_seq {A} (l pre : list A) :
  omap (fun r => (pre ++ l) !! r) (seq (length pre) (length l)) = l.
Proof.
  revert pre. induction l as [|x l IH]; intros pre; [reflexivity|].
  cbn [length seq]. rewrite (omap_lookup_cons _ _ _ x) by (now apply list_lookup_middle).
  f_equal. specialize (IH (pre ++ [x])).
  rewrite <- app_assoc, length_app in IH. cbn [length app] in IH.
  now rewrite Nat.add_1_r in IH.
Qed.

Lemma canonical_records self : canonical self -> records self = objects self.
Proof.
  unfold canonical, records. intros ->. apply (omap_lookup_seq (objects self) []).
Qed.

Lemma canonical_wf self : canonical self -> wf self.
Proof.
  unfold canonical, wf. intros ->. split; [apply NoDup_seq|].
  apply Forall_forall. intros r Hr. apply list_elem_of_In, in_seq in Hr. lia.
Qed.

Lemma canonical_append_new self b : canonical self -> canonical (append_new self b).
Proof.
  unfold canonical, append_new. simpl. intros ->.
  rewrite length_app. simpl. now rewrite Nat.add_1_r, seq_S.
Qed.

Lemma canonical_process_trade self a c p v :
  canonical self -> canonical (snd (process_trade self a c p v)).
Proof.
  intros Hc. unfold process_trade.
  destruct (find_trade_book self a c p); simpl.
  - unfold canonical in *. simpl. now rewrite length_alter.
  - now apply canonical_append_new.
Qed.

Lemma load_lines_canonical ls : forall self,
  canonical self ->
  match load_lines ls self with
  | Done self' | Failed _ self' => canonical self'
  end.
Proof.
  induction ls as [|l ls IH]; intros self Hc; [exact Hc|].
  simpl. destruct (String.eqb (Py.strip l) ""); [now apply IH|].
  destruct (from_csv_line (Py.strip l)) as [b|e]; [|exact Hc].
  apply IH. now apply canonical_append_new.
Qed.

(** Two stores in allocation order with the same records and the same
    orders file are the same store. *)
Lemma canonical_eq self1 self2 :
  canonical self1 -> canonical self2 ->
  records self1 = records self2 -> orders self1 = orders self2 ->
  self1 = self2.
Proof.
  intros H1 H2 Hr Ho.
  rewrite (canonical_records _ H1), (canonical_records _ H2) in Hr.
  unfold canonical in *. destruct self1, self2. simpl in *. congruence.
Qed.

(** ** Stores fed by commands, continued *)

Lemma Forall_process_records (P : TradeBook -> Prop) a c p v bs :
  (forall b, P b -> P (add_volume v b)) ->
  P (mkTradeBook a c p v) ->
  Forall P bs -> Forall P (snd (process_records a c p v bs)).
Proof.
  intros Hadd Hnew Hbs. unfold process_records.
  destruct (merge_volume (search_book a c p) v bs) as [bs'|] eqn:Hm; simpl.
  - apply merge_volume_Some in Hm as (i & b & Hi & _ & _ & ->).
    apply Forall_insert; [assumption|]. apply Hadd.
    eapply Forall_lookup_1; eauto.
  - apply Forall_app. split; [assumption|]. now repeat constructor.
Qed.

Lemma commanded_canonical validator self :
  commanded validator self -> canonical self.
Proof.
  induction 1 as [|self command Hc IH]; [reflexivity|].
  destruct (process_command_cases validator self command)
    as [Hrej|(a & c & ps & vs & p & v & _ & _ & _ & _ & ->)].
  - now rewrite (rejected_unchanged _ _ _ _ Hrej).
  - now apply canonical_process_trade.
Qed.

Lemma commanded_records validator self :
  commanded validator self ->
  unique_identity (records self) /\
  Forall (fun b => valid_record validator b /\ 1 <= volume b) (records self).
Proof.
  induction 1 as [|self command Hc [Hu Hv]].
  - split; [intros i j bi bj Hi; discriminate | constructor].
  - destruct (process_command_cases validator self command)
      as [Hrej|(a & c & ps & vs & p & v & _ & _ & _ & Hvt & ->)].
    + rewrite (rejected_unchanged _ _ _ _ Hrej). auto.
    + destruct (validate_trade_true _ _ _ _ _ _ Hvt) as (_ & Ha & Hsc & Hp & Hvol).
      destruct (commanded_inv _ _ Hc) as (Hwf & _ & _).
      pose proof (process_trade_records self a c p v Hwf) as H.
      replace (records (snd (process_trade self a c p v)))
        with (snd (process_records a c p v (records self))) by (now rewrite <- H).
      unfold validate_volume in Hvol. apply andb_prop in Hvol as [Hlo _].
      apply Z.leb_le in Hlo.
      split; [now apply unique_identity_process_records|].
      apply Forall_process_records; [| |assumption].
      * intros b [Hb Hvb]. split; [exact Hb | simpl; lia].
      * split; [repeat split; assumption | simpl; lia].
Qed.

(** X4.  In every store reached from a new service on a missing orders
    file by commands, no two records are equal under
    [TradeBook.__eq__], the action, stock code and price of every record
    pass the validator, and every volume is at least 1. *)
Theorem commanded_store_invariant validator self :
  commanded validator self ->
  unique_identity (records self) /\
  Forall (fun b => valid_record validator b /\ 1 <= volume b) (records self).
Proof.
  intros Hc. destruct (commanded_records validator self Hc) as [Hu Hv].
  split; [exact Hu | exact Hv].
Qed.

Lemma commanded_store_invariant_witness :
  commanded sample_registry
    (snd (process_command sample_registry (mkTradeBookService [] [] Absent)
            "buy AAPL 150.00 100")) /\
  unique_identity
    (records (snd (process_command sample_registry (mkTradeBookService [] [] Absent)
                     "buy AAPL 150.00 100"))) /\
  Forall (fun b => valid_record sample_registry b /\ 1 <= volume b)
    (records (snd (process_command sample_registry (mkTradeBookService [] [] Absent)
                     "buy AAPL 150.00 100"))).
Proof.
  assert (Hc : commanded sample_registry
                 (snd (process_command sample_registry (mkTradeBookService [] [] Absent)
                         "buy AAPL 150.00 100")))
    by (apply commanded_step, commanded_new).
  split; [exact Hc | exact (commanded_store_invariant sample_registry _ Hc)].
Defined.

(** X5.  Stopping and starting again changes nothing: a new service
    constructed on the orders file of a store fed by commands is that
    very store, with the same records in the same order and the same
    file. *)
Theorem restart_transparent validator self :
  commanded validator self ->
  new_TradeBookService (orders self) = Done self.
Proof.
  intros Hc. pose proof (commanded_canonical _ _ Hc) as Hcan.
  destruct (commanded_inv _ _ Hc) as (_ & Hval & [[Ho Hr]|Ho]).
  - rewrite Ho. unfold new_TradeBookService, load_trade_books. simpl. f_equal.
    apply canonical_eq; [reflexivity | exact Hcan | now rewrite Hr | now rewrite Ho].
  - rewrite Ho. unfold new_TradeBookService, load_trade_books. simpl open_read. cbv iota.
    assert (Hwf0 : wf (mkTradeBookService [] [] (Text (serialize (records self)))))
      by (split; simpl; constructor).
    pose proof (load_lines_spec (Py.lines (serialize (records self))) _ Hwf0) as H.
    pose proof (load_lines_canonical (Py.lines (serialize (records self)))
                  (mkTradeBookService [] [] (Text (serialize (records self)))) eq_refl) as Hcan'.
    fold (data_lines (serialize (records self))) in H.
    rewrite (data_lines_serialize validator _ Hval),
      (mapM_parse_fields_lines validator _ Hval) in H.
    destruct H as (self' & Hl & _ & Hr & Ho'). rewrite Hl in Hcan' |- *. f_equal.
    apply canonical_eq; [exact Hcan' | exact Hcan | exact Hr | now rewrite Ho', Ho].
Qed.

Lemma restart_transparent_witness :
  commanded sample_registry
    (snd (process_command sample_registry (mkTradeBookService [] [] Absent)
            "buy AAPL 150.00 100")) /\
  new_TradeBookService
    (orders (snd (process_command sample_registry (mkTradeBookService [] [] Absent)
                    "buy AAPL 150.00 100")))
  = Done (snd (process_command sample_registry (mkTradeBookService [] [] Absent)
                 "buy AAPL 150.00 100")).
Proof.
  assert (Hc : commanded sample_registry
                 (snd (process_command sample_registry (mkTradeBookService [] [] Absent)
                         "buy AAPL 150.00 100")))
    by (apply commanded_step, commanded_new).
  split; [exact Hc | exact (restart_transparent sample_registry _ Hc)].
Defined.

(** ** What [process_command] answers *)

Lemma validate_trade_false validator a c p v m :
  validate_trade validator a c p v = (false, m) ->
  m = msg_invalid_action \/ m = msg_invalid_stock_code \/
  m = msg_invalid_price \/ m = msg_invalid_volume.
Proof.
  unfold validate_trade.
  destruct (validate_action a); simpl; [|intros [= <-]; auto].
  destruct (validate_stock_code validator c); simpl; [|intros [= <-]; auto].
  destruct (validate_price p); simpl; [|intros [= <-]; auto].
  destruct (validate_volume v); simpl; [discriminate | intros [= <-]; auto].
Qed.

(** X6.  With an empty registry no command is accepted: every command
    is rejected and the store stays as it was. *)
Theorem empty_registry_rejects validator store command :
  stock_codes validator = ∅ ->
  rejected validator command (fst (process_command validator store command)) /\
  snd (process_command validator store command) = store.
Proof.
  intros Hempty.
  destruct (process_command_cases validator store command)
    as [Hrej|(a & c & ps & vs & p & v & _ & _ & _ & Hvt & _)].
  - split; [exact Hrej | eapply rejected_unchanged; eauto].
  - destruct (validate_trade_true _ _ _ _ _ _ Hvt) as (_ & _ & Hsc & _).
    apply validate_stock_code_true in Hsc as (_ & _ & _ & Hin).
    rewrite Hempty in Hin. set_solver.
Qed.

Lemma empty_registry_rejects_witness :
  stock_codes (mkStockCodeService "data/stockcode.csv" ∅) = ∅ /\
  rejected (mkStockCodeService "data/stockcode.csv" ∅) "buy AAPL 150.00 100"
    (fst (process_command (mkStockCodeService "data/stockcode.csv" ∅)
            sample_store "buy AAPL 150.00 100")) /\
  snd (process_command (mkStockCodeService "data/stockcode.csv" ∅)
         sample_store "buy AAPL 150.00 100") = sample_store.
Proof.
  split; [reflexivity|].
  exact (empty_registry_rejects (mkStockCodeService "data/stockcode.csv" ∅)
           sample_store "buy AAPL 150.00 100" eq_refl).
Defined.

(** ** CSV lines of records that were not validated *)

Lemma append_assoc (s t u : string) : (s +:+ t) +:+ u = s +:+ t +:+ u.
Proof. induction s as [|c s IH]; [reflexivity|]. now rewrite !append_cons, IH. Qed.

Lemma append_nonempty_r (s t : string) : t <> "" -> s +:+ t <> "".
Proof. destruct s; [auto | discriminate]. Qed.

Lemma rstrip_with_app sp (s t : string) :
  Py.rstrip_with sp t <> "" ->
  Py.rstrip_with sp (s +:+ t) = s +:+ Py.rstrip_with sp t.
Proof.
  intros Ht. induction s as [|c s IH]; [reflexivity|].
  rewrite !append_cons. cbn [Py.rstrip_with]. rewrite IH.
  pose proof (append_nonempty_r s _ Ht) as Hne. clear IH.
  destruct (s +:+ Py.rstrip_with sp t); [contradiction | reflexivity].
Qed.

Lemma fixed2_true h :
  fixed2 true h = String "-" (digits (h / 100) +:+ String "." (two_digits (h mod 100))).
Proof. reflexivity. Qed.

Lemma fixed2_num_chars s h : Py.forallb_str num_char (fixed2 s h) = true.
Proof.
  destruct s; [|apply fixed2_chars].
  rewrite fixed2_true. cbn [Py.forallb_str]. apply andb_true_intro.
  split; [reflexivity|]. rewrite <- fixed2_false. apply fixed2_chars.
Qed.

Lemma py_float_fixed2_neg h :
  py_float (fixed2 true h) = Some (float_of_dec true h (-2)).
Proof.
  destruct (num_chars_plain _ (fixed2_num_chars true h)) as (_ & Hsp & Hus).
  unfold py_float. rewrite (remove_underscores_id _ "000"%char eq_refl Hus).
  rewrite (strip_with_id _ _ Hsp).
  rewrite fixed2_true. unfold strtod.
  change (parse_sign (String "-" (digits (h / 100) +:+ String "." (two_digits (h mod 100)))))
    with (true, digits (h / 100) +:+ String "." (two_digits (h mod 100))).
  cbv beta iota. rewrite scan_digits_digits by reflexivity.
  rewrite scan_digits_two_digits by (apply N.mod_lt; discriminate).
  pose proof (nb_digits_to_uint (h / 100)) as Hnb.
  destruct (nb_digits (N.to_uint (h / 100))) as [|k]; [contradiction|].
  cbn [Nat.add Nat.eqb scan_exponent].
  replace (100 * (h / 100) + h mod 100)%N with h
    by (pose proof (N.div_mod h 100); lia).
  reflexivity.
Qed.

(** [float(f"{x:.2f}")] is [round(x, 2)], for every float. *)
Lemma py_float_format_2f (x : float) : py_float (format_2f x) = Some (round2 x).
Proof.
  destruct x as [s|s| |s m e].
  - destruct s; vm_compute; reflexivity.
  - destruct s; vm_compute; reflexivity.
  - vm_compute. reflexivity.
  - cbn [format_2f round2]. destruct s; [apply py_float_fixed2_neg | apply py_float_fixed2].
Qed.

Lemma format_2f_field_chars (x : float) :
  Py.forallb_str field_char (format_2f x) = true.
Proof.
  destruct x as [s|s| |s m e]; try (destruct s; reflexivity); try reflexivity.
  cbn [format_2f]. apply num_chars_plain, fixed2_num_chars.
Qed.

Lemma str_int_nonempty v : str_int v <> "".
Proof.
  destruct v as [|p|p]; try discriminate.
  unfold str_int. destruct (digits_head (Npos p)) as (c & r & -> & _). discriminate.
Qed.

(** The line of a record is its own [strip] when the action does not
    start with white space. *)
Lemma to_csv_line_strip b :
  no_leading_space (action b) = true -> Py.strip (to_csv_line b) = to_csv_line b.
Proof.
  intros Hhead. unfold Py.strip, Py.strip_with, to_csv_line.
  assert (Hl : forall rest : string,
             Py.lstrip_with Py.isspace (action b +:+ String "," rest)
             = action b +:+ String "," rest).
  { intros rest. destruct (action b) as [|ch a']; [reflexivity|].
    simpl in Hhead. apply negb_true_iff in Hhead.
    rewrite append_cons. cbn [Py.lstrip_with]. now rewrite Hhead. }
  change ("," +:+ stock_code b +:+ "," +:+ format_2f (price b) +:+ "," +:+ str_int (volume b))
    with (String "," (stock_code b +:+ "," +:+ format_2f (price b) +:+ "," +:+ str_int (volume b))).
  rewrite Hl.
  assert (Hv : Py.rstrip_with Py.isspace (str_int (volume b)) = str_int (volume b))
    by (apply rstrip_with_id, field_chars_no_space, num_chars_plain, str_int_chars).
  assert (Hassoc :
    action b +:+ String "," (stock_code b +:+ "," +:+ format_2f (price b) +:+ ","
                               +:+ str_int (volume b))
    = (action b +:+ "," +:+ stock_code b +:+ "," +:+ format_2f (price b) +:+ ",")
        +:+ str_int (volume b)).
  { rewrite !append_assoc. reflexivity. }
  rewrite Hassoc, rstrip_with_app; rewrite Hv; [reflexivity | apply str_int_nonempty].
Qed.

Lemma to_csv_line_split b :
  no_comma (action b) = true -> no_comma (stock_code b) = true ->
  Py.split_on "," (to_csv_line b)
  = [action b; stock_code b; format_2f (price b); str_int (volume b)].
Proof.
  intros Ha Hc. unfold to_csv_line.
  change ("," +:+ stock_code b +:+ "," +:+ format_2f (price b) +:+ "," +:+ str_int (volume b))
    with (String "," (stock_code b +:+ String ","
                        (format_2f (price b) +:+ String "," (str_int (volume b))))).
  rewrite (split_on_app _ _ _ Ha), (split_on_app _ _ _ Hc).
  rewrite split_on_app by apply field_chars_no_comma, format_2f_field_chars.
  now rewrite split_on_no_sep
    by apply field_chars_no_comma, num_chars_plain, str_int_chars.
Qed.

Lemma parse_fields_to_csv_line b :
  no_comma (action b) = true -> no_comma (stock_code b) = true ->
  parse_fields (to_csv_line b) = Some (round_price b).
Proof.
  intros Ha Hc. unfold parse_fields.
  now rewrite (to_csv_line_split b Ha Hc), py_float_format_2f, py_int_str_int.
Qed.



Lemma to_csv_line_no_newline b :
  no_newline (action b) = true -> no_newline (stock_code b) = true ->
  no_newline (to_csv_line b) = true.
Proof.
  intros Ha Hc. unfold no_newline, to_csv_line in *.
  rewrite !forallb_str_app, Ha, Hc.
  rewrite (no_space_no_newline _ (field_chars_no_space _ (format_2f_field_chars (price b)))).
  rewrite (no_space_no_newline _
             (field_chars_no_space _ (proj1 (num_chars_plain _ (str_int_chars (volume b)))))).
  reflexivity.
Qed.

Lemma to_csv_line_nonempty b : to_csv_line b <> "".
Proof.
  unfold to_csv_line. destruct (action b); discriminate.
Qed.

Lemma data_lines_serialize_safe bs :
  Forall file_safe bs -> data_lines (serialize bs) = map to_csv_line bs.
Proof.
  induction 1 as [|b bs Hb _ IH]; [reflexivity|].
  destruct Hb as ((Ha & Hc & Hhead) & Hna & Hnc).
  unfold data_lines in *. cbn [serialize foldr].
  rewrite lines_app by now apply to_csv_line_no_newline.
  rewrite fmap_cons, (to_csv_line_strip b Hhead).
  rewrite filter_cons_True by apply to_csv_line_nonempty.
  cbn [map]. f_equal. exact IH.
Qed.

Lemma mapM_parse_fields_safe bs :
  Forall file_safe bs ->
  mapM parse_fields (map to_csv_line bs) = Some (map round_price bs).
Proof.
  induction 1 as [|b bs Hb _ IH]; [reflexivity|].
  destruct Hb as ((Ha & Hc & _) & _).
  cbn [map]. apply mapM_cons_Some; [now apply parse_fields_to_csv_line | exact IH].
Qed.



(** ** Two-place numerals are accepted *)

Lemma digits2_pos_bounds p :
  2 ^ (Zpos (digits2_pos p) - 1) <= Zpos p < 2 ^ Zpos (digits2_pos p).
Proof.
  rewrite digits2_pos_size.
  pose proof (Pos.size_gt p) as Hgt. pose proof (Pos.size_le p) as Hle.
  apply Pos2Z.pos_lt_pos in Hgt. apply Pos2Z.pos_le_pos in Hle.
  rewrite Pos2Z.inj_pow in Hgt, Hle.
  replace (Zpos (Pos.size p)) with (Z.succ (Zpos (Pos.size p) - 1)) in Hle at 1 by lia.
  rewrite Z.pow_succ_r in Hle by lia. lia.
Qed.

Lemma digits2_pos_unique q k :
  0 < k -> 2 ^ (k - 1) <= Zpos q < 2 ^ k -> Zpos (digits2_pos q) = k.
Proof.
  intros Hk [Hlo Hhi]. pose proof (digits2_pos_bounds q) as [Hlo' Hhi'].
  set (d := Zpos (digits2_pos q)) in *.
  destruct (Z.lt_trichotomy d k) as [Hlt|[Heq|Hgt]]; [exfalso|exact Heq|exfalso].
  - assert (2 ^ d <= 2 ^ (k - 1)) by (apply Z.pow_le_mono_r; lia). lia.
  - assert (2 ^ k <= 2 ^ (d - 1)) by (apply Z.pow_le_mono_r; lia). lia.
Qed.
Lemma loc_of_shr_record_of_loc m l : loc_of_shr_record (shr_record_of_loc m l) = l.
Proof. destruct l as [|[| |]]; reflexivity. Qed.

Lemma shr_m_of_loc m l : shr_m (shr_record_of_loc m l) = m.
Proof. destruct l as [|[| |]]; reflexivity. Qed.

Lemma fexp_normal x : -1021 <= x -> fexp prec emax x = x - 53.
Proof. intros H. unfold fexp, SpecFloat.emin, prec, emax. lia. Qed.

(** The last step of rounding: a mantissa of 53 bits is kept, [2 ^ 53]
    becomes [2 ^ 52] with the exponent raised by one. *)
Lemma round_carry (s : bool) x e :
  2 ^ 52 <= Zpos x <= 2 ^ 53 -> -1074 <= e <= 970 ->
  exists m k,
    (let '(mrs, e') :=
       shr (shr_record_of_loc (Zpos x) loc_Exact) e
           (fexp prec emax (Zdigits2 (Zpos x) + e) - e) in
     match shr_m mrs with
     | 0 => S754_zero s
     | Zpos m0 =>
         if e' <=? emax - prec then S754_finite s m0 e' else S754_infinity s
     | Zneg _ => S754_nan
     end) = S754_finite s m (e + k) /\
    (k = 0 \/ k = 1) /\
    2 ^ 52 <= Zpos m < 2 ^ 53 /\
    Zpos m * 2 ^ k = Zpos x.
Proof.
  intros Hx He. destruct (Z.eq_dec (Zpos x) (2 ^ 53)) as [Heq|Hne].
  - change (2 ^ 53) with (Zpos 9007199254740992) in Heq. injection Heq as ->.
    exists 4503599627370496%positive, 1. cbn [Zdigits2].
    change (Zpos (digits2_pos 9007199254740992)) with 54.
    rewrite fexp_normal by lia. replace (54 + e - 53 - e) with 1 by lia.
    cbn. replace (e + 1 <=? emax - prec) with true
      by (symmetry; apply Z.leb_le; unfold emax, prec; lia).
    split; [reflexivity|]. split; [now right|].
    split; [split; [discriminate | reflexivity] | reflexivity].
  - exists x, 0. cbn [Zdigits2].
    rewrite (digits2_pos_unique x 53) by (change (53 - 1) with 52; lia).
    rewrite fexp_normal by lia. replace (53 + e - 53 - e) with 0 by lia.
    cbn [shr shr_record_of_loc shr_m].
    replace (e <=? emax - prec) with true
      by (symmetry; apply Z.leb_le; unfold emax, prec; lia).
    rewrite Z.add_0_r, Z.pow_0_r. repeat split; auto; lia.
Qed.

Lemma new_location_100 r :
  0 <= r < 100 ->
  (r = 0 /\ new_location 100 r = loc_Exact) \/
  (0 < 2 * r < 100 /\ new_location 100 r = loc_Inexact Lt) \/
  (2 * r = 100 /\ new_location 100 r = loc_Inexact Eq) \/
  (100 < 2 * r /\ new_location 100 r = loc_Inexact Gt).
Proof.
  intros Hr. unfold new_location. change (Z.even 100) with true. cbv iota.
  unfold new_location_even. destruct (Z.eqb_spec r 0) as [->|Hne]; [now left|right].
  destruct (Z.compare_spec (2 * r) 100) as [H|H|H]; [right; left | left | right; right];
    (split; [lia | reflexivity]).
Qed.

(** Rounding the quotient [q] with remainder [r] of a division by 100
    when [q] has 53 bits: the result is within half a unit of the exact
    quotient. *)
Lemma round_div_53 (s : bool) q r e :
  0 <= r < 100 -> 2 ^ 52 <= Zpos q < 2 ^ 53 -> -1074 <= e <= 970 ->
  exists m k,
    binary_round_aux prec emax s (Zpos q) e (new_location 100 r)
    = S754_finite s m (e + k) /\
    (k = 0 \/ k = 1) /\
    2 ^ 52 <= Zpos m < 2 ^ 53 /\
    -50 <= 100 * (Zpos m * 2 ^ k) - (100 * Zpos q + r) <= 50.
Proof.
  intros Hr Hq He. unfold binary_round_aux, shr_fexp. cbn [Zdigits2].
  rewrite (digits2_pos_unique q 53) by (change (53 - 1) with 52; lia).
  rewrite fexp_normal by lia.
  replace (53 + e - 53 - e) with 0 by lia. cbn [shr].
  rewrite loc_of_shr_record_of_loc, shr_m_of_loc.
  assert (Hx : exists x, round_nearest_even (Zpos q) (new_location 100 r) = Zpos x /\
                         Zpos x <= 2 ^ 53 /\ 2 ^ 52 <= Zpos x /\
                         -50 <= 100 * Zpos x - (100 * Zpos q + r) <= 50).
  { destruct (new_location_100 r Hr) as [[H0 ->]|[[H0 ->]|[[H0 ->]|[H0 ->]]]];
      cbn [round_nearest_even].
    - exists q. repeat split; lia.
    - exists q. repeat split; lia.
    - destruct (Z.even (Zpos q)).
      + exists q. repeat split; lia.
      + exists (q + 1)%positive. rewrite Pos2Z.inj_add. repeat split; lia.
    - exists (q + 1)%positive. rewrite Pos2Z.inj_add. repeat split; lia. }
  destruct Hx as (x & -> & Hx1 & Hx2 & Hx3).
  destruct (round_carry s x e (conj Hx2 Hx1) He) as (m & k & Hres & Hk & Hm & Hmk).
  exists m, k. rewrite Hres, Hmk. auto.
Qed.

Lemma shr_1_of_loc q loc :
  shr_1 (shr_record_of_loc (Zpos q) loc)
  = match q with
    | xI h => Build_shr_record (Zpos h) true
                (match loc with loc_Exact => false | _ => true end)
    | xO h => Build_shr_record (Zpos h) false
                (match loc with loc_Exact => false | _ => true end)
    | xH => Build_shr_record 0 true
                (match loc with loc_Exact => false | _ => true end)
    end.
Proof. destruct q, loc as [|[| |]]; reflexivity. Qed.

(** The same when [q] has 54 bits: one bit is shifted out first. *)
Lemma round_div_54 (s : bool) q r e :
  0 <= r < 100 -> 2 ^ 53 <= Zpos q < 2 ^ 54 -> -1074 <= e <= 969 ->
  exists m k,
    binary_round_aux prec emax s (Zpos q) e (new_location 100 r)
    = S754_finite s m (e + 1 + k) /\
    (k = 0 \/ k = 1) /\
    2 ^ 52 <= Zpos m < 2 ^ 53 /\
    -100 <= 200 * (Zpos m * 2 ^ k) - (100 * Zpos q + r) <= 100.
Proof.
  intros Hr Hq He. unfold binary_round_aux, shr_fexp. cbn [Zdigits2].
  rewrite (digits2_pos_unique q 54) by (change (54 - 1) with 53; lia).
  rewrite fexp_normal by lia.
  replace (54 + e - 53 - e) with 1 by lia. cbn [shr iter_pos].
  rewrite shr_1_of_loc.
  change (2 ^ 53) with 9007199254740992 in Hq.
  change (2 ^ 54) with 18014398509481984 in Hq.
  assert (Hx : exists x,
             round_nearest_even
               (shr_m match q with
                      | xI h => Build_shr_record (Zpos h) true
                                  (match new_location 100 r with loc_Exact => false | _ => true end)
                      | xO h => Build_shr_record (Zpos h) false
                                  (match new_location 100 r with loc_Exact => false | _ => true end)
                      | xH => Build_shr_record 0 true
                                  (match new_location 100 r with loc_Exact => false | _ => true end)
                      end)
               (loc_of_shr_record
                  match q with
                  | xI h => Build_shr_record (Zpos h) true
                              (match new_location 100 r with loc_Exact => false | _ => true end)
                  | xO h => Build_shr_record (Zpos h) false
                              (match new_location 100 r with loc_Exact => false | _ => true end)
                  | xH => Build_shr_record 0 true
                              (match new_location 100 r with loc_Exact => false | _ => true end)
                  end) = Zpos x /\
             Zpos x <= 9007199254740992 /\ 4503599627370496 <= Zpos x /\
             -100 <= 200 * Zpos x - (100 * Zpos q + r) <= 100).
  { destruct q as [h|h|]; [| |lia].
    - destruct (new_location_100 r Hr) as [[H0 ->]|[[H0 ->]|[[H0 ->]|[H0 ->]]]];
        cbn [shr_m loc_of_shr_record round_nearest_even].
      + destruct (Z.even (Zpos h)).
        * exists h. repeat split; lia.
        * exists (h + 1)%positive. rewrite Pos2Z.inj_add. repeat split; lia.
      + exists (h + 1)%positive. rewrite Pos2Z.inj_add. repeat split; lia.
      + exists (h + 1)%positive. rewrite Pos2Z.inj_add. repeat split; lia.
      + exists (h + 1)%positive. rewrite Pos2Z.inj_add. repeat split; lia.
    - destruct (new_location_100 r Hr) as [[H0 ->]|[[H0 ->]|[[H0 ->]|[H0 ->]]]];
        cbn [shr_m loc_of_shr_record round_nearest_even];
        exists h; repeat split; lia. }
  destruct Hx as (x & -> & Hx1 & Hx2 & Hx3).
  assert (He' : -1074 <= e + 1 <= 970) by lia.
  destruct (round_carry s x (e + 1) (conj Hx2 Hx1) He') as (m & k & Hres & Hk & Hm & Hmk).
  exists m, k. rewrite Hres, Hmk. auto.
Qed.

(** The float of the numeral [p / 100]: 53 bits of mantissa that differ
    from the exact quotient by at most half a unit. *)
Lemma float_of_dec_two_places_shape (s : bool) (p : positive) :
  Zpos p < 2 ^ 50 ->
  exists m e,
    float_of_dec s (Npos p) (-2) = S754_finite s m e /\
    2 ^ 52 <= Zpos m < 2 ^ 53 /\ e <= -8 /\
    -50 <= 100 * Zpos m - Zpos p * 2 ^ (- e) <= 50.
Proof.
  intros Hp. unfold float_of_dec, float_of_ratio.
  change (0 <=? -2) with false. cbv iota.
  change (Z.to_pos (10 ^ (- (-2)))) with 100%positive.
  unfold SFdiv, SFdiv_core_binary. cbn [Zdigits2]. rewrite xorb_false_r.
  change (Zpos (digits2_pos 100)) with 7.
  pose proof (digits2_pos_bounds p) as [Hlo Hhi].
  set (d := Zpos (digits2_pos p)) in *.
  assert (Hd1 : 1 <= d) by (unfold d; lia).
  assert (Hd2 : d <= 50).
  { destruct (Z_le_gt_dec d 50) as [H|H]; [exact H|exfalso].
    assert (2 ^ 50 <= 2 ^ (d - 1)) by (apply Z.pow_le_mono_r; lia). lia. }
  rewrite fexp_normal by lia.
  replace (Z.min (d + 0 - (7 + 0) - 53) (0 - 0)) with (d - 60) by lia.
  replace (0 - 0 - (d - 60)) with (60 - d) by lia.
  assert (Hs : exists sp, 60 - d = Zpos sp).
  { exists (Z.to_pos (60 - d)). rewrite Z2Pos.id; lia. }
  destruct Hs as [sp Hs]. rewrite Hs.
  rewrite Z.shiftl_mul_pow2 by lia. rewrite <- Hs.
  assert (Hm' : 2 ^ 59 <= Zpos p * 2 ^ (60 - d) < 2 ^ 60).
  { assert (H59 : 2 ^ 59 = 2 ^ (d - 1) * 2 ^ (60 - d))
      by (rewrite <- Z.pow_add_r by lia; f_equal; lia).
    assert (H60 : 2 ^ 60 = 2 ^ d * 2 ^ (60 - d))
      by (rewrite <- Z.pow_add_r by lia; f_equal; lia).
    assert (0 < 2 ^ (60 - d)) by (apply Z.pow_pos_nonneg; lia).
    rewrite H59, H60. split; [apply Z.mul_le_mono_nonneg_r | apply Z.mul_lt_mono_pos_r]; lia. }
  pose proof (Z_div_mod (Zpos p * 2 ^ (60 - d)) 100 eq_refl) as Hdiv.
  destruct (Z.div_eucl (Zpos p * 2 ^ (60 - d)) 100) as [q r].
  destruct Hdiv as [Hqr Hr].
  change (2 ^ 59) with 576460752303423488 in Hm'.
  change (2 ^ 60) with 1152921504606846976 in Hm'.
  assert (Hq : 4503599627370496 <= q < 18014398509481984) by lia.
  destruct q as [|q|q]; [lia| |lia].
  destruct (Z_lt_ge_dec (Zpos q) 9007199254740992) as [Hlt|Hge].
  - destruct (round_div_53 s q r (d - 60) Hr) as (m & k & Hres & Hk & Hm & Herr);
      [change (2 ^ 52) with 4503599627370496;
       change (2 ^ 53) with 9007199254740992; lia | lia |].
    exists m, (d - 60 + k). split; [exact Hres|]. split; [exact Hm|].
    split; [lia|]. rewrite <- Hqr in Herr.
    destruct Hk as [-> | ->].
    + replace (- (d - 60 + 0)) with (60 - d) by lia.
      change (2 ^ 0) with 1 in Herr. lia.
    + replace (- (d - 60 + 1)) with (59 - d) by lia.
      replace (60 - d) with (Z.succ (59 - d)) in Herr by lia.
      rewrite Z.pow_succ_r in Herr by lia.
      change (2 ^ 1) with 2 in Herr. lia.
  - destruct (round_div_54 s q r (d - 60) Hr) as (m & k & Hres & Hk & Hm & Herr);
      [change (2 ^ 53) with 9007199254740992;
       change (2 ^ 54) with 18014398509481984; lia | lia |].
    exists m, (d - 60 + 1 + k). split; [exact Hres|]. split; [exact Hm|].
    split; [lia|]. rewrite <- Hqr in Herr.
    destruct Hk as [-> | ->].
    + replace (- (d - 60 + 1 + 0)) with (59 - d) by lia.
      replace (60 - d) with (Z.succ (59 - d)) in Herr by lia.
      rewrite Z.pow_succ_r in Herr by lia.
      change (2 ^ 0) with 1 in Herr. lia.
    + replace (- (d - 60 + 1 + 1)) with (58 - d) by lia.
      replace (60 - d) with (Z.succ (Z.succ (58 - d))) in Herr by lia.
      rewrite !Z.pow_succ_r in Herr by lia.
      change (2 ^ 1) with 2 in Herr. lia.
Qed.

Lemma hundredths_of_shape (m p : positive) (e : Z) :
  e <= -8 -> -50 <= 100 * Zpos m - Zpos p * 2 ^ (- e) <= 50 ->
  hundredths m e = Npos p.
Proof.
  intros He Herr. unfold hundredths.
  replace (0 <=? e) with false by (symmetry; apply Z.leb_gt; lia).
  assert (HT : 2 ^ 8 <= 2 ^ (- e)) by (apply Z.pow_le_mono_r; lia).
  change (2 ^ 8) with 256 in HT. set (T := 2 ^ (- e)) in *.
  unfold div_half_even.
  destruct (Z_le_gt_dec (Zpos p * T) (100 * Zpos m)) as [Hge|Hlt].
  - assert (Hq : 100 * Zpos m / T = Zpos p)
      by (symmetry; apply (Z.div_unique_pos _ _ _ (100 * Zpos m - Zpos p * T)); lia).
    assert (Hr : (100 * Zpos m) mod T = 100 * Zpos m - Zpos p * T)
      by (symmetry; apply (Z.mod_unique_pos _ _ (Zpos p)); lia).
    rewrite Hq, Hr.
    replace (2 * (100 * Zpos m - Zpos p * T) ?= T) with Lt
      by (symmetry; apply Z.compare_lt_iff; lia).
    reflexivity.
  - assert (Hq : 100 * Zpos m / T = Zpos p - 1)
      by (symmetry; apply (Z.div_unique_pos _ _ _ (100 * Zpos m - (Zpos p - 1) * T)); lia).
    assert (Hr : (100 * Zpos m) mod T = 100 * Zpos m - (Zpos p - 1) * T)
      by (symmetry; apply (Z.mod_unique_pos _ _ (Zpos p - 1)); lia).
    rewrite Hq, Hr.
    replace (2 * (100 * Zpos m - (Zpos p - 1) * T) ?= T) with Gt
      by (symmetry; apply Z.compare_gt_iff; lia).
    replace (Zpos p - 1 + 1) with (Zpos p) by lia. reflexivity.
Qed.

(** [round(x, 2)] leaves the float of a two-place numeral as it is. *)
Lemma round2_two_places (s : bool) (n : N) :
  (n < 2 ^ 50)%N -> round2 (float_of_dec s n (-2)) = float_of_dec s n (-2).
Proof.
  intros Hn. destruct n as [|p]; [reflexivity|].
  assert (Hp : Zpos p < 2 ^ 50).
  { change (Zpos p) with (Z.of_N (Npos p)). change (2 ^ 50) with (Z.of_N (2 ^ 50)%N). lia. }
  destruct (float_of_dec_two_places_shape s p Hp) as (m & e & Hx & Hm & He & Herr).
  rewrite Hx. cbn [round2]. rewrite (hundredths_of_shape m p e He Herr). exact Hx.
Qed.

Lemma float_ge_half_two_places (n : N) :
  (50 <= n < 2 ^ 50)%N -> float_ge (float_of_dec false n (-2)) half = true.
Proof.
  intros [Hlo Hhi]. destruct n as [|p]; [lia|].
  assert (Hp : 50 <= Zpos p < 2 ^ 50).
  { change (Zpos p) with (Z.of_N (Npos p)). change (2 ^ 50) with (Z.of_N (2 ^ 50)%N). lia. }
  destruct (float_of_dec_two_places_shape false p (proj2 Hp)) as (m & e & Hx & Hm & He & Herr).
  rewrite Hx. unfold float_ge, SFleb.
  change half with (S754_finite false 4503599627370496 (-53)).
  cbn [SFcompare].
  assert (He53 : -53 <= e).
  { destruct (Z_le_gt_dec (-53) e) as [H|H]; [exact H|exfalso].
    assert (HT : 2 ^ 54 <= 2 ^ (- e)) by (apply Z.pow_le_mono_r; lia).
    change (2 ^ 54) with 18014398509481984 in HT.
    change (2 ^ 53) with 9007199254740992 in Hm.
    assert (50 * 18014398509481984 <= Zpos p * 2 ^ (- e))
      by (apply Z.mul_le_mono_nonneg; lia).
    lia. }
  destruct (Z.compare_spec (-53) e) as [Heq|Hlt|Hgt]; [|reflexivity|lia].
  change (2 ^ 52) with 4503599627370496 in Hm.
  change (Pos.compare_cont Eq 4503599627370496 m) with (Pos.compare 4503599627370496 m).
  destruct (Pos.compare_spec 4503599627370496 m) as [H|H|H]; try reflexivity.
  exfalso. apply Pos2Z.pos_lt_pos in H. lia.
Qed.

Lemma float_of_dec_not_nan (s : bool) (n : N) :
  (n < 2 ^ 50)%N -> float_of_dec s n (-2) <> S754_nan.
Proof.
  intros Hn. destruct n as [|p]; [discriminate|].
  assert (Hp : Zpos p < 2 ^ 50).
  { change (Zpos p) with (Z.of_N (Npos p)). change (2 ^ 50) with (Z.of_N (2 ^ 50)%N). lia. }
  destruct (float_of_dec_two_places_shape s p Hp) as (m & e & -> & _). discriminate.
Qed.

Lemma validate_price_two_places_true (n : N) :
  (50 <= n < 2 ^ 50)%N -> validate_price (float_of_dec false n (-2)) = true.
Proof.
  intros Hn. unfold validate_price.
  rewrite (float_ge_half_two_places n Hn), round2_two_places by lia.
  apply float_eq_refl, float_of_dec_not_nan. lia.
Qed.

Lemma validate_price_below_half (n : N) :
  (n < 50)%N -> validate_price (float_of_dec false n (-2)) = false.
Proof.
  intros Hn.
  assert (H : forallb (fun k => negb (validate_price (float_of_dec false (N.of_nat k) (-2))))
                      (seq 0 50) = true) by (vm_compute; reflexivity).
  rewrite forallb_forall in H.
  specialize (H (N.to_nat n)). rewrite N2Nat.id in H.
  apply negb_true_iff, H, in_seq. lia.
Qed.

(** X10.  Of the floats of the numerals with two digits after the point
    and a value below ten to the thirteenth, [validate_price] accepts
    those from 0.50 on and no other: the check [round(price, 2) == price]
    never fails on a price typed with two places. *)
Theorem validate_price_two_place_numerals (n : N) :
  (n < 10 ^ 15)%N ->
  validate_price (float_of_dec false n (-2)) = (50 <=? n)%N.
Proof.
  intros Hn. destruct (N.leb_spec 50 n) as [Hge|Hlt].
  - apply validate_price_two_places_true. split; [exact Hge|].
    eapply N.lt_trans; [exact Hn | reflexivity].
  - now apply validate_price_below_half.
Qed.

Lemma validate_price_two_place_numerals_witness :
  (15000 < 10 ^ 15)%N /\
  validate_price (float_of_dec false 15000 (-2)) = (50 <=? 15000)%N.
Proof.
  split; [reflexivity | apply validate_price_two_place_numerals; reflexivity].
Defined.

(** ** A saved file is stable *)

Lemma cents_round2 (x : float) :
  (cents x < 2 ^ 50)%N -> cents (round2 x) = cents x.
Proof.
  destruct x as [s|s| |s m e]; try reflexivity.
  cbn [cents round2]. intros Hc.
  destruct (hundredths m e) as [|p] eqn:Hh; [reflexivity|].
  assert (Hp : Zpos p < 2 ^ 50).
  { change (Zpos p) with (Z.of_N (Npos p)). change (2 ^ 50) with (Z.of_N (2 ^ 50)%N). lia. }
  destruct (float_of_dec_two_places_shape s p Hp) as (m' & e' & Hx & Hm & He & Herr).
  rewrite Hx. cbn [cents]. exact (hundredths_of_shape m' p e' He Herr).
Qed.

Lemma format_2f_round2 (x : float) :
  (cents x < 2 ^ 50)%N -> format_2f (round2 x) = format_2f x.
Proof.
  destruct x as [s|s| |s m e]; try reflexivity.
  cbn [cents round2 format_2f]. intros Hc.
  destruct (hundredths m e) as [|p] eqn:Hh; [reflexivity|].
  assert (Hp : Zpos p < 2 ^ 50).
  { change (Zpos p) with (Z.of_N (Npos p)). change (2 ^ 50) with (Z.of_N (2 ^ 50)%N). lia. }
  destruct (float_of_dec_two_places_shape s p Hp) as (m' & e' & Hx & Hm & He & Herr).
  rewrite Hx. cbn [format_2f]. now rewrite (hundredths_of_shape m' p e' He Herr).
Qed.

Lemma moderate_bound b : moderate b -> (cents (price b) < 2 ^ 50)%N.
Proof. intros H. eapply N.lt_trans; [exact H | reflexivity]. Qed.

Lemma to_csv_line_round_price b :
  moderate b -> to_csv_line (round_price b) = to_csv_line b.
Proof.
  intros H. unfold to_csv_line, round_price. cbn [action stock_code price volume].
  now rewrite (format_2f_round2 _ (moderate_bound b H)).
Qed.

Lemma serialize_round_price bs :
  Forall moderate bs -> serialize (map round_price bs) = serialize bs.
Proof.
  induction 1 as [|b bs Hb _ IH]; [reflexivity|].
  cbn [map serialize foldr]. fold (serialize (map round_price bs)). fold (serialize bs).
  now rewrite IH, (to_csv_line_round_price b Hb).
Qed.

(** X11.  Saving, constructing a new service on the saved file and
    saving again writes the same text: the prices were rounded by the
    first save and do not move again.  The records hold no comma or line
    break in the action and the stock code, no white space at the head
    of the action, and prices printed below ten to the thirteenth. *)
Theorem save_load_save_stable self :
  Forall file_safe (records self) -> Forall moderate (records self) ->
  exists self',
    new_TradeBookService (orders (save_trade_books self)) = Done self' /\
    orders (save_trade_books self') = orders (save_trade_books self).
Proof.
  intros Hsafe Hmod. cbn [save_trade_books orders].
  assert (Hwf : wf (mkTradeBookService [] [] (Text (serialize (records self)))))
    by (split; simpl; constructor).
  pose proof (load_lines_spec (Py.lines (serialize (records self))) _ Hwf) as H.
  fold (data_lines (serialize (records self))) in H.
  rewrite (data_lines_serialize_safe _ Hsafe), (mapM_parse_fields_safe _ Hsafe) in H.
  destruct H as (self' & Hl & _ & Hr & _). exists self'. split; [exact Hl|].
  simpl in Hr. rewrite Hr. f_equal. now apply serialize_round_price.
Qed.

Lemma save_load_save_stable_witness :
  Forall file_safe (records unvalidated_store) /\
  Forall moderate (records unvalidated_store) /\
  exists self',
    new_TradeBookService (orders (save_trade_books unvalidated_store)) = Done self' /\
    orders (save_trade_books self') = orders (save_trade_books unvalidated_store).
Proof.
  assert (H : Forall file_safe (records unvalidated_store)) by (repeat constructor).
  assert (H' : Forall moderate (records unvalidated_store)) by (repeat constructor).
  split; [exact H|]. split; [exact H'|].
  exact (save_load_save_stable unvalidated_store H H').
Defined.

(** ** Commands: white space and tokens *)

Lemma split_cons c (s : string) :
  Py.split (String c s)
  = if Py.isspace c then Py.split s
    else match s with
         | EmptyString => [String c EmptyString]
         | String c' _ =>
             if Py.isspace c' then String c EmptyString :: Py.split s
             else match Py.split s with
                  | w :: ws => String c w :: ws
                  | [] => [String c EmptyString]
                  end
         end.
Proof. destruct s; reflexivity. Qed.

Lemma split_blank_app (u s : string) :
  blank u = true -> Py.split (u +:+ s) = Py.split s.
Proof.
  induction u as [|c u IH]; [reflexivity|]. unfold blank. cbn [Py.forallb_str].
  intros [Hc Hu]%andb_prop. rewrite append_cons, split_cons, Hc. now apply IH.
Qed.

Lemma split_blank (u : string) : blank u = true -> Py.split u = [].
Proof.
  induction u as [|c u IH]; [reflexivity|]. unfold blank. cbn [Py.forallb_str].
  intros [Hc Hu]%andb_prop. rewrite split_cons, Hc. now apply IH.
Qed.

(** A token followed by nothing or by white space is the first word. *)
Lemma split_word_app (w t : string) :
  word w -> no_leading_space t = false \/ t = "" ->
  Py.split (w +:+ t) = w :: Py.split t.
Proof.
  intros [Hne Hw] Ht. induction w as [|c w IH]; [contradiction|]. clear Hne.
  cbn [Py.forallb_str] in Hw. apply andb_prop in Hw as [Hc Hw].
  apply negb_true_iff in Hc. rewrite append_cons, split_cons, Hc.
  destruct w as [|c1 w].
  - change ("" +:+ t) with t. destruct t as [|c' t']; [reflexivity|].
    destruct Ht as [Ht|Ht]; [|discriminate Ht].
    cbn [no_leading_space] in Ht. apply negb_false_iff in Ht. now rewrite Ht.
  - rewrite append_cons. rewrite <- append_cons at 2.
    pose proof Hw as Hw'. cbn [Py.forallb_str] in Hw'.
    apply andb_prop in Hw' as [Hc1 _]. apply negb_true_iff in Hc1. rewrite Hc1.
    rewrite IH; [reflexivity | discriminate | exact Hw].
Qed.

Lemma separator_head (u s : string) :
  separator u -> no_leading_space (u +:+ s) = false.
Proof.
  intros [Hb Hne]. destruct u as [|c u]; [contradiction|].
  unfold blank in Hb. cbn [Py.forallb_str] in Hb. apply andb_prop in Hb as [Hc _].
  rewrite append_cons. cbn [no_leading_space]. now rewrite Hc.
Qed.

Lemma split_word_separator (w u s : string) :
  word w -> separator u -> Py.split (w +:+ u +:+ s) = w :: Py.split s.
Proof.
  intros Hw Hu. rewrite split_word_app by (auto using separator_head).
  now rewrite split_blank_app by apply Hu.
Qed.

Lemma split_lstrip (s : string) :
  Py.split (Py.lstrip_with Py.isspace s) = Py.split s.
Proof.
  induction s as [|c s IH]; [reflexivity|]. cbn [Py.lstrip_with].
  destruct (Py.isspace c) eqn:Hc; [|reflexivity].
  now rewrite split_cons, Hc.
Qed.

Lemma rstrip_with_cons_inv sp c (s : string) c1 r1 :
  Py.rstrip_with sp (String c s) = String c1 r1 -> c1 = c.
Proof.
  cbn [Py.rstrip_with]. destruct (Py.rstrip_with sp s).
  - destruct (sp c); [discriminate | now intros [= <- _]].
  - now intros [= <- _].
Qed.

Lemma split_rstrip (s : string) :
  Py.split (Py.rstrip_with Py.isspace s) = Py.split s.
Proof.
  induction s as [|c s IH]; [reflexivity|]. cbn [Py.rstrip_with].
  destruct (Py.rstrip_with Py.isspace s) as [|c1 r1] eqn:Hr.
  - change (Py.split "") with (@nil string) in IH.
    rewrite (split_cons c s). destruct (Py.isspace c) eqn:Hc; [exact IH|].
    rewrite split_cons, Hc. destruct s as [|c' s']; [reflexivity|].
    rewrite <- IH. now destruct (Py.isspace c').
  - rewrite (split_cons c s), (split_cons c (String c1 r1)).
    destruct (Py.isspace c); [exact IH|].
    destruct s as [|c' s']; [discriminate Hr|].
    apply rstrip_with_cons_inv in Hr as Heq. subst c1. now rewrite IH.
Qed.

(** [s.strip().split()] is [s.split()]. *)
Lemma split_strip (s : string) : Py.split (Py.strip s) = Py.split s.
Proof.
  unfold Py.strip, Py.strip_with. now rewrite split_rstrip, split_lstrip.
Qed.

Lemma split_four (u0 a u1 c u2 p u3 v u4 : string) :
  blank u0 = true -> word a -> separator u1 -> word c -> separator u2 ->
  word p -> separator u3 -> word v -> blank u4 = true ->
  Py.split (Py.strip (u0 +:+ a +:+ u1 +:+ c +:+ u2 +:+ p +:+ u3 +:+ v +:+ u4))
  = [a; c; p; v].
Proof.
  intros H0 Ha H1 Hc H2 Hp H3 Hv H4.
  rewrite split_strip, (split_blank_app _ _ H0).
  rewrite (split_word_separator _ _ _ Ha H1), (split_word_separator _ _ _ Hc H2),
    (split_word_separator _ _ _ Hp H3).
  rewrite (split_word_app v u4 Hv).
  - now rewrite (split_blank _ H4).
  - destruct u4 as [|ch u]; [now right|left].
    unfold blank in H4. cbn [Py.forallb_str] in H4. apply andb_prop in H4 as [Hch _].
    cbn [no_leading_space]. now rewrite Hch.
Qed.

Lemma format_2f_nonempty (x : float) : format_2f x <> "".
Proof.
  destruct x as [s|s| |s m e]; try (destruct s; discriminate); try discriminate.
  cbn [format_2f]. destruct s; [rewrite fixed2_true; discriminate|].
  rewrite fixed2_false. apply append_nonempty_r. discriminate.
Qed.

Lemma field_chars_word (s : string) :
  s <> "" -> Py.forallb_str field_char s = true -> word s.
Proof. intros Hne H. split; [exact Hne | now apply field_chars_no_space]. Qed.

Lemma valid_stock_code_word svc (c : string) :
  validate_stock_code svc c = true -> word c.
Proof.
  intros (Hlen & _ & Halpha & _)%validate_stock_code_true.
  apply field_chars_word; [intros ->; discriminate Hlen|].
  unfold Py.isalpha in Halpha. apply andb_prop in Halpha as [_ Halpha].
  eapply forallb_str_impl; [apply isalpha_field_char | exact Halpha].
Qed.

Lemma valid_action_word (a : string) : validate_action a = true -> word a.
Proof.
  intros [-> | ->]%validate_action_inv; (split; [discriminate | reflexivity]).
Qed.

(** X12.  Every trade the validator admits can be submitted: the command
    made of the action, the stock code, the price printed with two
    places and the volume, with any white space between the tokens and
    around them, reaches [process_trade] with these four values. *)
Theorem process_command_submits_valid_trade
    validator store (a c : string) (p : float) (v : Z) (u0 u1 u2 u3 u4 : string) :
  validate_trade validator a c p v = (true, "") ->
  blank u0 = true -> separator u1 -> separator u2 -> separator u3 -> blank u4 = true ->
  process_command validator store
    (u0 +:+ a +:+ u1 +:+ c +:+ u2 +:+ format_2f p +:+ u3 +:+ str_int v +:+ u4)
  = process_trade store a c p v.
Proof.
  intros Hval H0 H1 H2 H3 H4.
  destruct (validate_trade_true _ _ _ _ _ _ Hval) as (_ & Ha & Hc & Hp & _).
  destruct (format_2f_valid p Hp) as [Hpc Hpf].
  apply (process_command_accepted validator store _ a c (format_2f p) (str_int v) p v);
    [|exact Hpf | apply py_int_str_int | exact Hval].
  apply split_four; auto using valid_action_word.
  - exact (valid_stock_code_word _ _ Hc).
  - apply field_chars_word; [apply format_2f_nonempty | exact Hpc].
  - apply field_chars_word; [apply str_int_nonempty|].
    apply num_chars_plain, str_int_chars.
Qed.

Lemma process_command_submits_valid_trade_witness :
  validate_trade sample_registry "buy" "AAPL" price_150 100 = (true, "") /\
  blank "" = true /\ separator " " /\ separator "  " /\ separator " " /\ blank " " = true /\
  process_command sample_registry sample_store
    ("" +:+ "buy" +:+ " " +:+ "AAPL" +:+ "  " +:+ format_2f price_150 +:+ " "
        +:+ str_int 100 +:+ " ")
  = process_trade sample_store "buy" "AAPL" price_150 100.
Proof.
  assert (Hv : validate_trade sample_registry "buy" "AAPL" price_150 100 = (true, ""))
    by (vm_compute; reflexivity).
  assert (Hs1 : separator " ") by (split; [reflexivity | discriminate]).
  assert (Hs2 : separator "  ") by (split; [reflexivity | discriminate]).
  repeat (split; [first [exact Hv | exact Hs1 | exact Hs2 | reflexivity]|]).
  exact (process_command_submits_valid_trade sample_registry sample_store
           "buy" "AAPL" price_150 100 "" " " "  " " " " " Hv eq_refl Hs1 Hs2 Hs1 eq_refl).
Defined.

(** ** The registry read from a file *)

Lemma add_stock_codes_elem (ls : list string) (codes : gset string) (code : string) :
  code ∈ add_stock_codes ls codes <->
  code ∈ codes \/ code ∈ filter (fun l => l <> "") (map Py.strip ls).
Proof.
  revert codes. induction ls as [|l ls IH]; intros codes.
  - cbn [add_stock_codes map]. rewrite filter_nil, elem_of_nil. tauto.
  - cbn [add_stock_codes map]. destruct (String.eqb_spec (Py.strip l) "") as [He|Hne].
    + rewrite IH, filter_cons_False by (intros H; now apply H). reflexivity.
    + rewrite IH, filter_cons_True by exact Hne.
      rewrite elem_of_union, elem_of_singleton, elem_of_cons. tauto.
Qed.

(** X13.  A service constructed on a readable stock code file prints
    nothing and holds exactly the stripped lines of the file that are
    not empty: a code is in the registry if and only if it is such a
    line, whatever its form, and no line of the file is refused. *)
Theorem new_StockCodeService_members (filename content code : string) :
  exists svc,
    new_StockCodeService filename (Text content) = (Ok svc, []) /\
    sc_filename svc = filename /\
    (is_valid_stock_code svc code = true <-> code ∈ data_lines content).
Proof.
  eexists. split; [reflexivity|]. split; [reflexivity|].
  unfold is_valid_stock_code. cbn [stock_codes]. rewrite bool_decide_eq_true.
  rewrite add_stock_codes_elem, elem_of_empty. unfold data_lines. tauto.
Qed.

(** ** Runs of commands: what the store keeps *)

Lemma kept_refl bs : kept bs bs.
Proof. intros i b Hi. exists b. repeat split; auto. lia. Qed.

Lemma kept_trans bs1 bs2 bs3 : kept bs1 bs2 -> kept bs2 bs3 -> kept bs1 bs3.
Proof.
  intros H12 H23 i b Hi.
  destruct (H12 i b Hi) as (b2 & Hi2 & Ha & Hc & Hp & Hv).
  destruct (H23 i b2 Hi2) as (b3 & Hi3 & Ha' & Hc' & Hp' & Hv').
  exists b3. repeat split; try congruence. lia.
Qed.

Lemma kept_app bs l : kept bs (bs ++ l).
Proof.
  intros i b Hi. exists b. repeat split; auto; [|lia].
  now apply lookup_app_l_Some.
Qed.

Lemma kept_insert bs i b v :
  bs !! i = Some b -> 0 <= v -> kept bs (<[i := add_volume v b]> bs).
Proof.
  intros Hi Hv j bj Hj. destruct (Nat.eq_dec i j) as [<-|Hne].
  - exists (add_volume v b). rewrite list_lookup_insert_eq by (eapply lookup_lt_Some; eauto).
    assert (bj = b) by congruence. subst bj. repeat split; auto. simpl. lia.
  - exists bj. rewrite list_lookup_insert_ne by exact Hne. repeat split; auto. lia.
Qed.

Lemma validate_volume_bounds v : validate_volume v = true -> 1 <= v <= 1000000.
Proof. unfold validate_volume. intros [H1 H2]%andb_prop. lia. Qed.

(** One admitted trade on a well-formed store. *)
Lemma process_trade_step store a c p v :
  wf store -> 1 <= v <= 1000000 ->
  let store' := snd (process_trade store a c p v) in
  wf store' /\ kept (records store) (records store') /\
  total_volume (records store) <= total_volume (records store')
    <= total_volume (records store) + 1000000 /\
  (unique_identity (records store) -> unique_identity (records store')).
Proof.
  intros Hwf Hv store'. subst store'.
  split; [now apply wf_process_trade|].
  pose proof (process_trade_records store a c p v Hwf) as H.
  assert (Hrec : records (snd (process_trade store a c p v))
                 = snd (process_records a c p v (records store)))
    by (now rewrite <- H).
  rewrite Hrec. clear H Hrec. split; [|split].
  - unfold process_records.
    destruct (merge_volume (search_book a c p) v (records store)) as [bs'|] eqn:Hm; simpl.
    + apply merge_volume_Some in Hm as (i & b & Hi & _ & _ & ->).
      apply kept_insert; [exact Hi | lia].
    + apply kept_app.
  - unfold process_records.
    destruct (merge_volume (search_book a c p) v (records store)) as [bs'|] eqn:Hm; simpl.
    + rewrite (merge_volume_total _ _ _ _ Hm). lia.
    + rewrite total_volume_app. simpl. lia.
  - apply unique_identity_process_records.
Qed.




Lemma lines_not_nil (s : string) : Py.lines s <> [].
Proof.
  destruct s as [|c s]; [discriminate|]. cbn [Py.lines].
  destruct (Py.is_newline c); [discriminate|]. destruct (Py.lines s); discriminate.
Qed.

(** The lines of two texts joined by a line break. *)
Lemma lines_join (s t : string) :
  Py.lines (s +:+ newline +:+ t) = Py.lines s ++ Py.lines t.
Proof.
  induction s as [|c s IH]; [reflexivity|].
  rewrite append_cons. cbn [Py.lines]. rewrite IH.
  destruct (Py.is_newline c); [reflexivity|].
  pose proof (lines_not_nil s) as Hne.
  destruct (Py.lines s); [contradiction | reflexivity].
Qed.

Lemma run_lines_app validator ls1 ls2 store :
  run_lines validator (ls1 ++ ls2) store
  = let (out1, store1) := run_lines validator ls1 store in
    let (out2, store2) := run_lines validator ls2 store1 in
    (out1 ++ out2, store2).
Proof.
  revert store. induction ls1 as [|l ls1 IH]; intros store.
  - cbn [app run_lines]. now destruct (run_lines validator ls2 store).
  - cbn [app run_lines]. destruct (String.eqb (Py.strip l) ""); [apply IH|].
    destruct (process_command validator store (Py.strip l)) as [result store1].
    rewrite IH. destruct (run_lines validator ls1 store1) as [out1 store2].
    now destruct (run_lines validator ls2 store2).
Qed.




(** ** The prompt *)




(** X18.  [interactive_mode] is left at the first line that lowers to
    [exit] or at the first interrupt, and at nothing else: the end of
    the input is reported and the loop goes on; what comes after the
    leaving event is not read. *)
Theorem interactive_mode_leaves validator events store :
  (snd (interactive_mode validator events store) = Exited
   <-> existsb leaves events = true) /\
  interactive_mode validator events store
  = interactive_mode validator (until_leave events) store.
Proof.
  revert store. induction events as [|e events IH]; intros store.
  - split; [split; discriminate | reflexivity].
  - destruct e as [command| |].
    + cbn [interactive_mode existsb leaves until_leave].
      destruct (String.eqb (py_lower command) "exit") eqn:He.
      * cbn [interactive_mode]. rewrite He. split; [tauto | reflexivity].
      * cbn [interactive_mode orb]. rewrite He.
        destruct (String.eqb (Py.strip command) ""); cbn [negb]; [apply IH|].
        destruct (process_command validator store command) as [result store1].
        destruct (IH store1) as [Hst Heq]. rewrite <- Heq.
        destruct (interactive_mode validator events store1) as [[out store2] st].
        split; [exact Hst | reflexivity].
    + cbn. split; [tauto | reflexivity].
    + cbn [interactive_mode existsb leaves until_leave orb].
      destruct (IH store) as [Hst Heq]. rewrite <- Heq.
      destruct (interactive_mode validator events store) as [[out store1] st].
      split; [exact Hst | reflexivity].
Qed.

(** ** [main] without a registry *)

Lemma empty_registry_unchanged validator store command :
  stock_codes validator = ∅ ->
  snd (process_command validator store command) = store.
Proof.
  intros Hempty.
  destruct (process_command_cases validator store command)
    as [Hrej|(a & c & ps & vs & p & v & _ & _ & _ & Hvt & _)].
  - eapply rejected_unchanged; eauto.
  - destruct (validate_trade_true _ _ _ _ _ _ Hvt) as (_ & _ & Hsc & _).
    apply validate_stock_code_true in Hsc as (_ & _ & _ & Hin).
    rewrite Hempty in Hin. set_solver.
Qed.

Lemma run_lines_empty_registry validator ls store :
  stock_codes validator = ∅ -> snd (run_lines validator ls store) = store.
Proof.
  intros Hempty. induction ls as [|l ls IH]; [reflexivity|].
  cbn [run_lines]. destruct (String.eqb (Py.strip l) ""); [exact IH|].
  pose proof (empty_registry_unchanged validator store (Py.strip l) Hempty) as H.
  destruct (process_command validator store (Py.strip l)) as [result store1].
  cbn [snd] in H. subst store1. now destruct (run_lines validator ls store).
Qed.

Lemma interactive_mode_empty_registry validator events store :
  stock_codes validator = ∅ ->
  snd (fst (interactive_mode validator events store)) = store.
Proof.
  intros Hempty. induction events as [|e events IH]; [reflexivity|].
  destruct e as [command| |]; cbn [interactive_mode].
  - destruct (String.eqb (py_lower command) "exit"); [reflexivity|].
    destruct (String.eqb (Py.strip command) ""); cbn [negb]; [exact IH|].
    pose proof (empty_registry_unchanged validator store command Hempty) as H.
    destruct (process_command validator store command) as [result store1].
    cbn [snd] in H. subst store1.
    now destruct (interactive_mode validator events store) as [[out store2] st].
  - reflexivity.
  - now destruct (interactive_mode validator events store) as [[out store2] st].
Qed.

(** X19.  When the stock code file is missing, [main] prints the warning
    first and accepts no order in either mode: it ends with the store
    the orders file was loaded into, whatever the commands are, and
    this store still has the orders file as it was found. *)
Theorem main_without_stock_codes str_exn environ argv orders_src commands_src events store0 :
  new_TradeBookService orders_src = Done store0 ->
  orders store0 = orders_src /\
  exists out st,
    main str_exn environ argv Absent orders_src commands_src events
    = (Ok (store0, st),
       ("Warning: Stock code file '"
          +:+ environ_get environ "STOCKCODE_FILE" "data/stockcode.csv"
          +:+ "' not found.") :: out).
Proof.
  intros Hload. split.
  - unfold new_TradeBookService, load_trade_books in Hload.
    destruct orders_src as [| |content]; cbn [orders open_read] in Hload.
    + now injection Hload as <-.
    + discriminate Hload.
    + assert (Hwf : wf (mkTradeBookService [] [] (Text content)))
        by (split; simpl; constructor).
      pose proof (load_lines_spec (Py.lines content) _ Hwf) as H.
      destruct (mapM parse_fields _) as [bs|].
      * destruct H as (self' & Hl & _ & _ & Ho). rewrite Hl in Hload.
        injection Hload as <-. exact Ho.
      * destruct H as (self' & Hl). rewrite Hl in Hload. discriminate Hload.
  - unfold main. cbn [new_StockCodeService load_stock_codes open_read].
    rewrite Hload.
    set (svc := mkStockCodeService _ ∅).
    assert (Hempty : stock_codes svc = ∅) by reflexivity.
    destruct argv as [|script [|filename rest]].
    + pose proof (interactive_mode_empty_registry svc events store0 Hempty) as H.
      destruct (interactive_mode svc events store0) as [[out store] st].
      cbn [fst snd] in H. subst store. exists out, st. reflexivity.
    + pose proof (interactive_mode_empty_registry svc events store0 Hempty) as H.
      destruct (interactive_mode svc events store0) as [[out store] st].
      cbn [fst snd] in H. subst store. exists out, st. reflexivity.
    + assert (H : snd (batch_mode str_exn svc store0 filename commands_src) = store0).
      { unfold batch_mode. destruct commands_src as [| |content]; try reflexivity.
        cbn [open_read]. now apply run_lines_empty_registry. }
      destruct (batch_mode str_exn svc store0 filename commands_src) as [out store].
      cbn [snd] in H. subst store. exists out, Exited. reflexivity.
Qed.

Lemma main_without_stock_codes_witness :
  new_TradeBookService Absent = Done (mkTradeBookService [] [] Absent) /\
  orders (mkTradeBookService [] [] Absent) = Absent /\
  exists out st,
    main (fun _ => "") (fun _ => None) ["stockbroker.py"; "orders.txt"]
         Absent Absent sample_commands []
    = (Ok (mkTradeBookService [] [] Absent, st),
       ("Warning: Stock code file '"
          +:+ environ_get (fun _ => None) "STOCKCODE_FILE" "data/stockcode.csv"
          +:+ "' not found.") :: out).
Proof.
  split; [reflexivity|].
  exact (main_without_stock_codes (fun _ => "") (fun _ => None)
           ["stockbroker.py"; "orders.txt"] Absent sample_commands []
           (mkTradeBookService [] [] Absent) eq_refl).
Defined.

(** ** Two runs of [main] *)

Lemma commanded_reload validator self :
  commanded validator self -> new_TradeBookService (orders self) = Done self.
Proof.
  intros Hc. pose proof (commanded_canonical _ _ Hc) as Hcan.
  destruct (commanded_inv _ _ Hc) as (_ & Hval & [[Ho Hr]|Ho]).
  - rewrite Ho. unfold new_TradeBookService, load_trade_books. simpl. f_equal.
    apply canonical_eq; [reflexivity | exact Hcan | now rewrite Hr | now rewrite Ho].
  - rewrite Ho. unfold new_TradeBookService, load_trade_books. simpl open_read. cbv iota.
    assert (Hwf0 : wf (mkTradeBookService [] [] (Text (serialize (records self)))))
      by (split; simpl; constructor).
    pose proof (load_lines_spec (Py.lines (serialize (records self))) _ Hwf0) as H.
    pose proof (load_lines_canonical (Py.lines (serialize (records self)))
                  (mkTradeBookService [] [] (Text (serialize (records self)))) eq_refl) as Hcan'.
    fold (data_lines (serialize (records self))) in H.
    rewrite (data_lines_serialize validator _ Hval),
      (mapM_parse_fields_lines validator _ Hval) in H.
    destruct H as (self' & Hl & _ & Hr & Ho'). rewrite Hl in Hcan' |- *. f_equal.
    apply canonical_eq; [exact Hcan' | exact Hcan | exact Hr | now rewrite Ho', Ho].
Qed.

Lemma run_lines_commanded validator ls store :
  commanded validator store -> commanded validator (snd (run_lines validator ls store)).
Proof.
  revert store. induction ls as [|l ls IH]; intros store Hc; [exact Hc|].
  cbn [run_lines]. destruct (String.eqb (Py.strip l) ""); [now apply IH|].
  pose proof (commanded_step validator store (Py.strip l) Hc) as Hc1.
  destruct (process_command validator store (Py.strip l)) as [result store1].
  cbn [snd] in Hc1. specialize (IH store1 Hc1).
  now destruct (run_lines validator ls store1).
Qed.

(** X20.  Two batch runs of [main], the first without an orders file
    and the second on the orders file the first one wrote, end in the
    store of a single run on the two commands files joined by a line
    break. *)
Theorem main_batch_restart str_exn environ script filename rest stockcode_src
    (c1 c2 : string) events s1 st1 out1 :
  main str_exn environ (script :: filename :: rest) stockcode_src Absent (Text c1) events
  = (Ok (s1, st1), out1) ->
  fst (main str_exn environ (script :: filename :: rest) stockcode_src
            (orders s1) (Text c2) events)
  = fst (main str_exn environ (script :: filename :: rest) stockcode_src
              Absent (Text (c1 +:+ newline +:+ c2)) events).
Proof.
  unfold main.
  destruct (new_StockCodeService _ stockcode_src) as [[svc|e] out0]; [|discriminate].
  change (new_TradeBookService Absent) with (Done (mkTradeBookService [] [] Absent)).
  cbn [batch_mode open_read]. rewrite lines_join, run_lines_app.
  pose proof (run_lines_commanded svc (Py.lines c1) _ (commanded_new svc)) as Hc.
  destruct (run_lines svc (Py.lines c1) (mkTradeBookService [] [] Absent)) as [o1 s1'].
  cbn [snd] in Hc. intros [= <- _ _].
  rewrite (commanded_reload svc s1' Hc).
  now destruct (run_lines svc (Py.lines c2) s1') as [o2 s2].
Qed.

Lemma main_batch_restart_witness :
  main (fun _ => "") (fun _ => None) ["stockbroker.py"; "orders.txt"]
       (Text "AAPL") Absent (Text "buy AAPL 150.00 50") []
  = (Ok (snd (process_command sample_registry (mkTradeBookService [] [] Absent)
                "buy AAPL 150.00 50"), Exited),
     ["buy AAPL 150.00 50"; "Trade book added."]) /\
  fst (main (fun _ => "") (fun _ => None) ["stockbroker.py"; "orders.txt"]
            (Text "AAPL")
            (orders (snd (process_command sample_registry
                            (mkTradeBookService [] [] Absent) "buy AAPL 150.00 50")))
            (Text "buy AAPL 150.00 7") [])
  = fst (main (fun _ => "") (fun _ => None) ["stockbroker.py"; "orders.txt"]
              (Text "AAPL") Absent
              (Text ("buy AAPL 150.00 50" +:+ newline +:+ "buy AAPL 150.00 7")) []).
Proof.
  assert (H : main (fun _ => "") (fun _ => None) ["stockbroker.py"; "orders.txt"]
                (Text "AAPL") Absent (Text "buy AAPL 150.00 50") []
              = (Ok (snd (process_command sample_registry
                            (mkTradeBookService [] [] Absent) "buy AAPL 150.00 50"),
                     Exited),
                 ["buy AAPL 150.00 50"; "Trade book added."]))
    by (vm_compute; reflexivity).
  split; [exact H|].
  exact (main_batch_restart (fun _ => "") (fun _ => None) "stockbroker.py" "orders.txt" []
           (Text "AAPL") "buy AAPL 150.00 50" "buy AAPL 150.00 7" [] _ _ _ H).
Defined.

(** ** The number of digits of an [int] *)

Lemma string_of_uint_length d : String.length (NilEmpty.string_of_uint d) = nb_digits d.
Proof. induction d; simpl; auto. Qed.

Lemma uint_val_acc d : forall acc,
  (uint_val acc d = acc * 10 ^ N.of_nat (nb_digits d) + uint_val 0 d)%N.
Proof.
  induction d as [|d IH|d IH|d IH|d IH|d IH|d IH|d IH|d IH|d IH|d IH];
    intros acc; [cbn; lia | ..];
    cbn [uint_val nb_digits]; rewrite IH; symmetry; rewrite IH; symmetry;
    rewrite Nat2N.inj_succ, N.pow_succ_r'; ring.
Qed.

Lemma uint_val_lt d : (uint_val 0 d < 10 ^ N.of_nat (nb_digits d))%N.
Proof.
  induction d as [|d IH|d IH|d IH|d IH|d IH|d IH|d IH|d IH|d IH|d IH];
    [cbn; lia | ..];
    cbn [uint_val nb_digits]; rewrite uint_val_acc, Nat2N.inj_succ, N.pow_succ_r';
    nia.
Qed.

Lemma uint_val_ge d :
  nzhead d = d -> d <> Nil ->
  (10 ^ N.of_nat (Nat.pred (nb_digits d)) <= uint_val 0 d)%N.
Proof.
  intros Hnz Hne. destruct d as [|d|d|d|d|d|d|d|d|d|d]; [contradiction | ..];
    try (cbn [uint_val nb_digits Nat.pred]; rewrite uint_val_acc;
         assert (0 < 10 ^ N.of_nat (nb_digits d))%N
           by (apply N.neq_0_lt_0, N.pow_nonzero; discriminate);
         nia).
  exfalso. cbn [nzhead] in Hnz. pose proof (DecimalFacts.nb_digits_nzhead d) as H.
  rewrite Hnz in H. cbn [nb_digits] in H. lia.
Qed.

Lemma to_uint_normal n : N.to_uint n = unorm (N.to_uint n).
Proof.
  rewrite <- (DecimalN.Unsigned.of_to n) at 1. apply DecimalN.Unsigned.to_of.
Qed.

(** A natural number has at most [k] digits exactly when it is below
    [10 ^ k], for [k] at least 1. *)
Lemma nb_digits_le n k :
  (0 < k)%nat ->
  (nb_digits (N.to_uint n) <= k)%nat <-> (n < 10 ^ N.of_nat k)%N.
Proof.
  intros Hk. split.
  - intros Hle. pose proof (uint_val_lt (N.to_uint n)) as Hlt.
    rewrite uint_val_to_uint in Hlt.
    eapply N.lt_le_trans; [exact Hlt|]. apply N.pow_le_mono_r; lia.
  - intros Hlt. pose proof (to_uint_normal n) as Hn. unfold unorm in Hn.
    destruct (nzhead (N.to_uint n)) as [|d|d|d|d|d|d|d|d|d|d] eqn:Hnz;
      [rewrite Hn; cbn; lia | ..];
      (rewrite <- Hn in Hnz;
       pose proof (uint_val_ge _ Hnz (to_uint_nonnil n)) as Hge;
       rewrite uint_val_to_uint in Hge;
       destruct (Nat.le_gt_cases (nb_digits (N.to_uint n)) k) as [Hle|Hgt];
       [exact Hle|exfalso];
       assert (10 ^ N.of_nat k <= 10 ^ N.of_nat (Nat.pred (nb_digits (N.to_uint n))))%N
         by (apply N.pow_le_mono_r; lia);
       lia).
Qed.

(** An [int] can be written exactly when its absolute value is below
    [10 ^ 4300]. *)
Lemma fits_spec v :
  Limit.fits v = true <-> Z.abs v < 10 ^ Z.of_nat Limit.int_max_str_digits.
Proof.
  unfold Limit.fits, Limit.int_digits, digits.
  rewrite Nat.leb_le, string_of_uint_length, nb_digits_le by (unfold Limit.int_max_str_digits; lia).
  split; intros H.
  - apply N2Z.inj_lt in H. now rewrite N2Z.inj_abs_N, N2Z.inj_pow, nat_N_Z in H.
  - apply N2Z.inj_lt. now rewrite N2Z.inj_abs_N, N2Z.inj_pow, nat_N_Z.
Qed.

(** ** The limit on conversions: what a call that returns has done *)

Lemma limit_py_int_Some (s : string) v : Limit.py_int s = Some v -> py_int s = Some v.
Proof.
  unfold Limit.py_int, py_int.
  destruct (parse_sign (Py.lstrip_with Py.isspace_num s)) as [neg r].
  destruct (scan_int_digits 0 r) as [[[n k] rest]|]; [|discriminate].
  destruct k as [|k]; [discriminate|].
  destruct (Limit.int_max_str_digits <? S k)%nat; [discriminate | auto].
Qed.

Lemma limit_py_int_digits n :
  (String.length (digits n) <= Limit.int_max_str_digits)%nat ->
  Limit.py_int (digits n) = Some (Z.of_N n).
Proof.
  intros Hlen. unfold Limit.py_int.
  destruct (num_chars_plain _ (digits_num_chars n)) as (_ & Hsp & _).
  rewrite (lstrip_with_id _ _ Hsp).
  destruct (digits_head n) as (c & r & Hd & Hc).
  rewrite Hd, (parse_sign_digit _ _ Hc), <- Hd. unfold digits in *.
  rewrite scan_int_digits_uint, uint_val_to_uint.
  rewrite string_of_uint_length in Hlen.
  pose proof (nb_digits_to_uint n) as Hnb.
  destruct (nb_digits (N.to_uint n)) as [|k]; [contradiction|].
  replace (Limit.int_max_str_digits <? S k)%nat with false
    by (symmetry; apply Nat.ltb_ge; exact Hlen).
  reflexivity.
Qed.

(** [int(str(v))] is [v] when [str(v)] returns. *)
Lemma limit_py_int_str_int v :
  Limit.fits v = true -> Limit.py_int (Num.str_int v) = Some v.
Proof.
  unfold Limit.fits, Limit.int_digits. intros Hfit%Nat.leb_le.
  destruct v as [|p|p].
  - reflexivity.
  - apply (limit_py_int_digits (Npos p)). exact Hfit.
  - cbn [Z.abs_N Z.abs Z.to_N] in Hfit. unfold Num.str_int, Limit.py_int.
    change (Py.lstrip_with Py.isspace_num (String "-" (digits (Npos p))))
      with (String "-" (digits (Npos p))).
    change (parse_sign (String "-" (digits (Npos p)))) with (true, digits (Npos p)).
    unfold digits in *. rewrite scan_int_digits_uint, uint_val_to_uint.
    rewrite string_of_uint_length in Hfit.
    pose proof (nb_digits_to_uint (Npos p)) as Hnb.
    destruct (nb_digits (N.to_uint (Npos p))) as [|k]; [contradiction|].
    replace (Limit.int_max_str_digits <? S k)%nat with false
      by (symmetry; apply Nat.ltb_ge; exact Hfit).
    reflexivity.
Qed.

Lemma spec_line_to_csv_line b : spec_line b = to_csv_line b.
Proof. reflexivity. Qed.

Lemma spec_file_serialize bs : spec_file bs = serialize bs.
Proof. induction bs as [|b bs IH]; [reflexivity|]. cbn. now rewrite IH. Qed.

Lemma limit_to_csv_line b :
  Limit.to_csv_line b
  = if Limit.fits (volume b) then Ok (to_csv_line b) else Raise ValueError.
Proof.
  unfold Limit.to_csv_line, Limit.str_int. now destruct (Limit.fits (volume b)).
Qed.

Lemma limit_from_csv_line_Ok (line : string) b :
  Limit.from_csv_line line = Ok b -> from_csv_line line = Ok b.
Proof.
  unfold Limit.from_csv_line, from_csv_line.
  destruct (Py.split_on "," (Py.strip line)) as [|a [|c [|p [|v [|x r]]]]];
    try discriminate.
  destruct (py_float p); [|discriminate].
  destruct (Limit.py_int v) as [v'|] eqn:Hv; [|discriminate].
  now rewrite (limit_py_int_Some _ _ Hv).
Qed.

(** The line of a valid record that can be written is read back. *)
Lemma limit_from_csv_line_to_csv_line svc b :
  valid_record svc b -> writable b -> Limit.from_csv_line (to_csv_line b) = Ok b.
Proof.
  intros Hb Hw. destruct (to_csv_line_valid svc b Hb) as (Hsp & _ & Hpf).
  unfold Limit.from_csv_line. unfold Py.strip. rewrite (strip_with_id _ _ Hsp).
  unfold parse_fields in Hpf.
  destruct (Py.split_on "," (to_csv_line b)) as [|a [|c [|p [|v [|x r]]]]] eqn:Hs;
    try discriminate Hpf.
  destruct (py_float p) as [p'|] eqn:Hp; [|discriminate Hpf].
  destruct (py_int v) as [v'|] eqn:Hv; [|discriminate Hpf].
  injection Hpf as <-.
  assert (Hfields : Py.split_on "," (to_csv_line (mkTradeBook a c p' v'))
                    = [a; c; format_2f p'; Num.str_int v']).
  { destruct Hb as (Ha & Hc & Hprice). cbn [action stock_code price] in *.
    unfold to_csv_line. cbn [action stock_code price volume].
    apply csv_line_split.
    - destruct (validate_action_inv a Ha) as [-> | ->]; reflexivity.
    - apply validate_stock_code_true in Hc as (_ & _ & Hal & _).
      unfold Py.isalpha in Hal. apply andb_prop in Hal as [_ Hal].
      eapply forallb_str_impl; [apply isalpha_field_char | exact Hal].
    - apply (format_2f_valid p' Hprice).
    - apply num_chars_plain, str_int_chars. }
  rewrite Hs in Hfields. assert (Hveq : v = Num.str_int v') by congruence. subst v.
  unfold writable in Hw. cbn [volume] in Hw.
  now rewrite (limit_py_int_str_int v' Hw).
Qed.

Lemma limit_load_lines_Done ls : forall self self',
  Limit.load_lines ls self = Done self' -> load_lines ls self = Done self'.
Proof.
  induction ls as [|l ls IH]; intros self self'; [auto|].
  cbn [Limit.load_lines load_lines].
  destruct (String.eqb (Py.strip l) ""); [apply IH|].
  destruct (Limit.from_csv_line (Py.strip l)) as [b|e] eqn:Hb; [|discriminate].
  rewrite (limit_from_csv_line_Ok _ _ Hb). apply IH.
Qed.

Lemma limit_new_TradeBookService_Done f self :
  Limit.new_TradeBookService f = Done self -> new_TradeBookService f = Done self.
Proof.
  unfold Limit.new_TradeBookService, new_TradeBookService,
    Limit.load_trade_books, load_trade_books.
  destruct f as [| |content]; cbn [orders open_read]; auto.
  apply limit_load_lines_Done.
Qed.

Lemma new_TradeBookService_loaded f self :
  new_TradeBookService f = Done self -> wf self /\ orders self = f.
Proof.
  intros Hload.
  assert (Hwf0 : wf (mkTradeBookService [] [] f)) by (split; simpl; constructor).
  split.
  - pose proof (load_trade_books_wf _ Hwf0) as H.
    unfold new_TradeBookService in Hload. now rewrite Hload in H.
  - unfold new_TradeBookService, load_trade_books in Hload.
    destruct f as [| |content]; cbn [orders open_read] in Hload.
    + now injection Hload as <-.
    + discriminate Hload.
    + pose proof (load_lines_spec (Py.lines content) _ Hwf0) as H.
      destruct (mapM parse_fields _) as [bs|].
      * destruct H as (self' & Hl & _ & _ & Ho). rewrite Hl in Hload.
        injection Hload as <-. exact Ho.
      * destruct H as (self' & Hl). rewrite Hl in Hload. discriminate Hload.
Qed.

Lemma records_foldl_append_new bs : forall self,
  wf self ->
  wf (foldl append_new self bs) /\
  records (foldl append_new self bs) = records self ++ bs /\
  orders (foldl append_new self bs) = orders self.
Proof.
  induction bs as [|b bs IH]; intros self Hwf.
  - cbn. now rewrite app_nil_r.
  - cbn [foldl]. destruct (IH (append_new self b) (wf_append_new _ _ Hwf))
      as (Hwf' & Hr & Ho).
    split; [exact Hwf'|]. split; [|exact Ho].
    rewrite Hr, records_append_new by exact Hwf. now rewrite <- app_assoc.
Qed.

Lemma limit_load_serialize svc bs : forall self,
  Forall (valid_record svc) bs -> Forall writable bs ->
  Limit.load_lines (Py.lines (serialize bs)) self = Done (foldl append_new self bs).
Proof.
  induction bs as [|b bs IH]; intros self Hv Hw; [reflexivity|].
  apply Forall_cons in Hv as [Hb Hv]. apply Forall_cons in Hw as [Hwb Hw].
  destruct (to_csv_line_valid svc b Hb) as (Hsp & Hne & _).
  cbn [serialize foldr]. fold (serialize bs).
  rewrite lines_app by now apply no_space_no_newline.
  cbn [Limit.load_lines]. unfold Py.strip at 1 2. rewrite (strip_with_id _ _ Hsp).
  destruct (String.eqb_spec (to_csv_line b) "") as [He|_]; [contradiction|].
  rewrite (limit_from_csv_line_to_csv_line svc b Hb Hwb). cbn [foldl]. now apply IH.
Qed.

(** A new service on a file that holds the lines of valid records that
    could be written holds these records. *)
Lemma limit_reload_serialized svc bs :
  Forall (valid_record svc) bs -> Forall writable bs ->
  exists self', Limit.new_TradeBookService (Text (serialize bs)) = Done self' /\
                records self' = bs.
Proof.
  intros Hv Hw. eexists. split.
  - unfold Limit.new_TradeBookService, Limit.load_trade_books. cbn [orders open_read].
    now apply (limit_load_serialize svc).
  - assert (Hwf0 : wf (mkTradeBookService [] [] (Text (serialize bs))))
      by (split; simpl; constructor).
    now destruct (records_foldl_append_new bs _ Hwf0) as (_ & -> & _).
Qed.

(** The loop of the save ends without an exception exactly when every
    record can be written, and then it has written every line. *)
Lemma write_lines_writable bs :
  Forall writable bs -> Limit.write_lines bs = (spec_file bs, None).
Proof.
  induction 1 as [|b bs Hb _ IH]; [reflexivity|].
  cbn [Limit.write_lines spec_file]. rewrite limit_to_csv_line, Hb, IH. reflexivity.
Qed.

Lemma write_lines_raises bs :
  Exists (fun b => ~ writable b) bs ->
  exists text, Limit.write_lines bs = (text, Some ValueError).
Proof.
  induction bs as [|b bs IH]; intros H; [now apply Exists_nil in H|].
  cbn [Limit.write_lines]. rewrite limit_to_csv_line.
  destruct (Limit.fits (volume b)) eqn:Hb; [|eauto].
  apply Exists_cons in H as [H|H]; [now contradiction H|].
  destruct (IH H) as [text ->]. eauto.
Qed.

Lemma writable_dec bs :
  Forall writable bs \/ Exists (fun b => ~ writable b) bs.
Proof.
  induction bs as [|b bs IH]; [left; constructor|].
  destruct (Limit.fits (volume b)) eqn:Hb.
  - destruct IH as [IH|IH]; [left; now constructor | right; now constructor 2].
  - right. constructor 1. unfold writable. congruence.
Qed.

Lemma writable_not_both bs :
  Forall writable bs -> Exists (fun b => ~ writable b) bs -> False.
Proof.
  intros Hf He. apply Exists_exists in He as (b & Hin & Hb).
  rewrite Forall_forall in Hf. exact (Hb (Hf b Hin)).
Qed.

(** The save with the limit and the save without it. *)
Lemma limit_save_trade_books self :
  (Forall writable (records self) /\
   Limit.save_trade_books self = Done (save_trade_books self)) \/
  (Exists (fun b => ~ writable b) (records self) /\
   exists text,
     Limit.save_trade_books self
     = Failed ValueError
         (mkTradeBookService (objects self) (trade_books self) (Text text))).
Proof.
  unfold Limit.save_trade_books, save_trade_books.
  destruct (writable_dec (records self)) as [H|H].
  - left. split; [exact H|]. rewrite (write_lines_writable _ H).
    now rewrite spec_file_serialize.
  - right. split; [exact H|]. destruct (write_lines_raises _ H) as [text ->]. eauto.
Qed.

(** [process_trade] with the limit: the list is changed as without the
    limit; the call returns what the call without the limit returns when
    every record of the changed list can be written, and raises
    [ValueError] otherwise. *)
Lemma limit_process_trade self a c p v :
  objects (snd (Limit.process_trade self a c p v))
  = objects (snd (process_trade self a c p v)) /\
  trade_books (snd (Limit.process_trade self a c p v))
  = trade_books (snd (process_trade self a c p v)) /\
  ((Forall writable (records (snd (process_trade self a c p v))) /\
    Limit.process_trade self a c p v
    = (Ok (fst (process_trade self a c p v)), snd (process_trade self a c p v))) \/
   (Exists (fun b => ~ writable b) (records (snd (process_trade self a c p v))) /\
    fst (Limit.process_trade self a c p v) = Raise ValueError)).
Proof.
  unfold Limit.process_trade, process_trade.
  destruct (find_trade_book self a c p) as [r|].
  - set (self1 := mkTradeBookService _ _ _).
    destruct (limit_save_trade_books self1) as [[Hw ->]|[Hw [text ->]]].
    + cbn [fst snd]. split; [reflexivity|]. split; [reflexivity|]. left. auto.
    + cbn [fst snd]. split; [reflexivity|]. split; [reflexivity|]. right. auto.
  - set (self1 := append_new self _).
    destruct (limit_save_trade_books self1) as [[Hw ->]|[Hw [text ->]]].
    + cbn [fst snd]. split; [reflexivity|]. split; [reflexivity|]. left. auto.
    + cbn [fst snd]. split; [reflexivity|]. split; [reflexivity|]. right. auto.
Qed.

Lemma records_ext self self' :
  objects self = objects self' -> trade_books self = trade_books self' ->
  records self = records self'.
Proof. unfold records. now intros -> ->. Qed.

Lemma limit_process_trade_records self a c p v :
  records (snd (Limit.process_trade self a c p v))
  = records (snd (process_trade self a c p v)).
Proof.
  destruct (limit_process_trade self a c p v) as (Ho & Ht & _).
  now apply records_ext.
Qed.

Lemma limit_process_trade_Ok self a c p v m self' :
  Limit.process_trade self a c p v = (Ok m, self') ->
  process_trade self a c p v = (m, self') /\ Forall writable (records self').
Proof.
  intros H. destruct (limit_process_trade self a c p v) as (_ & _ & [[Hw He]|[_ He]]).
  - rewrite He in H. injection H as <- <-. split; [|exact Hw].
    now destruct (process_trade self a c p v).
  - rewrite H in He. discriminate He.
Qed.

(** [process_command] with the limit either rejects the command and
    leaves the store, or reaches [process_trade] with an admitted
    trade. *)
Lemma limit_process_command_cases validator store command :
  (exists m, Limit.process_command validator store command = (Ok m, store) /\
             m ∈ command_messages)
  \/ exists a c p v,
       validate_trade validator a c p v = (true, "") /\
       Limit.process_command validator store command
       = Limit.process_trade store a c p v.
Proof.
  unfold Limit.process_command, command_messages.
  destruct (Py.split (Py.strip command)) as [|a [|c [|ps [|vs [|x l]]]]];
    try (left; eexists; split; [reflexivity | set_solver]).
  destruct (py_float ps) as [p|];
    [|left; eexists; split; [reflexivity | set_solver]].
  destruct (Limit.py_int vs) as [v|];
    [|left; eexists; split; [reflexivity | set_solver]].
  destruct (validate_trade validator a c p v) as [[|] m] eqn:Hvt; cbn [negb].
  - right. exists a, c, p, v. split; [|reflexivity].
    now destruct (validate_trade_true _ _ _ _ _ _ Hvt) as (-> & _).
  - left. exists m. split; [reflexivity|].
    destruct (validate_trade_false _ _ _ _ _ _ Hvt) as [->|[->|[->| ->]]]; set_solver.
Qed.

(** ** Claims on what is written and read back *)

Lemma write_lines_None bs : forall text,
  Limit.write_lines bs = (text, None) -> text = spec_file bs.
Proof.
  induction bs as [|b bs IH]; intros text.
  - now intros [= <-].
  - cbn [Limit.write_lines spec_file]. rewrite limit_to_csv_line.
    destruct (Limit.fits (volume b)); [|discriminate].
    destruct (Limit.write_lines bs) as [text' e']. intros [= <- ->].
    now rewrite (IH text' eq_refl).
Qed.

(** C3.  When [process_trade] returns, the orders file holds one line
    per record of the list as the call leaves it, in the order of the
    list: action, stock code, price with two decimals and volume,
    separated by commas, each line ended by a line break.  The call is
    then the call described without the limit on conversions.  (A call
    that raises has changed the list and cut the file, see
    [process_trade_at_limit].) *)
Theorem process_trade_write_through self a c p v m self' :
  Limit.process_trade self a c p v = (Ok m, self') ->
  orders self' = Text (spec_file (records self')) /\
  process_trade self a c p v = (m, self').
Proof.
  intros H. destruct (limit_process_trade_Ok _ _ _ _ _ _ _ H) as [Hb _].
  split; [|exact Hb]. clear Hb.
  unfold Limit.process_trade in H.
  destruct (find_trade_book self a c p) as [r|];
    unfold Limit.save_trade_books in H;
    destruct (Limit.write_lines _) as [text [e|]] eqn:Hwl; try discriminate H;
    injection H as _ <-; cbn [orders]; f_equal;
    exact (write_lines_None _ _ Hwl).
Qed.

Lemma process_trade_write_through_witness :
  Limit.process_trade two_records "sell" "MSFT" (float_of_dec false 5000 (-2)) 5
  = (Ok msg_updated,
     snd (Limit.process_trade two_records "sell" "MSFT" (float_of_dec false 5000 (-2)) 5)) /\
  (orders (snd (Limit.process_trade two_records "sell" "MSFT"
                  (float_of_dec false 5000 (-2)) 5))
   = Text (spec_file (records (snd (Limit.process_trade two_records "sell" "MSFT"
                                      (float_of_dec false 5000 (-2)) 5)))) /\
   process_trade two_records "sell" "MSFT" (float_of_dec false 5000 (-2)) 5
   = (msg_updated,
      snd (Limit.process_trade two_records "sell" "MSFT"
             (float_of_dec false 5000 (-2)) 5))) /\
  orders (snd (Limit.process_trade two_records "sell" "MSFT"
                 (float_of_dec false 5000 (-2)) 5))
  = Text ("buy,AAPL,150.00,100" +:+ newline +:+ "sell,MSFT,50.00,15" +:+ newline).
Proof.
  assert (H : Limit.process_trade two_records "sell" "MSFT"
                (float_of_dec false 5000 (-2)) 5
              = (Ok msg_updated,
                 snd (Limit.process_trade two_records "sell" "MSFT"
                        (float_of_dec false 5000 (-2)) 5)))
    by (vm_compute; reflexivity).
  split; [exact H|]. split; [|vm_compute; reflexivity].
  exact (process_trade_write_through _ _ _ _ _ _ _ H).
Defined.

(** One trade that the validator admits, on a served store. *)
Lemma served_trade_step validator self a c p v m self' :
  wf self -> Forall (valid_record validator) (records self) ->
  validate_trade validator a c p v = (true, "") ->
  Limit.process_trade self a c p v = (Ok m, self') ->
  wf self' /\ Forall (valid_record validator) (records self') /\
  exists self'', Limit.new_TradeBookService (orders self') = Done self'' /\
                 records self'' = records self'.
Proof.
  intros Hwf Hval Hvt H.
  destruct (limit_process_trade_Ok _ _ _ _ _ _ _ H) as [Hb Hw].
  assert (Hself : self' = snd (process_trade self a c p v)) by (now rewrite Hb).
  destruct (validate_trade_true _ _ _ _ _ _ Hvt) as (_ & Ha & Hsc & Hp & _).
  assert (Hval' : Forall (valid_record validator) (records self')).
  { subst self'. pose proof (process_trade_records self a c p v Hwf) as Hr.
    replace (records (snd (process_trade self a c p v)))
      with (snd (process_records a c p v (records self))) by (now rewrite <- Hr).
    now apply valid_process_records. }
  split; [subst self'; now apply wf_process_trade|]. split; [exact Hval'|].
  assert (Ho : orders self' = Text (serialize (records self')))
    by (subst self'; apply process_trade_orders).
  rewrite Ho. now apply (limit_reload_serialized validator).
Qed.

Lemma served_inv validator self :
  served validator self ->
  wf self /\ Forall (valid_record validator) (records self) /\
  exists self', Limit.new_TradeBookService (orders self) = Done self' /\
                records self' = records self.
Proof.
  induction 1 as [f self Hload Hval
                 |self command m self' _ (Hwf & Hval & Hre) Hc
                 |self a c p v m self' _ (Hwf & Hval & Hre) Hvt Ht].
  - destruct (new_TradeBookService_loaded f self
                (limit_new_TradeBookService_Done f self Hload)) as [Hwf Ho].
    split; [exact Hwf|]. split; [exact Hval|]. exists self. now rewrite Ho.
  - destruct (limit_process_command_cases validator self command)
      as [(m' & He & _)|(a & c & p & v & Hvt & He)]; rewrite He in Hc.
    + injection Hc as _ <-. auto.
    + now apply (served_trade_step validator self a c p v m).
  - now apply (served_trade_step validator self a c p v m).
Qed.

(** C9.  A record whose action, stock code and price pass the validator
    is read back from its CSV line exactly, with the same action, stock
    code, price and volume; with the limit on conversions, whenever the
    line can be written.  After any sequence of commands and trades that
    returned, on a service constructed on any orders file of records the
    validator admits, a new service on the orders file holds the same
    list of records. *)
Theorem csv_round_trip validator :
  (forall b, valid_record validator b -> from_csv_line (to_csv_line b) = Ok b) /\
  (forall b line, valid_record validator b ->
     Limit.to_csv_line b = Ok line -> Limit.from_csv_line line = Ok b) /\
  (forall self, served validator self ->
     exists self', Limit.new_TradeBookService (orders self) = Done self' /\
                   records self' = records self).
Proof.
  split; [apply from_csv_line_to_csv_line|]. split.
  - intros b line Hb. rewrite limit_to_csv_line.
    destruct (Limit.fits (volume b)) eqn:Hw; [|discriminate].
    intros [= <-]. now apply (limit_from_csv_line_to_csv_line validator).
  - intros self Hs. now destruct (served_inv validator self Hs) as (_ & _ & H).
Qed.

Lemma csv_round_trip_witness :
  valid_record sample_registry (mkTradeBook "buy" "AAPL" price_150 100) /\
  from_csv_line (to_csv_line (mkTradeBook "buy" "AAPL" price_150 100))
  = Ok (mkTradeBook "buy" "AAPL" price_150 100) /\
  Limit.to_csv_line (mkTradeBook "buy" "AAPL" price_150 100) = Ok "buy,AAPL,150.00,100" /\
  Limit.from_csv_line "buy,AAPL,150.00,100" = Ok (mkTradeBook "buy" "AAPL" price_150 100) /\
  served sample_registry
    (snd (Limit.process_command sample_registry two_records "sell MSFT 50.00 5")) /\
  exists self',
    Limit.new_TradeBookService
      (orders (snd (Limit.process_command sample_registry two_records
                      "sell MSFT 50.00 5"))) = Done self' /\
    records self'
    = records (snd (Limit.process_command sample_registry two_records
                      "sell MSFT 50.00 5")).
Proof.
  assert (Hb : valid_record sample_registry (mkTradeBook "buy" "AAPL" price_150 100))
    by (repeat split; vm_compute; reflexivity).
  assert (Hl : Limit.to_csv_line (mkTradeBook "buy" "AAPL" price_150 100)
               = Ok "buy,AAPL,150.00,100") by (vm_compute; reflexivity).
  assert (Hs : served sample_registry
                 (snd (Limit.process_command sample_registry two_records
                         "sell MSFT 50.00 5"))).
  { apply (served_command sample_registry two_records "sell MSFT 50.00 5"
             msg_updated).
    - apply (served_new sample_registry (orders two_records)); [reflexivity|].
      repeat constructor; vm_compute; reflexivity.
    - vm_compute. reflexivity. }
  split; [exact Hb|].
  split; [exact (proj1 (csv_round_trip sample_registry) _ Hb)|].
  split; [exact Hl|].
  split; [exact (proj1 (proj2 (csv_round_trip sample_registry)) _ _ Hb Hl)|].
  split; [exact Hs|].
  exact (proj2 (proj2 (csv_round_trip sample_registry)) _ Hs).
Defined.

(** ** The limit on conversions: calls that raise *)

Lemma limit_process_command_result validator store command :
  match fst (Limit.process_command validator store command) with
  | Ok m => m ∈ command_messages
  | Raise e =>
      e = ValueError /\
      Exists (fun b => ~ writable b)
             (records (snd (Limit.process_command validator store command)))
  end.
Proof.
  destruct (limit_process_command_cases validator store command)
    as [(m & -> & Hm)|(a & c & p & v & _ & ->)].
  - exact Hm.
  - destruct (limit_process_trade store a c p v) as (_ & _ & [[_ ->]|[Hw He]]).
    + cbn [fst]. unfold command_messages, process_trade.
      destruct (find_trade_book store a c p); cbn [fst]; set_solver.
    + rewrite He. split; [reflexivity|]. now rewrite limit_process_trade_records.
Qed.

(** X2.  [process_trade] changes the list as the merge of the order
    into the records does, whether it returns or not.  When it returns,
    its answer tells whether the identity was in the store: "Trade book
    updated." when some record equals the search book, and then the
    number of records stays; "Trade book added." when none does, and
    then there is one record more.  It raises [ValueError] instead
    exactly when a volume of the changed list has more digits than the
    limit. *)
Theorem process_trade_message self a c p v :
  wf self ->
  let r := Limit.process_trade self a c p v in
  records (snd r) = snd (process_records a c p v (records self)) /\
  ((Forall writable (records (snd r)) /\ fst r = Ok msg_updated /\
    Exists (fun b => TradeBook_eq b (search_book a c p) = true) (records self) /\
    length (records (snd r)) = length (records self))
   \/ (Forall writable (records (snd r)) /\ fst r = Ok msg_added /\
       Forall (fun b => TradeBook_eq b (search_book a c p) = false) (records self) /\
       length (records (snd r)) = S (length (records self)))
   \/ (Exists (fun b => ~ writable b) (records (snd r)) /\ fst r = Raise ValueError)).
Proof.
  intros Hwf r. subst r. rewrite limit_process_trade_records.
  pose proof (process_trade_records self a c p v Hwf) as H.
  assert (Hrec : records (snd (process_trade self a c p v))
                 = snd (process_records a c p v (records self)))
    by (now rewrite <- H).
  assert (Hmsg : fst (process_trade self a c p v)
                 = fst (process_records a c p v (records self)))
    by (now rewrite <- H).
  split; [exact Hrec|].
  destruct (limit_process_trade self a c p v) as (_ & _ & [[Hw He]|[Hw He]]);
    [|right; right; auto].
  rewrite He. cbn [fst]. rewrite Hmsg. rewrite Hrec in Hw |- *. clear H Hrec Hmsg He.
  unfold process_records in *.
  destruct (merge_volume (search_book a c p) v (records self)) as [bs'|] eqn:Hm;
    cbn [fst snd] in *.
  - left. split; [exact Hw|]. split; [reflexivity|]. split.
    + eapply merge_volume_Some_Exists; eauto.
    + eapply merge_volume_length; eauto.
  - right. left. split; [exact Hw|]. split; [reflexivity|]. split.
    + now apply merge_volume_None in Hm.
    + rewrite length_app. simpl. lia.
Qed.

Lemma process_trade_message_witness :
  wf two_records /\
  let r := Limit.process_trade two_records "sell" "MSFT" (float_of_dec false 5000 (-2)) 5 in
  records (snd r)
  = snd (process_records "sell" "MSFT" (float_of_dec false 5000 (-2)) 5
           (records two_records)) /\
  ((Forall writable (records (snd r)) /\ fst r = Ok msg_updated /\
    Exists (fun b => TradeBook_eq b
                       (search_book "sell" "MSFT" (float_of_dec false 5000 (-2))) = true)
           (records two_records) /\
    length (records (snd r)) = length (records two_records))
   \/ (Forall writable (records (snd r)) /\ fst r = Ok msg_added /\
       Forall (fun b => TradeBook_eq b
                          (search_book "sell" "MSFT" (float_of_dec false 5000 (-2))) = false)
              (records two_records) /\
       length (records (snd r)) = S (length (records two_records)))
   \/ (Exists (fun b => ~ writable b) (records (snd r)) /\ fst r = Raise ValueError)).
Proof.
  assert (Hwf : wf two_records) by exact (reached_wf _ two_records_reached).
  split; [exact Hwf|].
  exact (process_trade_message two_records "sell" "MSFT"
           (float_of_dec false 5000 (-2)) 5 Hwf).
Defined.

(** X7.  [process_command] either answers with one of eight texts, the
    two messages on the form of the command, the four messages of the
    validator, "Trade book added." or "Trade book updated.", or raises
    [ValueError] out of the save, and then a volume in the list has
    more digits than the limit. *)
Theorem process_command_messages validator store command :
  match fst (Limit.process_command validator store command) with
  | Ok m => m ∈ command_messages
  | Raise e =>
      e = ValueError /\
      Exists (fun b => ~ writable b)
             (records (snd (Limit.process_command validator store command)))
  end.
Proof.
  pose proof (limit_process_command_result validator store command) as H.
  destruct (fst (Limit.process_command validator store command)) as [m|e].
  - exact H.
  - destruct H as [He Hw]. split; [exact He | exact Hw].
Qed.

(** At the limit.  A record with a volume of 4300 digits, all of them
    9, is what a new service loads from its line.  An order of one
    share on it is merged in the list, and the save raises before it has
    written a line: the volume in the list is [10 ^ 4300] and the file
    is empty. *)
Lemma fits_below_limit : Limit.fits (10 ^ 4300 - 1) = true.
Proof.
  apply fits_spec. change (Z.of_nat Limit.int_max_str_digits) with 4300.
  assert (H : 0 < 10 ^ 4300) by (apply Z.pow_pos_nonneg; lia).
  revert H. generalize (10 ^ 4300). intros B H. lia.
Qed.

Lemma fits_at_limit : Limit.fits (10 ^ 4300) = false.
Proof.
  destruct (Limit.fits (10 ^ 4300)) eqn:H; [exfalso|reflexivity].
  apply fits_spec in H. change (Z.of_nat Limit.int_max_str_digits) with 4300 in H.
  assert (H0 : 0 < 10 ^ 4300) by (apply Z.pow_pos_nonneg; lia).
  revert H H0. generalize (10 ^ 4300). intros B H H0. lia.
Qed.

Lemma load_at_limit :
  exists self,
    Limit.new_TradeBookService
      (Text (spec_file [mkTradeBook "buy" "AAPL" price_150 (10 ^ 4300 - 1)]))
    = Done self /\
    records self = [mkTradeBook "buy" "AAPL" price_150 (10 ^ 4300 - 1)].
Proof.
  rewrite spec_file_serialize. apply (limit_reload_serialized sample_registry).
  - constructor; [|constructor]. unfold valid_record. cbn [action stock_code price].
    repeat split; vm_compute; reflexivity.
  - constructor; [|constructor]. exact fits_below_limit.
Qed.

Lemma process_trade_at_limit (a c : string) (p : float) (f : file) :
  float_eq p p = true ->
  Limit.process_trade
    (mkTradeBookService [mkTradeBook a c p (10 ^ 4300 - 1)] [O] f) a c p 1
  = (Raise ValueError,
     mkTradeBookService [mkTradeBook a c p (10 ^ 4300)] [O] (Text "")).
Proof.
  intros Hp. pose proof fits_at_limit as Hfit. revert Hfit.
  replace (10 ^ 4300) with (10 ^ 4300 - 1 + 1) at 1 3 by apply Z.sub_add.
  generalize (10 ^ 4300 - 1). intros V Hfit.
  unfold Limit.process_trade, find_trade_book.
  cbn [find_ref objects trade_books orders].
  change ([mkTradeBook a c p V] !! O) with (Some (mkTradeBook a c p V)).
  cbv iota beta. unfold TradeBook_eq at 1. cbn [action stock_code price].
  rewrite !String.eqb_refl, Hp. cbn [andb].
  change (alter (add_volume 1) O [mkTradeBook a c p V])
    with [mkTradeBook a c p (V + 1)].
  unfold Limit.save_trade_books.
  change (records (mkTradeBookService [mkTradeBook a c p (V + 1)] [O] f))
    with [mkTradeBook a c p (V + 1)].
  cbn [Limit.write_lines]. rewrite limit_to_csv_line. cbn [volume].
  rewrite Hfit. reflexivity.
Qed.

(** ** The batch loop with the limit *)

Lemma limit_run_lines_output validator ls : forall store,
  let r := Limit.run_lines validator ls store in
  echoes (fst (fst r)) `prefix_of` filter (fun l => l <> "") (map Py.strip ls) /\
  Forall (fun m => m ∈ command_messages) (answers (fst (fst r))) /\
  length (fst (fst r)) = (2 * length (echoes (fst (fst r))))%nat /\
  match snd r with
  | None => echoes (fst (fst r)) = filter (fun l => l <> "") (map Py.strip ls)
  | Some e =>
      e = ValueError /\
      (length (echoes (fst (fst r)))
       < length (filter (fun l => l <> "") (map Py.strip ls)))%nat /\
      Exists (fun b => ~ writable b) (records (snd (fst r)))
  end.
Proof.
  induction ls as [|l ls IH]; intros store r; subst r.
  - cbn. split; [apply prefix_nil|]. split; [constructor|]. split; reflexivity.
  - cbn [Limit.run_lines map]. destruct (String.eqb_spec (Py.strip l) "") as [He|Hne].
    + rewrite filter_cons_False by (intros H; now apply H). apply IH.
    + rewrite filter_cons_True by exact Hne.
      pose proof (limit_process_command_result validator store (Py.strip l)) as Hres.
      destruct (Limit.process_command validator store (Py.strip l)) as [[m|e] store1];
        cbn [fst snd] in Hres.
      * specialize (IH store1). cbv zeta in IH.
        destruct (Limit.run_lines validator ls store1) as [[out store2] e].
        cbn [fst snd echoes answers] in *. destruct IH as (Hp & Ha & Hl & He).
        split; [now apply prefix_cons|]. split; [now constructor|].
        split; [cbn [length]; lia|].
        destruct e as [e|].
        -- destruct He as (He1 & He2 & He3). split; [exact He1|].
           split; [cbn [length]; lia | exact He3].
        -- now rewrite He.
      * cbn [fst snd echoes answers length]. destruct Hres as [-> Hw].
        split; [apply prefix_nil|]. split; [constructor|]. split; [reflexivity|].
        split; [reflexivity|]. split; [cbn [length]; lia | exact Hw].
Qed.

(** X14.  [batch_mode] on a readable file prints, for the lines that
    are not blank and in the order of the file, the stripped line and
    then one of the eight texts of [process_command].  It does so for
    every such line, unless a command raises [ValueError] out of the
    save: then the loop ends there, the line is not echoed, one line
    "Error: ..." is printed, and a volume in the list has more digits
    than the limit. *)
Theorem batch_mode_output str_exn validator store filename (content : string) :
  let r := Limit.batch_mode str_exn validator store filename (Text content) in
  exists body,
    echoes body `prefix_of` data_lines content /\
    Forall (fun m => m ∈ command_messages) (answers body) /\
    length body = (2 * length (echoes body))%nat /\
    ((fst r = body /\ echoes body = data_lines content) \/
     (fst r = body ++ ["Error: " +:+ str_exn ValueError] /\
      (length (echoes body) < length (data_lines content))%nat /\
      Exists (fun b => ~ writable b) (records (snd r)))).
Proof.
  intros r. subst r. cbn [Limit.batch_mode open_read]. unfold data_lines.
  pose proof (limit_run_lines_output validator (Py.lines content) store) as H.
  cbv zeta in H.
  destruct (Limit.run_lines validator (Py.lines content) store) as [[out store'] e].
  cbn [fst snd] in H. destruct H as (Hp & Ha & Hl & He).
  exists out. split; [exact Hp|]. split; [exact Ha|]. split; [exact Hl|].
  destruct e as [e|].
  - destruct He as (-> & Hlt & Hw). right. auto.
  - left. auto.
Qed.

(** ** Runs of commands with the limit *)

Lemma wf_ext self self' :
  objects self = objects self' -> trade_books self = trade_books self' ->
  wf self' -> wf self.
Proof. unfold wf. now intros -> ->. Qed.

(** One command on a well-formed store, whether it returns or raises. *)
Lemma limit_process_command_step validator store command :
  wf store ->
  let store' := snd (Limit.process_command validator store command) in
  wf store' /\ kept (records store) (records store') /\
  total_volume (records store) <= total_volume (records store')
    <= total_volume (records store) + 1000000 /\
  (unique_identity (records store) -> unique_identity (records store')).
Proof.
  intros Hwf store'. subst store'.
  destruct (limit_process_command_cases validator store command)
    as [(m & -> & _)|(a & c & p & v & Hvt & ->)].
  - cbn [snd]. split; [exact Hwf|]. split; [apply kept_refl|]. split; [lia | auto].
  - destruct (validate_trade_true _ _ _ _ _ _ Hvt) as (_ & _ & _ & _ & Hv).
    apply validate_volume_bounds in Hv.
    destruct (limit_process_trade store a c p v) as (Ho & Ht & _).
    rewrite limit_process_trade_records.
    destruct (process_trade_step store a c p v Hwf Hv) as (Hwf' & H).
    split; [exact (wf_ext _ _ Ho Ht Hwf') | exact H].
Qed.

Lemma limit_process_command_strip validator store (l : string) :
  Limit.process_command validator store (Py.strip l)
  = Limit.process_command validator store l.
Proof.
  unfold Limit.process_command, Py.strip. now rewrite strip_with_idem.
Qed.

Lemma limit_run_lines_app validator ls1 ls2 : forall store,
  Limit.run_lines validator (ls1 ++ ls2) store
  = let '(out1, store1, e1) := Limit.run_lines validator ls1 store in
    match e1 with
    | Some e => (out1, store1, Some e)
    | None =>
        let '(out2, store2, e2) := Limit.run_lines validator ls2 store1 in
        (out1 ++ out2, store2, e2)
    end.
Proof.
  induction ls1 as [|l ls1 IH]; intros store.
  - cbn [app Limit.run_lines].
    now destruct (Limit.run_lines validator ls2 store) as [[out2 store2] e2].
  - cbn [app Limit.run_lines]. destruct (String.eqb (Py.strip l) ""); [apply IH|].
    destruct (Limit.process_command validator store (Py.strip l)) as [[m|e] store1];
      [|reflexivity].
    rewrite IH.
    destruct (Limit.run_lines validator ls1 store1) as [[out1 store2] [e1|]];
      [reflexivity|].
    now destruct (Limit.run_lines validator ls2 store2) as [[out2 store3] e2].
Qed.

Lemma limit_run_lines_store validator ls : forall store,
  wf store ->
  let r := Limit.run_lines validator ls store in
  wf (snd (fst r)) /\ kept (records store) (records (snd (fst r))) /\
  total_volume (records store) <= total_volume (records (snd (fst r)))
    <= total_volume (records store)
       + 1000000 * Z.of_nat (length (answers (fst (fst r)))
                             + match snd r with Some _ => 1 | None => 0 end) /\
  (unique_identity (records store) -> unique_identity (records (snd (fst r)))).
Proof.
  induction ls as [|l ls IH]; intros store Hwf r; subst r.
  - cbn. split; [exact Hwf|]. split; [apply kept_refl|]. split; [lia | auto].
  - cbn [Limit.run_lines]. destruct (String.eqb (Py.strip l) ""); [now apply IH|].
    pose proof (limit_process_command_step validator store (Py.strip l) Hwf) as Hstep.
    cbv zeta in Hstep.
    destruct (Limit.process_command validator store (Py.strip l)) as [[m|e] store1];
      cbn [snd] in Hstep; destruct Hstep as (Hwf1 & Hk1 & Ht1 & Hu1).
    + specialize (IH store1 Hwf1). cbv zeta in IH.
      destruct (Limit.run_lines validator ls store1) as [[out store2] e].
      cbn [fst snd answers] in *. destruct IH as (Hwf2 & Hk2 & Ht2 & Hu2).
      split; [exact Hwf2|]. split; [eapply kept_trans; eauto|].
      split; [|auto]. cbn [length]. lia.
    + cbn [fst snd answers length]. split; [exact Hwf1|]. split; [exact Hk1|].
      split; [lia | exact Hu1].
Qed.

Lemma answers_app_one body (x : string) :
  length body = (2 * length (echoes body))%nat -> answers (body ++ [x]) = answers body.
Proof.
  revert body. fix IH 1. intros [|l [|m body]] H.
  - reflexivity.
  - cbn in H. lia.
  - cbn [app answers]. f_equal. apply IH. cbn [length echoes] in H. lia.
Qed.

(** X21.  With the limit on conversions, a commands file may still be
    cut at a line break: when no command of the first part raises, the
    run on the whole file is the run on the first part followed by the
    run on the second; when one raises, the run on the whole file ends
    with the run on the first part. *)
Theorem limit_batch_mode_concat str_exn validator store filename (c1 c2 : string) :
  Limit.batch_mode str_exn validator store filename (Text (c1 +:+ newline +:+ c2))
  = match snd (Limit.run_lines validator (Py.lines c1) store) with
    | Some _ => Limit.batch_mode str_exn validator store filename (Text c1)
    | None =>
        let (out1, store1) :=
          Limit.batch_mode str_exn validator store filename (Text c1) in
        let (out2, store2) :=
          Limit.batch_mode str_exn validator store1 filename (Text c2) in
        (out1 ++ out2, store2)
    end.
Proof.
  cbn [Limit.batch_mode open_read]. rewrite lines_join, limit_run_lines_app.
  destruct (Limit.run_lines validator (Py.lines c1) store) as [[out1 store1] [e1|]];
    cbn [snd]; [reflexivity|].
  destruct (Limit.run_lines validator (Py.lines c2) store1) as [[out2 store2] [e2|]];
    [now rewrite app_assoc | reflexivity].
Qed.

(** X22.  With the limit on conversions, a run of [batch_mode] still
    removes nothing, whether it ends by an exception or not: every
    record of the store is afterwards in the same cell with the same
    action, stock code and price and at least its volume; the sum of the
    volumes grows by at most 1000000 for each text printed after an
    echo, the line "Error: ..." included; if no two records were equal
    before, none are after. *)
Theorem limit_batch_mode_keeps_records str_exn validator store filename src :
  wf store ->
  let r := Limit.batch_mode str_exn validator store filename src in
  wf (snd r) /\ kept (records store) (records (snd r)) /\
  total_volume (records store) <= total_volume (records (snd r))
    <= total_volume (records store)
       + 1000000 * Z.of_nat (S (length (answers (fst r)))) /\
  (unique_identity (records store) -> unique_identity (records (snd r))).
Proof.
  intros Hwf r. subst r. unfold Limit.batch_mode.
  destruct src as [| |content]; cbn [open_read fst snd answers length].
  - split; [exact Hwf|]. split; [apply kept_refl|]. split; [lia | auto].
  - split; [exact Hwf|]. split; [apply kept_refl|]. split; [lia | auto].
  - pose proof (limit_run_lines_store validator (Py.lines content) store Hwf) as H.
    pose proof (limit_run_lines_output validator (Py.lines content) store) as Hout.
    cbv zeta in H, Hout.
    destruct (Limit.run_lines validator (Py.lines content) store) as [[out store'] e].
    cbn [fst snd] in H, Hout. destruct H as (Hwf' & Hk & Ht & Hu).
    destruct Hout as (_ & _ & Hlen & _).
    destruct e as [e|]; cbn [fst snd].
    + rewrite (answers_app_one _ _ Hlen).
      split; [exact Hwf'|]. split; [exact Hk|]. split; [lia | exact Hu].
    + split; [exact Hwf'|]. split; [exact Hk|]. split; [lia | exact Hu].
Qed.

Lemma limit_batch_mode_keeps_records_witness :
  wf sample_store /\
  let r := Limit.batch_mode (fun _ => "") sample_registry sample_store "orders.txt"
             sample_commands in
  wf (snd r) /\ kept (records sample_store) (records (snd r)) /\
  total_volume (records sample_store) <= total_volume (records (snd r))
    <= total_volume (records sample_store)
       + 1000000 * Z.of_nat (S (length (answers (fst r)))) /\
  (unique_identity (records sample_store) -> unique_identity (records (snd r))).
Proof.
  assert (Hwf : wf sample_store)
    by (split; simpl; [apply NoDup_singleton | repeat constructor]).
  split; [exact Hwf|].
  exact (limit_batch_mode_keeps_records (fun _ => "") sample_registry sample_store
           "orders.txt" sample_commands Hwf).
Defined.

Lemma limit_interactive_mode_typed str_exn validator ls : forall store out store',
  Forall (fun l => py_lower l <> "exit") ls ->
  Limit.run_lines validator ls store = (out, store', None) ->
  Limit.interactive_mode str_exn validator (typed ls) store
  = (answers out, store', Reading).
Proof.
  induction ls as [|l ls IH]; intros store out store' Hls Hrun.
  - cbn in Hrun. injection Hrun as <- <-. reflexivity.
  - apply Forall_cons in Hls as [Hl Hls].
    cbn [typed map Limit.interactive_mode Limit.run_lines] in *. fold (typed ls).
    destruct (String.eqb_spec (py_lower l) "exit") as [He|_]; [contradiction|].
    destruct (String.eqb (Py.strip l) ""); cbn [negb]; [now apply IH|].
    rewrite limit_process_command_strip in Hrun.
    destruct (Limit.process_command validator store l) as [[m|e] store1];
      [|discriminate Hrun].
    destruct (Limit.run_lines validator ls store1) as [[out1 store2] e1] eqn:Hrl.
    injection Hrun as <- <- ->.
    rewrite (IH store1 out1 store2 Hls Hrl). reflexivity.
Qed.

(** X23.  With the limit on conversions, typing the lines of a file at
    the prompt gives the answers and the store of the batch run over
    the file, without the echoes, and the prompt then waits for more,
    provided no line is [exit] in any mix of cases and no command of the
    batch run raises.  (A command that raises ends the batch run; the
    prompt reports it and goes on.) *)
Theorem limit_interactive_mode_as_batch
    str_exn validator store filename (content : string) :
  Forall (fun l => py_lower l <> "exit") (Py.lines content) ->
  snd (Limit.run_lines validator (Py.lines content) store) = None ->
  Limit.interactive_mode str_exn validator (typed (Py.lines content)) store
  = (answers (fst (Limit.batch_mode str_exn validator store filename (Text content))),
     snd (Limit.batch_mode str_exn validator store filename (Text content)), Reading).
Proof.
  intros Hls Hnone. cbn [Limit.batch_mode open_read].
  destruct (Limit.run_lines validator (Py.lines content) store)
    as [[out store'] e] eqn:Hrun.
  cbn [snd] in Hnone. subst e. cbn [fst snd].
  now apply limit_interactive_mode_typed.
Qed.

Lemma limit_interactive_mode_as_batch_witness :
  Forall (fun l => py_lower l <> "exit")
         (Py.lines ("buy AAPL 150.00 50" +:+ newline +:+ "Exit now")) /\
  snd (Limit.run_lines sample_registry
         (Py.lines ("buy AAPL 150.00 50" +:+ newline +:+ "Exit now")) sample_store)
  = None /\
  Limit.interactive_mode (fun _ => "") sample_registry
    (typed (Py.lines ("buy AAPL 150.00 50" +:+ newline +:+ "Exit now"))) sample_store
  = (answers (fst (Limit.batch_mode (fun _ => "") sample_registry sample_store
                     "orders.txt"
                     (Text ("buy AAPL 150.00 50" +:+ newline +:+ "Exit now")))),
     snd (Limit.batch_mode (fun _ => "") sample_registry sample_store "orders.txt"
            (Text ("buy AAPL 150.00 50" +:+ newline +:+ "Exit now"))), Reading).
Proof.
  assert (H : Forall (fun l => py_lower l <> "exit")
                     (Py.lines ("buy AAPL 150.00 50" +:+ newline +:+ "Exit now")))
    by (repeat constructor; discriminate).
  assert (Hn : snd (Limit.run_lines sample_registry
                      (Py.lines ("buy AAPL 150.00 50" +:+ newline +:+ "Exit now"))
                      sample_store) = None) by (vm_compute; reflexivity).
  split; [exact H|]. split; [exact Hn|].
  exact (limit_interactive_mode_as_batch (fun _ => "") sample_registry sample_store
           "orders.txt" _ H Hn).
Defined.

(** ** Numerals with more than two digits after the point *)

Lemma new_location_even_cases D r :
  Z.even D = true -> 0 <= r < D ->
  (r = 0 /\ new_location D r = loc_Exact) \/
  (0 < 2 * r < D /\ new_location D r = loc_Inexact Lt) \/
  (2 * r = D /\ new_location D r = loc_Inexact Eq) \/
  (D < 2 * r /\ new_location D r = loc_Inexact Gt).
Proof.
  intros HD Hr. unfold new_location. rewrite HD.
  unfold new_location_even. destruct (Z.eqb_spec r 0) as [->|Hne]; [now left|right].
  destruct (Z.compare_spec (2 * r) D) as [H|H|H]; [right; left | left | right; right];
    (split; [lia | reflexivity]).
Qed.

(** Rounding the quotient [q] with remainder [r] of a division by an
    even [D] when [q] has 53 bits. *)
Lemma round_quotient_53 (s : bool) D q r e :
  Z.even D = true -> 0 <= r < D ->
  2 ^ 52 <= Zpos q < 2 ^ 53 -> -1074 <= e <= 970 ->
  exists m k,
    binary_round_aux prec emax s (Zpos q) e (new_location D r)
    = S754_finite s m (e + k) /\
    (k = 0 \/ k = 1) /\
    2 ^ 52 <= Zpos m < 2 ^ 53 /\
    - D <= 2 * (D * (Zpos m * 2 ^ k) - (D * Zpos q + r)) <= D.
Proof.
  intros HD Hr Hq He. unfold binary_round_aux, shr_fexp. cbn [Zdigits2].
  rewrite (digits2_pos_unique q 53) by (change (53 - 1) with 52; lia).
  rewrite fexp_normal by lia.
  replace (53 + e - 53 - e) with 0 by lia. cbn [shr].
  rewrite loc_of_shr_record_of_loc, shr_m_of_loc.
  assert (Hx : exists x, round_nearest_even (Zpos q) (new_location D r) = Zpos x /\
                         Zpos x <= 2 ^ 53 /\ 2 ^ 52 <= Zpos x /\
                         - D <= 2 * (D * Zpos x - (D * Zpos q + r)) <= D).
  { destruct (new_location_even_cases D r HD Hr) as [[H0 ->]|[[H0 ->]|[[H0 ->]|[H0 ->]]]];
      cbn [round_nearest_even].
    - exists q. repeat split; lia.
    - exists q. repeat split; lia.
    - destruct (Z.even (Zpos q)).
      + exists q. repeat split; lia.
      + exists (q + 1)%positive. rewrite Pos2Z.inj_add. repeat split; lia.
    - exists (q + 1)%positive. rewrite Pos2Z.inj_add. repeat split; lia. }
  destruct Hx as (x & -> & Hx1 & Hx2 & Hx3).
  destruct (round_carry s x e (conj Hx2 Hx1) He) as (m & k & Hres & Hk & Hm & Hmk).
  exists m, k. rewrite Hres, Hmk. auto.
Qed.

Lemma round_quotient_54 (s : bool) D q r e :
  Z.even D = true -> 0 <= r < D ->
  2 ^ 53 <= Zpos q < 2 ^ 54 -> -1074 <= e <= 969 ->
  exists m k,
    binary_round_aux prec emax s (Zpos q) e (new_location D r)
    = S754_finite s m (e + 1 + k) /\
    (k = 0 \/ k = 1) /\
    2 ^ 52 <= Zpos m < 2 ^ 53 /\
    - D <= 2 * D * (Zpos m * 2 ^ k) - (D * Zpos q + r) <= D.
Proof.
  intros HD Hr Hq He. unfold binary_round_aux, shr_fexp. cbn [Zdigits2].
  rewrite (digits2_pos_unique q 54) by (change (54 - 1) with 53; lia).
  rewrite fexp_normal by lia.
  replace (54 + e - 53 - e) with 1 by lia. cbn [shr iter_pos].
  rewrite shr_1_of_loc.
  change (2 ^ 53) with 9007199254740992 in Hq.
  change (2 ^ 54) with 18014398509481984 in Hq.
  assert (Hx : exists x,
             round_nearest_even
               (shr_m match q with
                      | xI h => Build_shr_record (Zpos h) true
                                  (match new_location D r with loc_Exact => false | _ => true end)
                      | xO h => Build_shr_record (Zpos h) false
                                  (match new_location D r with loc_Exact => false | _ => true end)
                      | xH => Build_shr_record 0 true
                                  (match new_location D r with loc_Exact => false | _ => true end)
                      end)
               (loc_of_shr_record
                  match q with
                  | xI h => Build_shr_record (Zpos h) true
                              (match new_location D r with loc_Exact => false | _ => true end)
                  | xO h => Build_shr_record (Zpos h) false
                              (match new_location D r with loc_Exact => false | _ => true end)
                  | xH => Build_shr_record 0 true
                              (match new_location D r with loc_Exact => false | _ => true end)
                  end) = Zpos x /\
             Zpos x <= 9007199254740992 /\ 4503599627370496 <= Zpos x /\
             - D <= 2 * D * Zpos x - (D * Zpos q + r) <= D).
  { destruct q as [h|h|]; [| |lia].
    - destruct (new_location_even_cases D r HD Hr) as [[H0 ->]|[[H0 ->]|[[H0 ->]|[H0 ->]]]];
        cbn [shr_m loc_of_shr_record round_nearest_even].
      + destruct (Z.even (Zpos h)).
        * exists h. repeat split; lia.
        * exists (h + 1)%positive. rewrite Pos2Z.inj_add. repeat split; lia.
      + exists (h + 1)%positive. rewrite Pos2Z.inj_add. repeat split; lia.
      + exists (h + 1)%positive. rewrite Pos2Z.inj_add. repeat split; lia.
      + exists (h + 1)%positive. rewrite Pos2Z.inj_add. repeat split; lia.
    - destruct (new_location_even_cases D r HD Hr) as [[H0 ->]|[[H0 ->]|[[H0 ->]|[H0 ->]]]];
        cbn [shr_m loc_of_shr_record round_nearest_even];
        exists h; repeat split; lia. }
  destruct Hx as (x & -> & Hx1 & Hx2 & Hx3).
  assert (He' : -1074 <= e + 1 <= 970) by lia.
  destruct (round_carry s x (e + 1) (conj Hx2 Hx1) He') as (m & k & Hres & Hk & Hm & Hmk).
  exists m, k. rewrite Hres, Hmk. auto.
Qed.

Lemma pow10_even k : 0 < k -> Z.even (10 ^ k) = true.
Proof. intros Hk. now rewrite Z.even_pow by exact Hk. Qed.

(** The float of the numeral [p / 10 ^ k]: 53 bits of mantissa that
    differ from the exact quotient by at most half a unit. *)
Lemma float_of_dec_shape (s : bool) (p : positive) (k : Z) :
  1 <= k <= 300 -> Zpos p < 2 ^ 52 ->
  exists m e,
    float_of_dec s (Npos p) (- k) = S754_finite s m e /\
    2 ^ 52 <= Zpos m < 2 ^ 53 /\ e <= -3 /\
    - 10 ^ k <= 2 * (10 ^ k * Zpos m - Zpos p * 2 ^ (- e)) <= 10 ^ k.
Proof.
  intros Hk Hp. unfold float_of_dec, float_of_ratio.
  replace (0 <=? - k) with false by (symmetry; apply Z.leb_gt; lia).
  rewrite Z.opp_involutive.
  assert (HDpos : 0 < 10 ^ k) by (apply Z.pow_pos_nonneg; lia).
  assert (HD10 : 10 <= 10 ^ k).
  { change 10 with (10 ^ 1) at 1. apply Z.pow_le_mono_r; lia. }
  assert (HDmax : 10 ^ k < 2 ^ 1000).
  { apply Z.le_lt_trans with (10 ^ 300); [apply Z.pow_le_mono_r; lia|].
    reflexivity. }
  assert (HDeven : Z.even (10 ^ k) = true) by (apply pow10_even; lia).
  destruct (10 ^ k) as [|Dp|Dp] eqn:HD; try lia. cbn [Z.to_pos].
  unfold SFdiv, SFdiv_core_binary. cbn [Zdigits2]. rewrite xorb_false_r.
  pose proof (digits2_pos_bounds p) as [Hlo Hhi].
  pose proof (digits2_pos_bounds Dp) as [HDlo HDhi].
  set (d := Zpos (digits2_pos p)) in *.
  set (d2 := Zpos (digits2_pos Dp)) in *.
  assert (Hd1 : 1 <= d) by (unfold d; lia).
  assert (Hd2 : d <= 52).
  { destruct (Z_le_gt_dec d 52) as [H|H]; [exact H|exfalso].
    assert (2 ^ 52 <= 2 ^ (d - 1)) by (apply Z.pow_le_mono_r; lia). lia. }
  assert (Hd2lo : 4 <= d2).
  { destruct (Z_le_gt_dec 4 d2) as [H|H]; [exact H|exfalso].
    assert (2 ^ d2 <= 2 ^ 3) by (apply Z.pow_le_mono_r; unfold d2; lia).
    change (2 ^ 3) with 8 in *. lia. }
  assert (Hd2hi : d2 <= 1000).
  { destruct (Z_le_gt_dec d2 1000) as [H|H]; [exact H|exfalso].
    assert (2 ^ 1000 <= 2 ^ (d2 - 1)) by (apply Z.pow_le_mono_r; lia). lia. }
  rewrite fexp_normal by lia.
  replace (Z.min (d + 0 - (d2 + 0) - 53) (0 - 0)) with (d - d2 - 53) by lia.
  replace (0 - 0 - (d - d2 - 53)) with (d2 + 53 - d) by lia.
  assert (Hs : exists sp, d2 + 53 - d = Zpos sp).
  { exists (Z.to_pos (d2 + 53 - d)). rewrite Z2Pos.id; lia. }
  destruct Hs as [sp Hs]. rewrite Hs.
  rewrite Z.shiftl_mul_pow2 by lia. rewrite <- Hs.
  set (P := 2 ^ (d2 - 1)) in *.
  assert (HPpos : 0 < P) by (apply Z.pow_pos_nonneg; lia).
  assert (HP2 : 2 ^ d2 = 2 * P).
  { unfold P. replace d2 with (Z.succ (d2 - 1)) at 1 by lia.
    now rewrite Z.pow_succ_r by lia. }
  assert (Hlow : 2 ^ 53 * P <= Zpos p * 2 ^ (d2 + 53 - d)).
  { replace (2 ^ 53 * P) with (2 ^ (d - 1) * 2 ^ (d2 + 53 - d)).
    - apply Z.mul_le_mono_nonneg_r; [apply Z.pow_nonneg; lia | exact Hlo].
    - unfold P. rewrite <- !Z.pow_add_r by lia. f_equal. lia. }
  assert (Hupp : Zpos p * 2 ^ (d2 + 53 - d) < 2 ^ 54 * P).
  { replace (2 ^ 54 * P) with (2 ^ d * 2 ^ (d2 + 53 - d)).
    - apply Z.mul_lt_mono_pos_r; [apply Z.pow_pos_nonneg; lia | exact Hhi].
    - unfold P. rewrite <- !Z.pow_add_r by lia. f_equal. lia. }
  pose proof (Z_div_mod (Zpos p * 2 ^ (d2 + 53 - d)) (Zpos Dp) eq_refl) as Hdiv.
  destruct (Z.div_eucl (Zpos p * 2 ^ (d2 + 53 - d)) (Zpos Dp)) as [q r].
  destruct Hdiv as [Hqr Hr].
  change (2 ^ 53) with 9007199254740992 in Hlow.
  change (2 ^ 54) with 18014398509481984 in Hupp.
  rewrite HP2 in HDhi.
  assert (Hq : 4503599627370496 <= q < 18014398509481984) by nia.
  destruct q as [|q|q]; [lia| |lia].
  destruct (Z_lt_ge_dec (Zpos q) 9007199254740992) as [Hlt|Hge].
  - destruct (round_quotient_53 s (Zpos Dp) q r (d - d2 - 53) HDeven Hr)
      as (m & j & Hres & Hj & Hm & Herr);
      [change (2 ^ 52) with 4503599627370496;
       change (2 ^ 53) with 9007199254740992; lia | lia |].
    exists m, (d - d2 - 53 + j). split; [exact Hres|]. split; [exact Hm|].
    split; [lia|]. rewrite <- Hqr in Herr.
    destruct Hj as [-> | ->].
    + replace (- (d - d2 - 53 + 0)) with (d2 + 53 - d) by lia.
      change (2 ^ 0) with 1 in Herr. lia.
    + replace (- (d - d2 - 53 + 1)) with (d2 + 52 - d) by lia.
      replace (d2 + 53 - d) with (Z.succ (d2 + 52 - d)) in Herr by lia.
      rewrite Z.pow_succ_r in Herr by lia.
      change (2 ^ 1) with 2 in Herr. lia.
  - destruct (round_quotient_54 s (Zpos Dp) q r (d - d2 - 53) HDeven Hr)
      as (m & j & Hres & Hj & Hm & Herr);
      [change (2 ^ 53) with 9007199254740992;
       change (2 ^ 54) with 18014398509481984; lia | lia |].
    exists m, (d - d2 - 53 + 1 + j). split; [exact Hres|]. split; [exact Hm|].
    split; [lia|]. rewrite <- Hqr in Herr.
    destruct Hj as [-> | ->].
    + replace (- (d - d2 - 53 + 1 + 0)) with (d2 + 52 - d) by lia.
      replace (d2 + 53 - d) with (Z.succ (d2 + 52 - d)) in Herr by lia.
      rewrite Z.pow_succ_r in Herr by lia.
      change (2 ^ 0) with 1 in Herr. lia.
    + replace (- (d - d2 - 53 + 1 + 1)) with (d2 + 51 - d) by lia.
      replace (d2 + 53 - d) with (Z.succ (Z.succ (d2 + 51 - d))) in Herr by lia.
      rewrite !Z.pow_succ_r in Herr by lia.
      change (2 ^ 1) with 2 in Herr. lia.
Qed.

(** The digits [round(x, 2)] keeps of a float near [p / 10 ^ k]. *)
Lemma hundredths_bound (m p : positive) (e c T : Z) :
  e <= -3 -> T = 2 ^ (- e) -> 1 <= c ->
  2 * (100 * c * Zpos m - Zpos p * T) <= 100 * c ->
  Z.of_N (hundredths m e) <= Zpos p + 7.
Proof.
  intros He HT Hc Herr. unfold hundredths.
  replace (0 <=? e) with false by (symmetry; apply Z.leb_gt; lia).
  assert (HT8 : 8 <= T).
  { subst T. change 8 with (2 ^ 3). apply Z.pow_le_mono_r; lia. }
  rewrite <- HT. unfold div_half_even.
  pose proof (Z.div_mod (100 * Zpos m) T ltac:(lia)) as Hdm.
  pose proof (Z.mod_pos_bound (100 * Zpos m) T ltac:(lia)) as Hmod.
  set (q0 := 100 * Zpos m / T) in *. set (r0 := (100 * Zpos m) mod T) in *.
  assert (Hq0 : 0 <= q0) by (apply Z.div_pos; lia).
  assert (Hq : q0 <= Zpos p + 6).
  { destruct (Z_le_gt_dec q0 (Zpos p + 6)) as [H|H]; [exact H|exfalso].
    assert (H1 : T * (Zpos p + 7) <= T * q0) by (apply Z.mul_le_mono_nonneg_l; lia).
    assert (H2 : c * (T * (Zpos p + 7)) <= c * (T * q0))
      by (apply Z.mul_le_mono_nonneg_l; lia).
    assert (H3 : c * (T * q0) <= c * (100 * Zpos m))
      by (apply Z.mul_le_mono_nonneg_l; lia).
    assert (H4 : Zpos p * T <= c * (Zpos p * T)).
    { replace (Zpos p * T) with (1 * (Zpos p * T)) at 1 by lia.
      apply Z.mul_le_mono_nonneg_r; lia. }
    assert (H5 : c * 56 <= c * (7 * T)) by (apply Z.mul_le_mono_nonneg_l; lia).
    nia. }
  destruct (2 * r0 ?= T); [destruct (Z.even q0)| |]; rewrite Z2N.id; lia.
Qed.

Lemma pow10_split k : 3 <= k -> 10 ^ k = 100 * 10 ^ (k - 2).
Proof.
  intros Hk. replace k with (2 + (k - 2)) at 1 by lia.
  now rewrite Z.pow_add_r by lia.
Qed.

(** A numeral with more than two digits after the point, of which one
    after the second is not zero, and with at most 15 digits in all, is
    not admitted. *)
Lemma validate_price_more_places (n : N) (k : Z) :
  3 <= k <= 300 -> (n < 10 ^ 15)%N -> Z.of_N n mod 10 ^ (k - 2) <> 0 ->
  validate_price (float_of_dec false n (- k)) = false.
Proof.
  intros Hk Hn Hmod.
  destruct (validate_price (float_of_dec false n (- k))) eqn:Hv; [exfalso|reflexivity].
  destruct n as [|p]; [apply Hmod; apply Z.mod_0_l; apply Z.pow_nonzero; lia|].
  assert (Hp15 : Zpos p < 10 ^ 15).
  { change (Zpos p) with (Z.of_N (Npos p)). change (10 ^ 15) with (Z.of_N (10 ^ 15)%N). lia. }
  change (10 ^ 15) with 1000000000000000 in Hp15.
  assert (Hp : Zpos p < 2 ^ 52) by (change (2 ^ 52) with 4503599627370496; lia).
  destruct (float_of_dec_shape false p k ltac:(lia) Hp) as (m & e & Hx & Hm & He & Herr).
  rewrite Hx in Hv. destruct (validate_price_inv _ Hv) as (Hr & _ & _).
  cbn [round2] in Hr.
  set (c := 10 ^ (k - 2)) in *.
  assert (Hc : 10 <= c).
  { unfold c. change 10 with (10 ^ 1) at 1. apply Z.pow_le_mono_r; lia. }
  rewrite (pow10_split k) in Herr by lia. fold c in Herr.
  set (T := 2 ^ (- e)) in *.
  assert (HT8 : 8 <= T).
  { unfold T. change 8 with (2 ^ 3). apply Z.pow_le_mono_r; lia. }
  pose proof (hundredths_bound m p e c T He eq_refl ltac:(lia) ltac:(lia)) as Hh.
  destruct (hundredths m e) as [|hp] eqn:Hhm; [discriminate Hr|].
  assert (Hhp : Zpos hp < 2 ^ 50).
  { change (Z.of_N (Npos hp)) with (Zpos hp) in Hh.
    change (2 ^ 50) with 1125899906842624. lia. }
  destruct (float_of_dec_two_places_shape false hp Hhp)
    as (m2 & e2 & Hx2 & _ & _ & Herr2).
  rewrite Hx2 in Hr. injection Hr as -> ->. fold T in Herr2.
  change (2 ^ 52) with 4503599627370496 in Hm.
  assert (Heq : Zpos p = c * Zpos hp).
  { destruct (Z.eq_dec (Zpos p) (c * Zpos hp)) as [H|Hne]; [exact H|exfalso].
    assert (H1 : - (50 * c) <= c * (100 * Zpos m - Zpos hp * T) <= 50 * c) by nia.
    assert (H2 : T <= 100 * c).
    { destruct (Z_lt_ge_dec (Zpos p) (c * Zpos hp)) as [Hlt|Hge].
      - assert (T * 1 <= T * (c * Zpos hp - Zpos p))
          by (apply Z.mul_le_mono_nonneg_l; lia).
        nia.
      - assert (T * 1 <= T * (Zpos p - c * Zpos hp))
          by (apply Z.mul_le_mono_nonneg_l; lia).
        nia. }
    assert (H3 : Zpos p * T <= Zpos p * (100 * c))
      by (apply Z.mul_le_mono_nonneg_l; lia).
    assert (H4 : 100 * c * 4503599627370496 <= 100 * c * Zpos m)
      by (apply Z.mul_le_mono_nonneg_l; lia).
    nia. }
  apply Hmod. change (Z.of_N (Npos p)) with (Zpos p). rewrite Heq.
  rewrite Z.mul_comm. apply Z.mod_mul. lia.
Qed.

(** ** Claim on the boundaries of price and volume *)

(** C5, as the code has it.  [validate_price] accepts the float of
    [0.50] and rejects those of [0.49] and [1.001]; it rejects every
    float that is not the float of a numeral with at most two digits
    after the point, that is, of [n / 100] for a natural number [n]; it
    rejects every numeral [n / 10 ^ k] of at most 15 digits in which a
    digit after the second place is not zero.  [validate_volume] accepts
    1 and 1000000 and rejects 0 and 1000001.  (A longer numeral with
    more digits after the point is accepted when it has the float of a
    numeral with two, see the counterexample below.) *)
Theorem validate_price_volume_boundaries :
  validate_price <$> py_float "0.50" = Some true /\
  validate_price <$> py_float "0.49" = Some false /\
  validate_price <$> py_float "1.001" = Some false /\
  (forall x : float,
      (forall n, x <> float_of_dec false n (-2)) -> validate_price x = false) /\
  (forall (n : N) (k : Z),
      3 <= k <= 300 -> (n < 10 ^ 15)%N -> Z.of_N n mod 10 ^ (k - 2) <> 0 ->
      validate_price (float_of_dec false n (- k)) = false) /\
  validate_volume 1 = true /\ validate_volume 1000000 = true /\
  validate_volume 0 = false /\ validate_volume 1000001 = false.
Proof.
  split; [vm_compute; reflexivity|].
  split; [vm_compute; reflexivity|].
  split; [vm_compute; reflexivity|].
  split; [|split; [exact validate_price_more_places | repeat split; reflexivity]].
  intros x Hx. destruct (validate_price x) eqn:Hv; [|reflexivity].
  destruct (validate_price_two_places x Hv) as [n Hn]. now contradiction (Hx n).
Qed.

Lemma validate_price_volume_boundaries_witness :
  ((forall n, price_1001 <> float_of_dec false n (-2)) /\
   validate_price price_1001 = false) /\
  py_float "12.3456" = Some (float_of_dec false 123456 (- 4)) /\
  (3 <= 4 <= 300 /\ (123456 < 10 ^ 15)%N /\ Z.of_N 123456 mod 10 ^ (4 - 2) <> 0) /\
  validate_price (float_of_dec false 123456 (- 4)) = false.
Proof.
  assert (H : 3 <= 4 <= 300 /\ (123456 < 10 ^ 15)%N /\
              Z.of_N 123456 mod 10 ^ (4 - 2) <> 0)
    by (split; [lia | split; [reflexivity | discriminate]]).
  split; [split; [exact price_1001_not_two_places|]|].
  - exact (proj1 (proj2 (proj2 (proj2 validate_price_volume_boundaries)))
             price_1001 price_1001_not_two_places).
  - split; [vm_compute; reflexivity|]. split; [exact H|].
    exact (proj1 (proj2 (proj2 (proj2 (proj2 validate_price_volume_boundaries))))
             123456%N 4 (proj1 H) (proj1 (proj2 H)) (proj2 (proj2 H))).
Defined.

(** C5 as stated fails where floats lie more than 0.01 apart.  The float
    [2 ^ 46 + 2 ^ -6] is exactly 70368744177664.015625, six digits after
    the point, and the numeral [8796093022208.009], of 16 digits, has
    the float of [8796093022208.01]: [validate_price] accepts both, and
    the order is added. *)
Lemma validate_price_accepts_more_places :
  py_float "70368744177664.015625" = Some six_decimals /\
  Zpos 4503599627370497 * 10 ^ 6 = 70368744177664015625 * 2 ^ 6 /\
  70368744177664015625 mod 10 ^ 4 <> 0 /\
  validate_price six_decimals = true /\
  py_float "8796093022208.009" = Some (float_of_dec false 8796093022208009 (-3)) /\
  py_float "8796093022208.009" = py_float "8796093022208.01" /\
  validate_price <$> py_float "8796093022208.009" = Some true /\
  fst (process_command sample_registry (mkTradeBookService [] [] Absent)
         "buy AAPL 8796093022208.009 1") = msg_added.
Proof.
  repeat split; try (vm_compute; reflexivity). vm_compute. discriminate.
Qed.
